(** * RefOnRecord: the resume-verifier persistence layer

    A shallow embedding of [src/database/models.py] (the declared schema),
    [src/database/setup_database.py] (drop and recreate every table) and
    [src/database/populate_database.py] (the sample data set), with the
    properties of the schema contract proved over it.

    The state is the part of the database that [Base.metadata] declares:
    for each of the seven tables, whether it exists and the rows it holds
    in insertion order.  The store is the one the scripts open:
    [create_engine] on a SQLite URL, with nothing set on the connection.
    It enforces CHECK and UNIQUE and gives a new row its integer primary
    key by the rowid rule.  It does not enforce the foreign keys the
    models declare ([PRAGMA foreign_keys] is never turned on), so
    [ondelete='CASCADE'] does nothing in the store; what removes the rows
    a user owns is the ORM, which follows the relationships declared with
    [cascade='all, delete-orphan'] when an object is deleted through the
    session. *)

From Stdlib Require Import ZArith List String Bool Lia.
Import ListNotations.

Local Open Scope string_scope.
Local Open Scope list_scope.
Local Open Scope Z_scope.

(** ** Time *)

(** A [datetime] is a count of microseconds; a [timedelta] is a difference
    of two of them. *)
Definition datetime := Z.

Definition timedelta_days (days : Z) : Z := days * 86400000000.
Definition timedelta_hours (hours : Z) : Z := hours * 3600000000.
Definition timedelta_minutes (minutes : Z) : Z := minutes * 60000000.

(** A calendar [date]; Python orders dates as the triples (year, month, day). *)
Record date := mkdate { year : Z; month : Z; day : Z }.

Definition date_leb (a b : date) : bool :=
  (year a <? year b)
  || ((year a =? year b)
      && ((month a <? month b)
          || ((month a =? month b) && (day a <=? day b)))).

(** ** Outcomes of a statement *)

Inductive db_error :=
| NoSuchTable (table : string)
| CheckFailed (constraint : string)
| UniqueFailed (table column : string)
| DatabaseFull.  (* database or disk is full *)

Inductive result (A : Type) :=
| Ok (a : A)
| Err (e : db_error).
Arguments Ok {A} a.
Arguments Err {A} e.

(** A table that does not exist is [None]; an existing one lists its rows. *)
Definition table (R : Type) := option (list R).

Definition rows {R} (t : table R) : list R :=
  match t with Some l => l | None => [] end.

(** Membership of a string in the list of a [CheckConstraint(col.in_([...]))]. *)
Definition in_ (allowed : list string) (v : string) : bool :=
  existsb (String.eqb v) allowed.

Definition default {A} (supplied : option A) (dflt : A) : A :=
  match supplied with Some v => v | None => dflt end.

(** ** The models of models.py

    Each class is a module: [t] is a stored row, [kw.t] the keyword
    arguments of the constructor, where a column that is nullable or has a
    default may be left out ([None]). *)

Module User.
Module kw.
Record t := mk {
      email : string;
      username : string;
      password_hash : string;
      phone_number : option string;
      tier : option string;
      created_at : option datetime }.
End kw.
Record t := mk {
    user_id : Z;
    email : string;
    username : string;
    password_hash : string;
    phone_number : option string;
    tier : string;
    created_at : datetime }.
Definition tier_default := "normal".
Definition tier_values := ["normal"; "premium"].
Definition check_user_tier (r : t) : bool := in_ tier_values (tier r).
Definition with_pk (k : Z) (r : t) : t :=
    mk k (email r) (username r) (password_hash r) (phone_number r) (tier r)
       (created_at r).
End User.

Module ResumeProject.
Module kw.
Record t := mk {
      user_id : Z;
      project_name : string;
      template_style : option string;
      phone_number : option string;
      linkedin_url : option string;
      github_url : option string;
      personal_website : option string;
      current_company : option string;
      is_employed : option bool;
      education_details : option string;
      created_at : option datetime;
      updated_at : option datetime }.
End kw.
Record t := mk {
    project_id : Z;
    user_id : Z;
    project_name : string;
    template_style : string;
    phone_number : option string;
    linkedin_url : option string;
    github_url : option string;
    personal_website : option string;
    current_company : option string;
    is_employed : bool;
    education_details : option string;
    created_at : datetime;
    updated_at : datetime }.
Definition template_style_default := "classic".
Definition template_style_values := ["classic"; "modern"; "minimal"].
Definition check_template_style (r : t) : bool :=
    in_ template_style_values (template_style r).
Definition with_pk (k : Z) (r : t) : t :=
    mk k (user_id r) (project_name r) (template_style r) (phone_number r)
       (linkedin_url r) (github_url r) (personal_website r)
       (current_company r) (is_employed r) (education_details r)
       (created_at r) (updated_at r).
End ResumeProject.

Module Experience.
Module kw.
Record t := mk {
      project_id : Z;
      company_name : string;
      position_title : string;
      start_date : date;
      end_date : option date;
      description : string;
      verification_status : option string;
      created_at : option datetime;
      updated_at : option datetime }.
End kw.
Record t := mk {
    experience_id : Z;
    project_id : Z;
    company_name : string;
    position_title : string;
    start_date : date;
    end_date : option date;
    description : string;
    verification_status : string;
    created_at : datetime;
    updated_at : datetime }.
Definition verification_status_default := "not_requested".
Definition verification_status_values :=
    ["not_requested"; "pending"; "verified"; "rejected"].
Definition check_verification_status (r : t) : bool :=
    in_ verification_status_values (verification_status r).
  (** [(end_date IS NULL) OR (end_date >= start_date)] *)
Definition check_date_range (r : t) : bool :=
    match end_date r with
    | None => true
    | Some e => date_leb (start_date r) e
    end.
Definition with_pk (k : Z) (r : t) : t :=
    mk k (project_id r) (company_name r) (position_title r) (start_date r)
       (end_date r) (description r) (verification_status r) (created_at r)
       (updated_at r).
End Experience.

Module VerificationRequest.
Module kw.
Record t := mk {
      experience_id : Z;
      verifier_name : string;
      verifier_position : string;
      verifier_email : string;
      verification_token : string;
      status : option string;
      verifier_comment : option string;
      requested_at : option datetime;
      responded_at : option datetime;
      expires_at : option datetime }.
End kw.
Record t := mk {
    request_id : Z;
    experience_id : Z;
    verifier_name : string;
    verifier_position : string;
    verifier_email : string;
    verification_token : string;
    status : string;
    verifier_comment : option string;
    requested_at : datetime;
    responded_at : option datetime;
    expires_at : datetime }.
Definition status_default := "pending".
Definition status_values := ["pending"; "verified"; "rejected"; "expired"].
Definition check_request_status (r : t) : bool :=
    in_ status_values (status r).
Definition with_pk (k : Z) (r : t) : t :=
    mk k (experience_id r) (verifier_name r) (verifier_position r)
       (verifier_email r) (verification_token r) (status r)
       (verifier_comment r) (requested_at r) (responded_at r) (expires_at r).
End VerificationRequest.

Module ShareLink.
Module kw.
Record t := mk {
      project_id : Z;
      share_token : string;
      recipient_email : option string;
      access_type : option string;
      email_subject : option string;
      email_message : option string;
      view_count : option Z;
      created_at : option datetime;
      expires_at : option datetime }.
End kw.
Record t := mk {
    share_id : Z;
    project_id : Z;
    share_token : string;
    recipient_email : option string;
    access_type : string;
    email_subject : option string;
    email_message : option string;
    view_count : Z;
    created_at : datetime;
    expires_at : option datetime }.
Definition access_type_default := "view".
Definition access_type_values := ["view"; "edit"].
Definition check_access_type (r : t) : bool :=
    in_ access_type_values (access_type r).
Definition with_pk (k : Z) (r : t) : t :=
    mk k (project_id r) (share_token r) (recipient_email r) (access_type r)
       (email_subject r) (email_message r) (view_count r) (created_at r)
       (expires_at r).
End ShareLink.

Module Session.
Module kw.
Record t := mk {
      user_id : Z;
      token : string;
      created_at : option datetime;
      expires_at : option datetime }.
End kw.
Record t := mk {
    session_id : Z;
    user_id : Z;
    token : string;
    created_at : datetime;
    expires_at : datetime }.
Definition with_pk (k : Z) (r : t) : t :=
    mk k (user_id r) (token r) (created_at r) (expires_at r).
End Session.

Module Template.
Module kw.
Record t := mk {
      template_name : string;
      s3_path : string;
      created_at : option datetime }.
End kw.
Record t := mk {
    template_id : Z;
    template_name : string;
    s3_path : string;
    created_at : datetime }.
Definition with_pk (k : Z) (r : t) : t :=
    mk k (template_name r) (s3_path r) (created_at r).
End Template.

(** ** The database: the seven tables of [Base.metadata] *)

Record database := mkdb {
  user : table User.t;
  resume_project : table ResumeProject.t;
  experience : table Experience.t;
  verification_request : table VerificationRequest.t;
  share_link : table ShareLink.t;
  session : table Session.t;
  template : table Template.t }.

Definition set_user (t : table User.t) (db : database) : database :=
  mkdb t (resume_project db) (experience db) (verification_request db)
       (share_link db) (session db) (template db).
Definition set_resume_project (t : table ResumeProject.t) (db : database)
  : database :=
  mkdb (user db) t (experience db) (verification_request db) (share_link db)
       (session db) (template db).
Definition set_experience (t : table Experience.t) (db : database)
  : database :=
  mkdb (user db) (resume_project db) t (verification_request db)
       (share_link db) (session db) (template db).
Definition set_verification_request (t : table VerificationRequest.t)
  (db : database) : database :=
  mkdb (user db) (resume_project db) (experience db) t (share_link db)
       (session db) (template db).
Definition set_share_link (t : table ShareLink.t) (db : database)
  : database :=
  mkdb (user db) (resume_project db) (experience db)
       (verification_request db) t (session db) (template db).
Definition set_session (t : table Session.t) (db : database) : database :=
  mkdb (user db) (resume_project db) (experience db)
       (verification_request db) (share_link db) t (template db).
Definition set_template (t : table Template.t) (db : database) : database :=
  mkdb (user db) (resume_project db) (experience db)
       (verification_request db) (share_link db) (session db) t.

(** Row counts, in the order User, ResumeProject, Experience,
    VerificationRequest, ShareLink, Session, Template. *)
Definition row_counts (db : database) : list nat :=
  [ List.length (rows (user db)); List.length (rows (resume_project db));
    List.length (rows (experience db));
    List.length (rows (verification_request db));
    List.length (rows (share_link db)); List.length (rows (session db));
    List.length (rows (template db)) ].

(** ** The clock and the library calls the scripts make

    What [hashlib], [json], [datetime.utcnow] and [secrets] return is not
    computed here: an [oracle] supplies it.  The n-th reading of the clock
    and the n-th token drawn are [utcnow_at n] and [token_urlsafe_at n];
    [sqlite3_randomness n] is what the store's random source would yield,
    one 64-bit integer after the other, during the INSERT that follows n
    others of the session. *)

Inductive py_value :=
| Str (s : string)
| Int (z : Z)
| Float (literal : string).

Record oracle := mkoracle {
  sha256_hexdigest : string -> string;
  json_dumps : list (list (string * py_value)) -> string;
  utcnow_at : nat -> datetime;
  token_urlsafe_at : nat -> string;
  sqlite3_randomness : nat -> list Z }.

(** A computation that may read the clock: it is given the number of
    readings made so far and returns the new number. *)
Definition Clock (A : Type) := oracle -> nat -> A * nat.

Definition now_ret {A} (a : A) : Clock A := fun _ n => (a, n).
Definition now_bind {A B} (c : Clock A) (f : A -> Clock B) : Clock B :=
  fun o n => let (a, n') := c o n in f a o n'.
Definition utcnow : Clock datetime := fun o n => (utcnow_at o n, S n).

(** A column default that is a callable runs only when the column was not
    supplied. *)
Definition default_call {A} (supplied : option A) (dflt : Clock A) : Clock A :=
  match supplied with Some v => now_ret v | None => dflt end.

(** ** What a model declares *)

Record foreign_key (R : Type) := mkfk {
  fk_column : string;
  fk_parent : string;
  fk_value : R -> Z;
  fk_parent_keys : database -> list Z }.
Arguments mkfk {R}.
Arguments fk_column {R}.
Arguments fk_parent {R}.
Arguments fk_value {R}.
Arguments fk_parent_keys {R}.

Class Model (K R : Type) := {
  tablename : string;
  pk : R -> Z;
  set_pk : Z -> R -> R;
  check_constraints : list (string * (R -> bool));
  unique_columns : list (string * (R -> string));
  references : option (foreign_key R);
  column_defaults : K -> Clock R;
  on_update : datetime -> R -> R;
  get_table : database -> table R;
  set_table : table R -> database -> database }.

#[export] Instance User_model : Model User.kw.t User.t := {
  tablename := "user";
  pk := User.user_id;
  set_pk := User.with_pk;
  check_constraints := [("check_user_tier", User.check_user_tier)];
  unique_columns := [("email", User.email); ("username", User.username)];
  references := None;
  column_defaults k :=
    now_bind (default_call (User.kw.created_at k) utcnow) (fun created_at =>
    now_ret (User.mk 0 (User.kw.email k) (User.kw.username k)
               (User.kw.password_hash k) (User.kw.phone_number k)
               (default (User.kw.tier k) User.tier_default) created_at));
  on_update _ r := r;
  get_table := user;
  set_table := set_user }.

#[export] Instance ResumeProject_model
  : Model ResumeProject.kw.t ResumeProject.t := {
  tablename := "resume_project";
  pk := ResumeProject.project_id;
  set_pk := ResumeProject.with_pk;
  check_constraints :=
    [("check_template_style", ResumeProject.check_template_style)];
  unique_columns := [];
  references :=
    Some (mkfk "user_id" "user" ResumeProject.user_id
               (fun db => map User.user_id (rows (user db))));
  column_defaults k :=
    now_bind (default_call (ResumeProject.kw.created_at k) utcnow)
      (fun created_at =>
    now_bind (default_call (ResumeProject.kw.updated_at k) utcnow)
      (fun updated_at =>
    now_ret (ResumeProject.mk 0 (ResumeProject.kw.user_id k)
               (ResumeProject.kw.project_name k)
               (default (ResumeProject.kw.template_style k)
                        ResumeProject.template_style_default)
               (ResumeProject.kw.phone_number k)
               (ResumeProject.kw.linkedin_url k)
               (ResumeProject.kw.github_url k)
               (ResumeProject.kw.personal_website k)
               (ResumeProject.kw.current_company k)
               (default (ResumeProject.kw.is_employed k) false)
               (ResumeProject.kw.education_details k)
               created_at updated_at)));
  on_update now r :=
    ResumeProject.mk (ResumeProject.project_id r) (ResumeProject.user_id r)
      (ResumeProject.project_name r) (ResumeProject.template_style r)
      (ResumeProject.phone_number r) (ResumeProject.linkedin_url r)
      (ResumeProject.github_url r) (ResumeProject.personal_website r)
      (ResumeProject.current_company r) (ResumeProject.is_employed r)
      (ResumeProject.education_details r) (ResumeProject.created_at r) now;
  get_table := resume_project;
  set_table := set_resume_project }.

#[export] Instance Experience_model : Model Experience.kw.t Experience.t := {
  tablename := "experience";
  pk := Experience.experience_id;
  set_pk := Experience.with_pk;
  check_constraints :=
    [("check_verification_status", Experience.check_verification_status);
     ("check_date_range", Experience.check_date_range)];
  unique_columns := [];
  references :=
    Some (mkfk "project_id" "resume_project" Experience.project_id
               (fun db => map ResumeProject.project_id
                              (rows (resume_project db))));
  column_defaults k :=
    now_bind (default_call (Experience.kw.created_at k) utcnow)
      (fun created_at =>
    now_bind (default_call (Experience.kw.updated_at k) utcnow)
      (fun updated_at =>
    now_ret (Experience.mk 0 (Experience.kw.project_id k)
               (Experience.kw.company_name k)
               (Experience.kw.position_title k)
               (Experience.kw.start_date k) (Experience.kw.end_date k)
               (Experience.kw.description k)
               (default (Experience.kw.verification_status k)
                        Experience.verification_status_default)
               created_at updated_at)));
  on_update now r :=
    Experience.mk (Experience.experience_id r) (Experience.project_id r)
      (Experience.company_name r) (Experience.position_title r)
      (Experience.start_date r) (Experience.end_date r)
      (Experience.description r) (Experience.verification_status r)
      (Experience.created_at r) now;
  get_table := experience;
  set_table := set_experience }.

#[export] Instance VerificationRequest_model
  : Model VerificationRequest.kw.t VerificationRequest.t := {
  tablename := "verification_request";
  pk := VerificationRequest.request_id;
  set_pk := VerificationRequest.with_pk;
  check_constraints :=
    [("check_request_status", VerificationRequest.check_request_status)];
  unique_columns :=
    [("verification_token", VerificationRequest.verification_token)];
  references :=
    Some (mkfk "experience_id" "experience" VerificationRequest.experience_id
               (fun db => map Experience.experience_id
                              (rows (experience db))));
  column_defaults k :=
    now_bind (default_call (VerificationRequest.kw.requested_at k) utcnow)
      (fun requested_at =>
    now_bind (default_call (VerificationRequest.kw.expires_at k)
                (now_bind utcnow (fun t => now_ret (t + timedelta_days 30))))
      (fun expires_at =>
    now_ret (VerificationRequest.mk 0
               (VerificationRequest.kw.experience_id k)
               (VerificationRequest.kw.verifier_name k)
               (VerificationRequest.kw.verifier_position k)
               (VerificationRequest.kw.verifier_email k)
               (VerificationRequest.kw.verification_token k)
               (default (VerificationRequest.kw.status k)
                        VerificationRequest.status_default)
               (VerificationRequest.kw.verifier_comment k)
               requested_at
               (VerificationRequest.kw.responded_at k)
               expires_at)));
  on_update _ r := r;
  get_table := verification_request;
  set_table := set_verification_request }.

#[export] Instance ShareLink_model : Model ShareLink.kw.t ShareLink.t := {
  tablename := "share_link";
  pk := ShareLink.share_id;
  set_pk := ShareLink.with_pk;
  check_constraints := [("check_access_type", ShareLink.check_access_type)];
  unique_columns := [("share_token", ShareLink.share_token)];
  references :=
    Some (mkfk "project_id" "resume_project" ShareLink.project_id
               (fun db => map ResumeProject.project_id
                              (rows (resume_project db))));
  column_defaults k :=
    now_bind (default_call (ShareLink.kw.created_at k) utcnow)
      (fun created_at =>
    now_ret (ShareLink.mk 0 (ShareLink.kw.project_id k)
               (ShareLink.kw.share_token k)
               (ShareLink.kw.recipient_email k)
               (default (ShareLink.kw.access_type k)
                        ShareLink.access_type_default)
               (ShareLink.kw.email_subject k) (ShareLink.kw.email_message k)
               (default (ShareLink.kw.view_count k) 0)
               created_at (ShareLink.kw.expires_at k)));
  on_update _ r := r;
  get_table := share_link;
  set_table := set_share_link }.

#[export] Instance Session_model : Model Session.kw.t Session.t := {
  tablename := "session";
  pk := Session.session_id;
  set_pk := Session.with_pk;
  check_constraints := [];
  unique_columns := [("token", Session.token)];
  references :=
    Some (mkfk "user_id" "user" Session.user_id
               (fun db => map User.user_id (rows (user db))));
  column_defaults k :=
    now_bind (default_call (Session.kw.created_at k) utcnow)
      (fun created_at =>
    now_bind (default_call (Session.kw.expires_at k)
                (now_bind utcnow (fun t => now_ret (t + timedelta_days 7))))
      (fun expires_at =>
    now_ret (Session.mk 0 (Session.kw.user_id k) (Session.kw.token k)
               created_at expires_at)));
  on_update _ r := r;
  get_table := session;
  set_table := set_session }.

#[export] Instance Template_model : Model Template.kw.t Template.t := {
  tablename := "template";
  pk := Template.template_id;
  set_pk := Template.with_pk;
  check_constraints := [];
  unique_columns := [("s3_path", Template.s3_path)];
  references := None;
  column_defaults k :=
    now_bind (default_call (Template.kw.created_at k) utcnow)
      (fun created_at =>
    now_ret (Template.mk 0 (Template.kw.template_name k)
               (Template.kw.s3_path k) created_at));
  on_update _ r := r;
  get_table := template;
  set_table := set_template }.

(** ** Statements against one table *)

(** The largest integer primary key, 2^63 - 1. *)
Definition max_rowid : Z := 9223372036854775807.

(** The candidate key made of a 64-bit draw: its low 62 bits, plus one. *)
Definition candidate (draw : Z) : Z := Z.land draw 4611686018427387903 + 1.

Section Statements.
Context {K R : Type} {model : Model K R}.

(** The key of a new row.  The models declare an integer primary key, and
    the table is created without AUTOINCREMENT, so the key is the rowid:
    1 in an empty table, else one more than the largest key in the table.
    When the largest key is the largest integer, up to a hundred
    candidates between 1 and 2^62 are drawn at random and the first that
    is not in use is taken; there is no key if none of them is free. *)
Definition next_rowid (random : list Z) (l : list R) : option Z :=
  match map pk l with
  | [] => Some 1
  | k :: ks =>
      let largest := fold_right Z.max k ks in
      if largest <? max_rowid then Some (largest + 1)
      else find (fun v => negb (existsb (Z.eqb v) (k :: ks)))
                (map candidate (firstn 100 random))
  end.

Definition failed_check (r : R) : option string :=
  option_map fst (find (fun c => negb (snd c r)) check_constraints).

(** The unique column on which a row collides with another row of its
    table.  The store tests the unique indexes of a table from the one
    created last to the one created first, so when a row collides on
    several columns the one declared last is reported. *)
Definition taken (r : R) (others : list R) : option string :=
  option_map fst
    (find (fun u => existsb (fun r' => String.eqb (snd u r') (snd u r)) others)
          (rev unique_columns)).

(** The first constraint a row would break, given the other rows of its
    table: CHECK, then UNIQUE.  The foreign key is not looked at. *)
Definition violation (r : R) (others : list R) : option db_error :=
  match failed_check r with
  | Some c => Some (CheckFailed c)
  | None =>
    match taken r others with
    | Some c => Some (UniqueFailed tablename c)
    | None => None
    end
  end.

(** INSERT: the row gets its key and goes to the end of the table, or the
    statement fails and there is no new state.  [random] is what the
    random source yields during the statement.  Failures are looked for
    in the order: no such table, CHECK, UNIQUE, no key left.  (The store
    draws the key before it tests the row; the two orders give the same
    outcome except for the error reported when a row breaks a constraint
    and no key is left either.) *)
Definition insert (random : list Z) (r : R) (db : database)
  : result (R * database) :=
  match get_table db with
  | None => Err (NoSuchTable tablename)
  | Some l =>
    match violation r l with
    | Some e => Err e
    | None =>
      match next_rowid random l with
      | Some k =>
          let r' := set_pk k r in
          Ok (r', set_table (Some (l ++ [r'])) db)
      | None => Err DatabaseFull
      end
    end
  end.

(** UPDATE ... WHERE pk = k: the [onupdate] defaults run first, then the
    assignments; the key is kept.  No row with that key is not an error. *)
Definition update (k : Z) (now : datetime) (assign : R -> R) (db : database)
  : result database :=
  match get_table db with
  | None => Err (NoSuchTable tablename)
  | Some l =>
    match find (fun r => pk r =? k) l with
    | None => Ok db
    | Some old =>
      let new := set_pk k (assign (on_update now old)) in
      match violation new (filter (fun r => negb (pk r =? k)) l) with
      | Some e => Err e
      | None =>
        Ok (set_table
              (Some (map (fun r => if pk r =? k then new else r) l)) db)
      end
    end
  end.

(** DROP TABLE and CREATE TABLE as [drop_all] and [create_all] emit them,
    with [checkfirst]: only for a table that is, or is not, there. *)
Definition drop_table (db : database) : database :=
  match get_table db with
  | Some _ => set_table None db
  | None => db
  end.

Definition create_table (db : database) : database :=
  match get_table db with
  | Some _ => db
  | None => set_table (Some []) db
  end.

End Statements.

(** ** Deleting through the session

    [db_session.delete(obj)] and the flush.  The relationships of
    models.py that carry [cascade='all, delete-orphan'] are
    [User.projects], [User.sessions], [ResumeProject.experiences],
    [ResumeProject.share_links] and [Experience.verification_requests]:
    the unit of work deletes the objects they reach, down the chain,
    together with the object itself. *)

Definition among (ks : list Z) (k : Z) : bool := existsb (Z.eqb k) ks.

Definition purge {R} (doomed : R -> bool) (t : table R) : table R :=
  option_map (filter (fun r => negb (doomed r))) t.

Definition doomed_keys {R} (key : R -> Z) (doomed : R -> bool) (t : table R)
  : list Z :=
  map key (filter doomed (rows t)).

Definition delete_experience_where (doomed : Experience.t -> bool)
  (db : database) : database :=
  let dead := doomed_keys Experience.experience_id doomed (experience db) in
  set_experience (purge doomed (experience db))
    (set_verification_request
       (purge (fun v => among dead (VerificationRequest.experience_id v))
              (verification_request db))
       db).

Definition delete_resume_project_where (doomed : ResumeProject.t -> bool)
  (db : database) : database :=
  let dead :=
    doomed_keys ResumeProject.project_id doomed (resume_project db) in
  let db1 :=
    delete_experience_where
      (fun e => among dead (Experience.project_id e)) db in
  set_resume_project (purge doomed (resume_project db1))
    (set_share_link
       (purge (fun s => among dead (ShareLink.project_id s)) (share_link db1))
       db1).

Definition delete_user_where (doomed : User.t -> bool) (db : database)
  : database :=
  let dead := doomed_keys User.user_id doomed (user db) in
  let db1 :=
    delete_resume_project_where
      (fun p => among dead (ResumeProject.user_id p)) db in
  set_user (purge doomed (user db1))
    (set_session
       (purge (fun s => among dead (Session.user_id s)) (session db1)) db1).

(** [db_session.delete(user)] for the user whose key is [uid], flushed. *)
Definition delete_user (uid : Z) (db : database) : result database :=
  match user db with
  | None => Err (NoSuchTable "user")
  | Some _ => Ok (delete_user_where (fun u => User.user_id u =? uid) db)
  end.


(** ** setup_database.py *)

(** [Base.metadata.drop_all]: children before parents. *)
Definition drop_all (db : database) : database :=
  drop_table (model := User_model)
    (drop_table (model := Template_model)
       (drop_table (model := ResumeProject_model)
          (drop_table (model := Session_model)
             (drop_table (model := Experience_model)
                (drop_table (model := ShareLink_model)
                   (drop_table (model := VerificationRequest_model) db)))))).

(** [Base.metadata.create_all]: parents before children. *)
Definition create_all (db : database) : database :=
  create_table (model := VerificationRequest_model)
    (create_table (model := ShareLink_model)
       (create_table (model := Experience_model)
          (create_table (model := Session_model)
             (create_table (model := ResumeProject_model)
                (create_table (model := Template_model)
                   (create_table (model := User_model) db)))))).

Definition setup_database (db : database) : database :=
  create_all (drop_all db).

Definition empty_schema : database :=
  mkdb (Some []) (Some []) (Some []) (Some []) (Some []) (Some []) (Some []).

(** ** The ORM session of populate_database.py

    A [world] is what a run of the script sees: the oracle, how far it has
    read the clock and the token source, the database as last committed,
    the database inside the open transaction, and the INSERTs emitted. *)

Record stmt := mkstmt {
  stmt_table : string;
  stmt_pk : Z;
  stmt_parent : option (string * Z) }.

Record world := mkworld {
  runtime : oracle;
  clock_reads : nat;
  tokens_drawn : nat;
  committed : database;
  pending : database;
  emitted : list stmt }.

(** A step of the script returns a value or raises; the world goes on in
    both cases. *)
Definition M (A : Type) := world -> result A * world.

Definition ret {A} (a : A) : M A := fun w => (Ok a, w).
Definition raise {A} (e : db_error) : M A := fun w => (Err e, w).
Definition bind {A B} (c : M A) (f : A -> M B) : M B :=
  fun w =>
    match c w with
    | (Ok a, w') => f a w'
    | (Err e, w') => (Err e, w')
    end.

Declare Scope script_scope.
Delimit Scope script_scope with script.
Notation "x <- c1 ;; c2" := (bind c1 (fun x => c2))
  (at level 61, c1 at next level, right associativity) : script_scope.
Notation "c1 ;; c2" := (bind c1 (fun _ => c2))
  (at level 61, right associativity) : script_scope.
Local Open Scope script_scope.

Definition try_except {A} (body : M A) (handler : db_error -> M A) : M A :=
  fun w =>
    match body w with
    | (Ok a, w') => (Ok a, w')
    | (Err e, w') => handler e w'
    end.

Definition try_finally {A} (body : M A) (cleanup : M unit) : M A :=
  fun w =>
    match body w with
    | (r, w') => (r, snd (cleanup w'))
    end.

Definition read_clock {A} (c : Clock A) : M A :=
  fun w =>
    let (a, n) := c (runtime w) (clock_reads w) in
    (Ok a, mkworld (runtime w) n (tokens_drawn w) (committed w) (pending w)
                   (emitted w)).

(** [datetime.utcnow() - delta] and [datetime.utcnow() + delta] *)
Definition utcnow_minus (delta : Z) : M datetime :=
  read_clock (now_bind utcnow (fun t => now_ret (t - delta))).
Definition utcnow_plus (delta : Z) : M datetime :=
  read_clock (now_bind utcnow (fun t => now_ret (t + delta))).

Definition hash_password (password : string) : M string :=
  fun w => (Ok (sha256_hexdigest (runtime w) password), w).

Definition dumps (obj : list (list (string * py_value))) : M string :=
  fun w => (Ok (json_dumps (runtime w) obj), w).

Definition generate_token : M string :=
  fun w =>
    (Ok (token_urlsafe_at (runtime w) (tokens_drawn w)),
     mkworld (runtime w) (clock_reads w) (S (tokens_drawn w)) (committed w)
             (pending w) (emitted w)).

Section Session.
Context {K R : Type} {model : Model K R}.

Definition stmt_of (r : R) : stmt :=
  mkstmt tablename (pk r)
    (match references with
     | Some fk => Some (fk_parent fk, fk_value fk r)
     | None => None
     end).

(** [db_session.add(obj)] together with the flush that the next [commit]
    starts: the column defaults are computed, the INSERT runs inside the
    open transaction, and the object comes back with its primary key.
    The random source is read at the number of INSERTs emitted so far.
    (Nothing runs between [add_all] and [commit] in the script, so flushing
    at once changes nothing.) *)
Definition add (obj : K) : M R :=
  r0 <- read_clock (column_defaults obj) ;;
  fun w =>
    match insert (sqlite3_randomness (runtime w) (List.length (emitted w)))
                 r0 (pending w) with
    | Ok (r, db) =>
        (Ok r, mkworld (runtime w) (clock_reads w) (tokens_drawn w)
                       (committed w) db (emitted w ++ [stmt_of r]))
    | Err e => (Err e, w)
    end.

End Session.

Definition commit : M unit :=
  fun w => (Ok tt, mkworld (runtime w) (clock_reads w) (tokens_drawn w)
                           (pending w) (pending w) (emitted w)).

Definition rollback : M unit :=
  fun w => (Ok tt, mkworld (runtime w) (clock_reads w) (tokens_drawn w)
                           (committed w) (committed w) (emitted w)).

(** [db_session.close()] ends whatever transaction is still open. *)
Definition close : M unit := rollback.

(** [Session_class()]: a session on the database, nothing pending. *)
Definition connect (o : oracle) (db : database) : world :=
  mkworld o 0 0 db db [].

(** Run a script and look at what it left committed. *)
Definition run {A} (script : M A) (o : oracle) (db : database)
  : result A * database :=
  let (r, w) := script (connect o db) in (r, committed w).

(** ** populate_database.py *)

(** 1. CREATE USERS *)
Definition create_users : M (User.t * User.t * User.t) :=
  h1 <- hash_password "password123" ;;
  t1 <- utcnow_minus (timedelta_days 90) ;;
  let user1 :=
    {| User.kw.email := "john.doe@email.com";
       User.kw.username := "johndoe";
       User.kw.password_hash := h1;
       User.kw.phone_number := Some "+1-555-0101";
       User.kw.tier := Some "premium";
       User.kw.created_at := Some t1 |} in
  h2 <- hash_password "password456" ;;
  t2 <- utcnow_minus (timedelta_days 60) ;;
  let user2 :=
    {| User.kw.email := "jane.smith@email.com";
       User.kw.username := "janesmith";
       User.kw.password_hash := h2;
       User.kw.phone_number := Some "+1-555-0102";
       User.kw.tier := Some "normal";
       User.kw.created_at := Some t2 |} in
  h3 <- hash_password "password789" ;;
  t3 <- utcnow_minus (timedelta_days 30) ;;
  let user3 :=
    {| User.kw.email := "alex.johnson@email.com";
       User.kw.username := "alexj";
       User.kw.password_hash := h3;
       User.kw.phone_number := Some "+1-555-0103";
       User.kw.tier := Some "normal";
       User.kw.created_at := Some t3 |} in
  user1 <- add user1 ;;
  user2 <- add user2 ;;
  user3 <- add user3 ;;
  commit ;;
  ret (user1, user2, user3).

(** 2. CREATE RESUME PROJECTS *)
Definition create_resume_projects (user1 user2 user3 : User.t)
  : M (ResumeProject.t * ResumeProject.t * ResumeProject.t * ResumeProject.t)
  :=
  e1 <- dumps [ [ ("degree", Str "Bachelor of Science");
                  ("field", Str "Computer Science");
                  ("institution", Str "MIT");
                  ("graduation_year", Int 2015);
                  ("gpa", Float "3.8") ];
                [ ("degree", Str "Master of Science");
                  ("field", Str "Software Engineering");
                  ("institution", Str "Stanford University");
                  ("graduation_year", Int 2017);
                  ("gpa", Float "3.9") ] ] ;;
  t1 <- utcnow_minus (timedelta_days 80) ;;
  let project1 :=
    {| ResumeProject.kw.user_id := User.user_id user1;
       ResumeProject.kw.project_name := "Software Engineering Resume";
       ResumeProject.kw.template_style := None;
       ResumeProject.kw.phone_number := Some "+1-555-0101";
       ResumeProject.kw.linkedin_url := Some "https://linkedin.com/in/johndoe";
       ResumeProject.kw.github_url := Some "https://github.com/johndoe";
       ResumeProject.kw.personal_website := Some "https://johndoe.dev";
       ResumeProject.kw.current_company := Some "Tech Corp";
       ResumeProject.kw.is_employed := Some true;
       ResumeProject.kw.education_details := Some e1;
       ResumeProject.kw.created_at := Some t1;
       ResumeProject.kw.updated_at := None |} in
  e2 <- dumps [ [ ("degree", Str "Bachelor of Science");
                  ("field", Str "Computer Science");
                  ("institution", Str "MIT");
                  ("graduation_year", Int 2015);
                  ("gpa", Float "3.8") ] ] ;;
  t2 <- utcnow_minus (timedelta_days 40) ;;
  let project2 :=
    {| ResumeProject.kw.user_id := User.user_id user1;
       ResumeProject.kw.project_name := "Project Management Resume";
       ResumeProject.kw.template_style := Some "classic";
       ResumeProject.kw.phone_number := Some "+1-555-0101";
       ResumeProject.kw.linkedin_url := Some "https://linkedin.com/in/johndoe";
       ResumeProject.kw.github_url := None;
       ResumeProject.kw.personal_website := None;
       ResumeProject.kw.current_company := Some "Tech Corp";
       ResumeProject.kw.is_employed := Some true;
       ResumeProject.kw.education_details := Some e2;
       ResumeProject.kw.created_at := Some t2;
       ResumeProject.kw.updated_at := None |} in
  e3 <- dumps [ [ ("degree", Str "Bachelor of Arts");
                  ("field", Str "Marketing");
                  ("institution", Str "UCLA");
                  ("graduation_year", Int 2016);
                  ("gpa", Float "3.7") ] ] ;;
  t3 <- utcnow_minus (timedelta_days 50) ;;
  let project3 :=
    {| ResumeProject.kw.user_id := User.user_id user2;
       ResumeProject.kw.project_name := "Marketing Professional Resume";
       ResumeProject.kw.template_style := Some "minimal";
       ResumeProject.kw.phone_number := Some "+1-555-0102";
       ResumeProject.kw.linkedin_url :=
         Some "https://linkedin.com/in/janesmith";
       ResumeProject.kw.github_url := None;
       ResumeProject.kw.personal_website := None;
       ResumeProject.kw.current_company := None;
       ResumeProject.kw.is_employed := Some false;
       ResumeProject.kw.education_details := Some e3;
       ResumeProject.kw.created_at := Some t3;
       ResumeProject.kw.updated_at := None |} in
  e4 <- dumps [ [ ("degree", Str "Ph.D.");
                  ("field", Str "Statistics");
                  ("institution", Str "UC Berkeley");
                  ("graduation_year", Int 2019);
                  ("gpa", Float "4.0") ] ] ;;
  t4 <- utcnow_minus (timedelta_days 25) ;;
  let project4 :=
    {| ResumeProject.kw.user_id := User.user_id user3;
       ResumeProject.kw.project_name := "Data Science Resume";
       ResumeProject.kw.template_style := Some "modern";
       ResumeProject.kw.phone_number := Some "+1-555-0103";
       ResumeProject.kw.linkedin_url :=
         Some "https://linkedin.com/in/alexjohnson";
       ResumeProject.kw.github_url := Some "https://github.com/alexj";
       ResumeProject.kw.personal_website := None;
       ResumeProject.kw.current_company := Some "Analytics Inc";
       ResumeProject.kw.is_employed := Some true;
       ResumeProject.kw.education_details := Some e4;
       ResumeProject.kw.created_at := Some t4;
       ResumeProject.kw.updated_at := None |} in
  project1 <- add project1 ;;
  project2 <- add project2 ;;
  project3 <- add project3 ;;
  project4 <- add project4 ;;
  commit ;;
  ret (project1, project2, project3, project4).

(** One [Experience(...)] of the script: every one supplies the same
    columns and leaves [updated_at] to its default. *)
Definition Experience_ (project : ResumeProject.t)
  (company_name position_title : string) (start_date : date)
  (end_date : option date) (description verification_status : string)
  (days_ago : Z) : M Experience.kw.t :=
  t <- utcnow_minus (timedelta_days days_ago) ;;
  ret {| Experience.kw.project_id := ResumeProject.project_id project;
         Experience.kw.company_name := company_name;
         Experience.kw.position_title := position_title;
         Experience.kw.start_date := start_date;
         Experience.kw.end_date := end_date;
         Experience.kw.description := description;
         Experience.kw.verification_status := Some verification_status;
         Experience.kw.created_at := Some t;
         Experience.kw.updated_at := None |}.

(** 3. CREATE WORK EXPERIENCES *)
Definition create_work_experiences
  (project1 project2 project3 project4 : ResumeProject.t)
  : M (Experience.t * Experience.t * Experience.t * Experience.t
       * Experience.t * Experience.t * Experience.t * Experience.t) :=
  exp1 <- Experience_ project1 "Tech Corp" "Senior Software Engineer"
            (mkdate 2020 1 15) None
            "Leading development of microservices architecture. Mentoring junior developers. Implementing CI/CD pipelines and improving code quality through comprehensive testing."
            "verified" 75 ;;
  exp2 <- Experience_ project1 "StartupXYZ" "Software Engineer"
            (mkdate 2017 6 1) (Some (mkdate 2019 12 31))
            "Developed RESTful APIs using Python and Flask. Built responsive front-end interfaces with React. Collaborated with cross-functional teams to deliver features."
            "verified" 75 ;;
  exp3 <- Experience_ project1 "InnovateLabs" "Junior Developer"
            (mkdate 2015 7 1) (Some (mkdate 2017 5 31))
            "Built internal tools using JavaScript and Node.js. Participated in agile development cycles. Fixed bugs and improved application performance."
            "pending" 75 ;;
  exp4 <- Experience_ project2 "Tech Corp" "Technical Project Manager"
            (mkdate 2021 3 1) None
            "Managing cross-functional teams of 15+ members. Overseeing product roadmap and sprint planning. Stakeholder communication and risk management."
            "not_requested" 35 ;;
  exp5 <- Experience_ project3 "Brand Solutions Inc" "Senior Marketing Manager"
            (mkdate 2019 1 1) (Some (mkdate 2024 6 30))
            "Led marketing campaigns resulting in 40% increase in customer engagement. Managed budget of $500K. Coordinated with design and content teams."
            "verified" 45 ;;
  exp6 <- Experience_ project3 "Digital Marketing Agency"
            "Marketing Coordinator"
            (mkdate 2016 8 1) (Some (mkdate 2018 12 31))
            "Coordinated social media campaigns across multiple platforms. Analyzed campaign metrics and prepared reports. Collaborated with clients on strategy."
            "rejected" 45 ;;
  exp7 <- Experience_ project4 "Analytics Inc" "Lead Data Scientist"
            (mkdate 2022 1 15) None
            "Building machine learning models for customer churn prediction. Leading a team of 5 data scientists. Presenting insights to C-level executives."
            "verified" 20 ;;
  exp8 <- Experience_ project4 "Research Institute" "Research Scientist"
            (mkdate 2019 9 1) (Some (mkdate 2021 12 31))
            "Conducted statistical analysis on large datasets. Published 5 peer-reviewed papers. Developed novel algorithms for data processing."
            "pending" 20 ;;
  exp1 <- add exp1 ;;
  exp2 <- add exp2 ;;
  exp3 <- add exp3 ;;
  exp4 <- add exp4 ;;
  exp5 <- add exp5 ;;
  exp6 <- add exp6 ;;
  exp7 <- add exp7 ;;
  exp8 <- add exp8 ;;
  commit ;;
  ret (exp1, exp2, exp3, exp4, exp5, exp6, exp7, exp8).

(** One [VerificationRequest(...)] of the script: the token is drawn, then
    the clock is read for [requested_at], for [responded_at] when there is
    a response, and for [expires_at]. *)
Definition VerificationRequest_ (exp : Experience.t)
  (verifier_name verifier_position verifier_email status : string)
  (verifier_comment : option string) (requested_days_ago : Z)
  (responded_days_ago : option Z) (expires_in_days : Z)
  : M VerificationRequest.kw.t :=
  token <- generate_token ;;
  requested_at <- utcnow_minus (timedelta_days requested_days_ago) ;;
  responded_at <-
    match responded_days_ago with
    | Some d => t <- utcnow_minus (timedelta_days d) ;; ret (Some t)
    | None => ret None
    end ;;
  expires_at <- utcnow_plus (timedelta_days expires_in_days) ;;
  ret {| VerificationRequest.kw.experience_id := Experience.experience_id exp;
         VerificationRequest.kw.verifier_name := verifier_name;
         VerificationRequest.kw.verifier_position := verifier_position;
         VerificationRequest.kw.verifier_email := verifier_email;
         VerificationRequest.kw.verification_token := token;
         VerificationRequest.kw.status := Some status;
         VerificationRequest.kw.verifier_comment := verifier_comment;
         VerificationRequest.kw.requested_at := Some requested_at;
         VerificationRequest.kw.responded_at := responded_at;
         VerificationRequest.kw.expires_at := Some expires_at |}.

(** 4. CREATE VERIFICATION REQUESTS *)
Definition create_verification_requests
  (exp1 exp2 exp3 exp5 exp6 exp7 exp8 : Experience.t) : M unit :=
  vr1 <- VerificationRequest_ exp1 "Sarah Manager" "Engineering Director"
           "sarah.manager@techcorp.com" "verified"
           (Some "John is an exceptional engineer. His technical skills and leadership have been invaluable to our team.")
           60 (Some 55) 30 ;;
  vr2 <- VerificationRequest_ exp2 "Mike Founder" "CEO"
           "mike@startupxyz.com" "verified"
           (Some "John was a key member of our early engineering team. Highly recommend!")
           70 (Some 65) 30 ;;
  vr3 <- VerificationRequest_ exp3 "Lisa Supervisor" "Senior Developer"
           "lisa@innovatelabs.com" "pending" None 10 None 20 ;;
  vr4 <- VerificationRequest_ exp5 "Robert Director" "VP of Marketing"
           "robert@brandsolutions.com" "verified"
           (Some "Jane consistently exceeded expectations. Her campaigns drove significant business growth.")
           40 (Some 35) 30 ;;
  vr5 <- VerificationRequest_ exp6 "Chris Manager" "Marketing Director"
           "chris@digitalagency.com" "rejected"
           (Some "I do not recall working with Jane in this capacity during the stated time period.")
           42 (Some 38) 30 ;;
  vr6 <- VerificationRequest_ exp7 "Emily CTO" "Chief Technology Officer"
           "emily.cto@analyticsinc.com" "verified"
           (Some "Alex is a brilliant data scientist. Their models have saved us millions in operational costs.")
           15 (Some 12) 30 ;;
  vr7 <- VerificationRequest_ exp8 "Dr. Patricia Research"
           "Principal Investigator" "patricia@researchinstitute.edu"
           "pending" None 5 None 25 ;;
  vr8 <- VerificationRequest_ exp3 "Tom Colleague" "Developer"
           "tom@innovatelabs.com" "pending" None 8 None 22 ;;
  add vr1 ;; add vr2 ;; add vr3 ;; add vr4 ;;
  add vr5 ;; add vr6 ;; add vr7 ;; add vr8 ;;
  commit.

(** One [ShareLink(...)] of the script. *)
Definition ShareLink_ (project : ResumeProject.t)
  (recipient_email : option string) (access_type : string)
  (email_subject email_message : option string) (view_count : Z)
  (created_days_ago : Z) (expires_in_days : option Z) : M ShareLink.kw.t :=
  token <- generate_token ;;
  created_at <- utcnow_minus (timedelta_days created_days_ago) ;;
  expires_at <-
    match expires_in_days with
    | Some d => t <- utcnow_plus (timedelta_days d) ;; ret (Some t)
    | None => ret None
    end ;;
  ret {| ShareLink.kw.project_id := ResumeProject.project_id project;
         ShareLink.kw.share_token := token;
         ShareLink.kw.recipient_email := recipient_email;
         ShareLink.kw.access_type := Some access_type;
         ShareLink.kw.email_subject := email_subject;
         ShareLink.kw.email_message := email_message;
         ShareLink.kw.view_count := Some view_count;
         ShareLink.kw.created_at := Some created_at;
         ShareLink.kw.expires_at := expires_at |}.

(** 5. CREATE SHARE LINKS *)
Definition create_share_links
  (project1 project2 project3 project4 : ResumeProject.t) : M unit :=
  share1 <- ShareLink_ project1 (Some "recruiter@bigtech.com") "view"
              (Some "My Software Engineering Resume")
              (Some "Hi! Please review my resume for the Senior Engineer position.")
              5 30 (Some 60) ;;
  share2 <- ShareLink_ project1 (Some "mentor@career.com") "edit"
              (Some "Resume Review Request")
              (Some "Could you please review and suggest edits to my resume?")
              2 20 None ;;
  share3 <- ShareLink_ project2 (Some "pm.hiring@company.com") "view"
              (Some "Project Management Resume")
              (Some "Here is my PM-focused resume for the open position.")
              1 10 (Some 30) ;;
  share4 <- ShareLink_ project3 None "view" None None 12 45 None ;;
  share5 <- ShareLink_ project4 (Some "data.recruiter@analytics.com") "view"
              (Some "Data Science Resume - Alex Johnson")
              (Some "Please find my resume attached via this secure link.")
              3 5 (Some 45) ;;
  add share1 ;; add share2 ;; add share3 ;; add share4 ;; add share5 ;;
  commit.

(** One [Session(...)] of the script. *)
Definition Session_ (user : User.t) (age : Z) (expires_in_days : Z)
  : M Session.kw.t :=
  token <- generate_token ;;
  created_at <- utcnow_minus age ;;
  expires_at <- utcnow_plus (timedelta_days expires_in_days) ;;
  ret {| Session.kw.user_id := User.user_id user;
         Session.kw.token := token;
         Session.kw.created_at := Some created_at;
         Session.kw.expires_at := Some expires_at |}.

(** 6. CREATE SESSIONS *)
Definition create_sessions (user1 user2 user3 : User.t) : M unit :=
  session1 <- Session_ user1 (timedelta_hours 2) 7 ;;
  session2 <- Session_ user1 (timedelta_days 1) 6 ;;
  session3 <- Session_ user2 (timedelta_hours 5) 7 ;;
  session4 <- Session_ user3 (timedelta_minutes 30) 7 ;;
  add session1 ;; add session2 ;; add session3 ;; add session4 ;;
  commit.

(** The body of the [try]: the six stages, each ending in its own commit. *)
Definition populate_body : M unit :=
  bind create_users (fun '(user1, user2, user3) =>
  bind (create_resume_projects user1 user2 user3)
    (fun '(project1, project2, project3, project4) =>
  bind (create_work_experiences project1 project2 project3 project4)
    (fun '(exp1, exp2, exp3, exp4, exp5, exp6, exp7, exp8) =>
  create_verification_requests exp1 exp2 exp3 exp5 exp6 exp7 exp8 ;;
  create_share_links project1 project2 project3 project4 ;;
  create_sessions user1 user2 user3))).

(** [try: ... except Exception: rollback(); raise  finally: close()] *)
Definition populate_database : M unit :=
  try_finally
    (try_except populate_body (fun e => rollback ;; raise e))
    close.

(** The rows a full run adds to each table, in the order of [row_counts]. *)
Definition sample_counts : list nat := [3; 4; 8; 8; 5; 4; 0]%nat.

(** An oracle to run the script with: the clock advances by one second per
    reading, from a little after the start of 2026, the n-th token is a
    string of n letters, and the random source counts up. *)
Fixpoint letters (n : nat) : string :=
  match n with
  | O => "t"
  | S n' => String.append "a" (letters n')
  end.

Definition demo_oracle : oracle :=
  mkoracle (fun s => String.append "sha256:" s)
           (fun _ => "[...]")
           (fun n => Z.of_nat n * 1000000 + 1767225600000000)
           letters
           (fun n => map Z.of_nat (seq n 100)).

(** ** What the properties are stated with *)

(** [a <= b] on calendar dates. *)
Definition date_le (a b : date) : Prop :=
  year a < year b
  \/ (year a = year b
      /\ (month a < month b \/ (month a = month b /\ day a <= day b))).

(** Every stored user has one of the two tiers. *)
Definition tiers_ok (db : database) : Prop :=
  forall u, In u (rows (user db)) ->
    User.tier u = "normal" \/ User.tier u = "premium".

(** Every stored experience that has an end date ends no earlier than it
    starts. *)
Definition date_ranges_ok (db : database) : Prop :=
  forall e d, In e (rows (experience db)) -> Experience.end_date e = Some d ->
    date_le (Experience.start_date e) d.

(** The facts about a model's accessors that the generic proofs use. *)
Class ModelLaws {K R : Type} (model : Model K R) (index : nat) := {
  get_set : forall t db, get_table (set_table t db) = t;
  get_counts : forall db,
    nth index (row_counts db) 0%nat = List.length (rows (get_table db));
  set_counts : forall l db,
    row_counts (set_table (Some l) db)
    = firstn index (row_counts db)
      ++ List.length l :: skipn (S index) (row_counts db) }.

(** A user row with a tier outside the enumeration. *)
Definition guest : User.t :=
  User.mk 0 "guest@email.com" "guest" "x" None "gold" 0.

(** The experience of the specification's example: it starts on 2020-01-15
    and ends on 2019-12-31. *)
Definition backwards : Experience.t :=
  Experience.mk 0 1 "Tech Corp" "Engineer" (mkdate 2020 1 15)
    (Some (mkdate 2019 12 31)) "" "not_requested" 0 0.

(** Keyword arguments that leave the enumerated column, and every other
    column with a default, to the defaults. *)
Definition bare_user : User.kw.t :=
  User.kw.mk "guest@email.com" "guest" "x" None None None.

(** Every value of a foreign-key column is a key of the parent table. *)
Definition references_ok {C} (fk : C -> Z) (children : table C)
  (parent_keys : list Z) : Prop :=
  forall c, In c (rows children) -> In (fk c) parent_keys.

Definition user_keys (db : database) : list Z :=
  map User.user_id (rows (user db)).
Definition project_keys (db : database) : list Z :=
  map ResumeProject.project_id (rows (resume_project db)).
Definition experience_keys (db : database) : list Z :=
  map Experience.experience_id (rows (experience db)).

(** No orphan rows: the five foreign keys of the schema all resolve. *)
Definition ref_integrity (db : database) : Prop :=
  references_ok ResumeProject.user_id (resume_project db) (user_keys db)
  /\ references_ok Session.user_id (session db) (user_keys db)
  /\ references_ok Experience.project_id (experience db) (project_keys db)
  /\ references_ok ShareLink.project_id (share_link db) (project_keys db)
  /\ references_ok VerificationRequest.experience_id
       (verification_request db) (experience_keys db).

Definition references_okb {C} (fk : C -> Z) (children : table C)
  (parent_keys : list Z) : bool :=
  forallb (fun c => among parent_keys (fk c)) (rows children).

Definition ref_integrityb (db : database) : bool :=
  references_okb ResumeProject.user_id (resume_project db) (user_keys db)
  && references_okb Session.user_id (session db) (user_keys db)
  && references_okb Experience.project_id (experience db) (project_keys db)
  && references_okb ShareLink.project_id (share_link db) (project_keys db)
  && references_okb VerificationRequest.experience_id
       (verification_request db) (experience_keys db).

(** The projects of a user, the experiences of a set of projects, and so
    on down the ownership chain, by key. *)
Definition projects_of (uid : Z) (db : database) : list Z :=
  doomed_keys ResumeProject.project_id
    (fun p => ResumeProject.user_id p =? uid) (resume_project db).
Definition experiences_of (uid : Z) (db : database) : list Z :=
  doomed_keys Experience.experience_id
    (fun e => among (projects_of uid db) (Experience.project_id e))
    (experience db).

(** The database a full run leaves from a fresh schema under
    [demo_oracle]. *)
Definition sample_db : database :=
  snd (run populate_database demo_oracle empty_schema).

(** A request for the first experience of [sample_db], made sixty days
    before the first reading of the clock, that leaves [expires_at] to its
    default. *)
Definition late_request : VerificationRequest.kw.t :=
  {| VerificationRequest.kw.experience_id := 1;
     VerificationRequest.kw.verifier_name := "Sarah Manager";
     VerificationRequest.kw.verifier_position := "Engineering Director";
     VerificationRequest.kw.verifier_email := "sarah.manager@techcorp.com";
     VerificationRequest.kw.verification_token := "late";
     VerificationRequest.kw.status := None;
     VerificationRequest.kw.verifier_comment := None;
     VerificationRequest.kw.requested_at :=
       Some (utcnow_at demo_oracle 0 - timedelta_days 60);
     VerificationRequest.kw.responded_at := None;
     VerificationRequest.kw.expires_at := None |}.

(** One more row in the table at position [i] of [row_counts]. *)
Definition bump (i : nat) (c : list nat) : list nat :=
  firstn i c ++ S (nth i c 0%nat) :: skipn (S i) c.

(** Inside a transaction on top of the committed database [d]: the step
    takes the row counts of the open transaction from [p] to [q] and
    commits nothing, or raises and commits nothing. *)
Definition triple {A} (d : database) (p : list nat) (c : M A) (q : list nat)
  : Prop :=
  forall w, committed w = d -> row_counts (pending w) = p ->
    match c w with
    | (Ok _, w') => committed w' = d /\ row_counts (pending w') = q
    | (Err _, w') => committed w' = d
    end.

(** A stage: it ends with everything committed and the counts at [q], or
    raises with what is committed still [d]. *)
Definition commits {A} (d : database) (p : list nat) (c : M A) (q : list nat)
  : Prop :=
  forall w, committed w = d -> row_counts (pending w) = p ->
    match c w with
    | (Ok _, w') => pending w' = committed w' /\ row_counts (committed w') = q
    | (Err _, w') => committed w' = d
    end.




(** A database where setup stopped after the first table: [user] is
    there and empty, the other six tables are missing. *)
Definition users_only : database :=
  mkdb (Some []) None None None None None None.

(** An oracle whose token source returns the same token every time. *)
Definition stuck_oracle : oracle :=
  mkoracle (sha256_hexdigest demo_oracle) (json_dumps demo_oracle)
           (utcnow_at demo_oracle) (fun _ => "token")
           (sqlite3_randomness demo_oracle).

(** The seventeen tokens a full run draws (eight for verification
    requests, five for share links, four for sessions) are pairwise
    distinct. *)
Definition tokens_distinct (o : oracle) : Prop :=
  NoDup (map (token_urlsafe_at o) (seq 0 17)).

Fixpoint nodupb (l : list string) : bool :=
  match l with
  | [] => true
  | x :: rest => negb (existsb (String.eqb x) rest) && nodupb rest
  end.

(** In a log of INSERTs, every row that references a parent comes after
    the INSERT of that parent. *)
Definition parents_come_first (log : list stmt) : Prop :=
  forall before s after t k,
    log = before ++ s :: after ->
    stmt_parent s = Some (t, k) ->
    exists p, In p before /\ stmt_table p = t /\ stmt_pk p = k.

Definition is_insert_of (t : string) (k : Z) (p : stmt) : bool :=
  String.eqb (stmt_table p) t && (stmt_pk p =? k).

Fixpoint parents_first (seen log : list stmt) : bool :=
  match log with
  | [] => true
  | s :: rest =>
      match stmt_parent s with
      | Some (t, k) => existsb (is_insert_of t k) seen
      | None => true
      end
      && parents_first (s :: seen) rest
  end.

Definition is_some {A} (x : option A) : bool :=
  match x with Some _ => true | None => false end.

(** Status and presence of a response, request by request, as the script
    writes them. *)
Definition request_summary (v : VerificationRequest.t) : string * bool :=
  (VerificationRequest.status v, is_some (VerificationRequest.responded_at v)).

(** How many of the requests have the status [st]. *)
Definition count_status (st : string) (requests : list VerificationRequest.t)
  : nat :=
  List.length
    (filter (fun v => String.eqb (VerificationRequest.status v) st) requests).

Definition sample_requests : list (string * bool) :=
  [ ("verified", true); ("verified", true); ("pending", false);
    ("verified", true); ("rejected", true); ("verified", true);
    ("pending", false); ("pending", false) ].

(** * Further definitions: schema contract and invariants *)

(** ** What the further properties are stated with *)

(** The facts about [set_pk] that the proofs about keys and unique columns
    use: it sets the key and nothing that a constraint looks at. *)
Class RowLaws {K R : Type} (model : Model K R) := {
  pk_set_pk : forall k r, pk (set_pk k r) = k;
  unique_set_pk : forall k r u,
    In u unique_columns -> snd u (set_pk k r) = snd u r;
  check_set_pk : forall k r, failed_check (set_pk k r) = failed_check r }.

(** No two rows of a model's table have the same primary key. *)
Definition pk_unique {K R : Type} (model : Model K R) (db : database)
  : Prop :=
  NoDup (map pk (rows (get_table db))).

(** No two rows of a model's table agree on a column declared unique. *)
Definition uniques_hold {K R : Type} (model : Model K R) (db : database)
  : Prop :=
  forall u, In u unique_columns ->
    NoDup (map (snd u) (rows (get_table db))).

(** Every row of a model's table passes the model's CHECK constraints. *)
Definition checks_hold {K R : Type} (model : Model K R) (db : database)
  : Prop :=
  forall r, In r (rows (get_table db)) -> failed_check r = None.

(** The whole schema contract on the rows of a database: CHECK, UNIQUE and
    PRIMARY KEY in each of the seven tables, and no orphans. *)
Definition table_ok {K R : Type} (model : Model K R) (db : database)
  : Prop :=
  checks_hold model db /\ uniques_hold model db /\ pk_unique model db.

Definition tables_ok (db : database) : Prop :=
  table_ok User_model db /\ table_ok ResumeProject_model db
  /\ table_ok Experience_model db /\ table_ok VerificationRequest_model db
  /\ table_ok ShareLink_model db /\ table_ok Session_model db
  /\ table_ok Template_model db.

Definition consistent (db : database) : Prop :=
  tables_ok db /\ ref_integrity db.

(** A property of databases that no successful INSERT of the six models
    the population script uses can break. *)
Definition insert_closed (P : database -> Prop) : Prop :=
  (forall random (r : User.t) db r' db',
      P db -> insert random r db = Ok (r', db') -> P db')
  /\ (forall random (r : ResumeProject.t) db r' db',
         P db -> insert random r db = Ok (r', db') -> P db')
  /\ (forall random (r : Experience.t) db r' db',
         P db -> insert random r db = Ok (r', db') -> P db')
  /\ (forall random (r : VerificationRequest.t) db r' db',
         P db -> insert random r db = Ok (r', db') -> P db')
  /\ (forall random (r : ShareLink.t) db r' db',
         P db -> insert random r db = Ok (r', db') -> P db')
  /\ (forall random (r : Session.t) db r' db',
         P db -> insert random r db = Ok (r', db') -> P db').

(** A step of the script keeps [P] of the committed database and of the
    open transaction, whether it returns or raises. *)
Definition keeps (P : database -> Prop) {A} (c : M A) : Prop :=
  forall w, P (committed w) -> P (pending w) ->
    P (committed (snd (c w))) /\ P (pending (snd (c w))).

(** The second table is the first with rows added at the end, or both are
    missing. *)
Definition grown {R} (t t' : table R) : Prop :=
  match t, t' with
  | Some l, Some l' => exists more, l' = l ++ more
  | None, None => True
  | _, _ => False
  end.

(** Nothing was dropped, deleted or changed: every table has grown, and
    [template] is the same. *)
Definition extends (db db' : database) : Prop :=
  grown (user db) (user db')
  /\ grown (resume_project db) (resume_project db')
  /\ grown (experience db) (experience db')
  /\ grown (verification_request db) (verification_request db')
  /\ grown (share_link db) (share_link db')
  /\ grown (session db) (session db')
  /\ template db' = template db.

(** The keys of users, projects and experiences that the script holds in
    its variables at some point: the keys of the rows it has added. *)
Record keys := mkkeys {
  user_ids : list Z;
  project_ids : list Z;
  experience_ids : list Z }.

(** All of them are keys of rows of the database. *)
Definition known (k : keys) (db : database) : Prop :=
  incl (user_ids k) (user_keys db)
  /\ incl (project_ids k) (project_keys db)
  /\ incl (experience_ids k) (experience_keys db).

(** A step of the script that is run where no row is an orphan, neither
    in what is committed nor in the open transaction, and where the keys
    [k] are known: if it returns [a], no row is an orphan afterwards and
    the keys [q a] are known; if it raises, no row is an orphan in what
    is committed. *)
Definition sound {A} (k : keys) (c : M A) (q : A -> keys) : Prop :=
  forall w,
    ref_integrity (committed w) -> ref_integrity (pending w) ->
    known k (pending w) ->
    match c w with
    | (Ok a, w') =>
        ref_integrity (committed w') /\ ref_integrity (pending w')
        /\ known (q a) (pending w')
    | (Err _, w') => ref_integrity (committed w')
    end.

(** The stages of [populate_body] after the first, given the three users
    the first stage returned. *)
Definition populate_rest (user1 user2 user3 : User.t) : M unit :=
  bind (create_resume_projects user1 user2 user3)
    (fun '(project1, project2, project3, project4) =>
  bind (create_work_experiences project1 project2 project3 project4)
    (fun '(exp1, exp2, exp3, exp4, exp5, exp6, exp7, exp8) =>
  create_verification_requests exp1 exp2 exp3 exp5 exp6 exp7 exp8 ;;
  create_share_links project1 project2 project3 project4 ;;
  create_sessions user1 user2 user3)).

(** A small database to try statements on: two users, one project of the
    first user, and the other tables empty. *)
Definition member1 : User.t :=
  User.mk 1 "ann@email.com" "ann" "x" None "normal" 0.
Definition member2 : User.t :=
  User.mk 2 "bob@email.com" "bob" "y" None "premium" 0.
Definition plan1 : ResumeProject.t :=
  ResumeProject.mk 1 1 "Resume" "classic" None None None None None false None
                   0 0.
Definition small_db : database :=
  mkdb (Some [member1; member2]) (Some [plan1]) (Some []) (Some []) (Some [])
       (Some []) (Some []).

(** The assignment [SET email = 'ann@email.com']. *)
Definition take_anns_email (u : User.t) : User.t :=
  User.mk (User.user_id u) "ann@email.com" (User.username u)
          (User.password_hash u) (User.phone_number u) (User.tier u)
          (User.created_at u).

(** Rows with a value outside an enumeration, and rows whose parent is
    missing. *)
Definition fancy_project : ResumeProject.t :=
  ResumeProject.mk 0 1 "Resume" "fancy" None None None None None false None
                   0 0.
Definition unknown_experience : Experience.t :=
  Experience.mk 0 1 "Tech Corp" "Engineer" (mkdate 2020 1 15) None "Work"
                "unknown" 0 0.
Definition lost_request : VerificationRequest.t :=
  VerificationRequest.mk 0 1 "Sarah Manager" "Director" "sarah@techcorp.com"
                         "token" "lost" None 0 None 0.
Definition admin_link : ShareLink.t :=
  ShareLink.mk 0 1 "token" None "admin" None None 0 0 None.
Definition orphan_project : ResumeProject.t :=
  ResumeProject.mk 0 7 "Resume" "classic" None None None None None false None
                   0 0.

(** A database on which [setup_database] was never run. *)
Definition no_tables : database :=
  mkdb None None None None None None None.

(** * Properties *)

(** ** Dates and enumerations *)

Lemma date_leb_spec (a b : date) : date_leb a b = true <-> date_le a b.
Proof.
  unfold date_leb, date_le.
  rewrite orb_true_iff, andb_true_iff, orb_true_iff, andb_true_iff.
  rewrite !Z.ltb_lt, !Z.eqb_eq, Z.leb_le. tauto.
Qed.

Lemma in_spec (allowed : list string) (v : string) :
  in_ allowed v = true <-> In v allowed.
Proof.
  unfold in_. rewrite existsb_exists. split.
  - intros [x [Hx He]]. apply String.eqb_eq in He. now subst.
  - intros H. exists v. split; [exact H | apply String.eqb_refl].
Qed.

(** ** The accessors of the seven models *)

#[export] Instance User_laws : ModelLaws User_model 0.
Proof. split; intros; try destruct db; try destruct r; reflexivity. Qed.

#[export] Instance ResumeProject_laws : ModelLaws ResumeProject_model 1.
Proof. split; intros; try destruct db; try destruct r; reflexivity. Qed.

#[export] Instance Experience_laws : ModelLaws Experience_model 2.
Proof. split; intros; try destruct db; try destruct r; reflexivity. Qed.

#[export] Instance VerificationRequest_laws
  : ModelLaws VerificationRequest_model 3.
Proof. split; intros; try destruct db; try destruct r; reflexivity. Qed.

#[export] Instance ShareLink_laws : ModelLaws ShareLink_model 4.
Proof. split; intros; try destruct db; try destruct r; reflexivity. Qed.

#[export] Instance Session_laws : ModelLaws Session_model 5.
Proof. split; intros; try destruct db; try destruct r; reflexivity. Qed.

#[export] Instance Template_laws : ModelLaws Template_model 6.
Proof. split; intros; try destruct db; try destruct r; reflexivity. Qed.

(** ** INSERT and UPDATE keep the CHECK constraints *)

Section Checks.
Context {K R : Type} {model : Model K R} {index : nat}
        {laws : ModelLaws model index}.

Lemma violation_none_check (r : R) (others : list R) :
  violation r others = None -> failed_check r = None.
Proof.
  unfold violation. destruct (failed_check r); [discriminate | reflexivity].
Qed.

Lemma violation_failed_check (r : R) (others : list R) c :
  failed_check r = Some c -> violation r others = Some (CheckFailed c).
Proof. intros H. unfold violation. now rewrite H. Qed.

Lemma insert_inv random (r r' : R) (db db' : database) :
  insert random r db = Ok (r', db') ->
  exists l k,
    get_table db = Some l /\ violation r l = None
    /\ next_rowid random l = Some k
    /\ r' = set_pk k r
    /\ db' = set_table (Some (l ++ [r'])) db.
Proof.
  unfold insert. destruct (get_table db) as [l|]; [|discriminate].
  destruct (violation r l) eqn:V; [discriminate|].
  destruct (next_rowid random l) as [k|] eqn:N; [|discriminate].
  intros E. injection E as <- <-. exists l, k. repeat split; assumption.
Qed.

(** A property of rows that the CHECK constraints imply, and that does not
    depend on the primary key, holds of every row after an INSERT or an
    UPDATE if it held before. *)
Lemma insert_keeps (P : R -> Prop) random (r r' : R) (db db' : database) :
  (forall x, failed_check x = None -> P x) ->
  (forall k x, P x -> P (set_pk k x)) ->
  (forall x, In x (rows (get_table db)) -> P x) ->
  insert random r db = Ok (r', db') ->
  forall x, In x (rows (get_table db')) -> P x.
Proof.
  intros Hc Hk Hdb Hins. apply insert_inv in Hins.
  destruct Hins as [l [k0 [Hl [Hv [_ [-> ->]]]]]].
  intros x. rewrite get_set. cbn. rewrite in_app_iff. intros [Hx|[<-|[]]].
  - apply Hdb. now rewrite Hl.
  - apply Hk, Hc. now apply violation_none_check in Hv.
Qed.

Lemma update_keeps (P : R -> Prop) k now assign (db db' : database) :
  (forall x, failed_check x = None -> P x) ->
  (forall x, In x (rows (get_table db)) -> P x) ->
  update k now assign db = Ok db' ->
  forall x, In x (rows (get_table db')) -> P x.
Proof.
  intros Hc Hdb. unfold update.
  destruct (get_table db) as [l|] eqn:Hl; [|discriminate].
  destruct (find _ l) as [old|];
    [|intros E; injection E as <-; rewrite Hl; exact Hdb].
  destruct (violation _ _) eqn:V; [discriminate|].
  intros E. injection E as <-.
  intros x. rewrite get_set. cbn. rewrite in_map_iff.
  intros [y [Hy Hin]]. destruct (pk y =? k).
  - subst x. apply Hc. now apply violation_none_check in V.
  - subst x. apply Hdb. exact Hin.
Qed.

Lemma insert_rejects_failed_check random (r : R) (db : database) c :
  failed_check r = Some c ->
  insert random r db
  = Err (match get_table db with
         | Some _ => CheckFailed c
         | None => NoSuchTable tablename
         end).
Proof.
  intros H. unfold insert. destruct (get_table db) as [l|]; [|reflexivity].
  now rewrite (violation_failed_check r l c H).
Qed.

Lemma update_rejects_failed_check k now assign (db : database) l old c :
  get_table db = Some l ->
  find (fun r => pk r =? k) l = Some old ->
  failed_check (set_pk k (assign (on_update now old))) = Some c ->
  update k now assign db = Err (CheckFailed c).
Proof.
  intros Hl Hf Hc. unfold update. rewrite Hl, Hf.
  now rewrite (violation_failed_check _ _ c Hc).
Qed.

(** A failed [add] changes neither the open transaction nor what is
    committed. *)
Lemma add_failure_keeps_db (obj : K) (w w' : world) e :
  add obj w = (Err e, w') ->
  pending w' = pending w /\ committed w' = committed w.
Proof.
  unfold add, bind, read_clock.
  destruct (column_defaults obj (runtime w) (clock_reads w)) as [r0 n].
  cbn. destruct (insert _ r0 (pending w)) as [[r db]|e']; [discriminate|].
  intros E. injection E as _ <-. split; reflexivity.
Qed.

(** What a successful [add] did. *)
Lemma add_inv (obj : K) (w w' : world) (r : R) :
  add obj w = (Ok r, w') ->
  exists l k,
    get_table (pending w) = Some l
    /\ next_rowid (sqlite3_randomness (runtime w) (List.length (emitted w)))
                  l = Some k
    /\ r = set_pk k (fst (column_defaults obj (runtime w) (clock_reads w)))
    /\ pending w' = set_table (Some (l ++ [r])) (pending w)
    /\ committed w' = committed w
    /\ runtime w' = runtime w.
Proof.
  unfold add, bind, read_clock.
  destruct (column_defaults obj (runtime w) (clock_reads w)) as [r0 n].
  cbn. destruct (insert _ r0 (pending w)) as [[r1 db]|e] eqn:I;
    [|discriminate].
  intros E. injection E as <- <-. apply insert_inv in I.
  destruct I as [l [k [Hl [_ [Hk [-> ->]]]]]]. exists l, k.
  repeat split; assumption.
Qed.

End Checks.

(** ** Tiers and date ranges *)

Lemma user_failed_check (r : User.t) :
  failed_check r
  = if User.check_user_tier r then None else Some "check_user_tier".
Proof.
  unfold failed_check, check_constraints, User_model, find. cbn [snd fst].
  now destruct (User.check_user_tier r).
Qed.

Lemma check_user_tier_spec (r : User.t) :
  User.check_user_tier r = true
  <-> User.tier r = "normal" \/ User.tier r = "premium".
Proof.
  unfold User.check_user_tier. rewrite in_spec. cbn.
  split; [intros [H|[H|[]]]|intros [H|H]]; auto.
Qed.

Lemma bad_tier_fails (r : User.t) :
  User.tier r <> "normal" -> User.tier r <> "premium" ->
  failed_check r = Some "check_user_tier".
Proof.
  intros H1 H2. rewrite user_failed_check.
  destruct (User.check_user_tier r) eqn:E; [|reflexivity].
  apply check_user_tier_spec in E. tauto.
Qed.

Lemma experience_failed_check (r : Experience.t) :
  failed_check r
  = if Experience.check_verification_status r
    then if Experience.check_date_range r then None
         else Some "check_date_range"
    else Some "check_verification_status".
Proof.
  unfold failed_check, check_constraints, Experience_model, find.
  cbn [snd fst].
  destruct (Experience.check_verification_status r); [|reflexivity].
  now destruct (Experience.check_date_range r).
Qed.

Lemma check_date_range_spec (r : Experience.t) :
  Experience.check_date_range r = true
  <-> forall d, Experience.end_date r = Some d ->
                date_le (Experience.start_date r) d.
Proof.
  unfold Experience.check_date_range.
  destruct (Experience.end_date r) as [e|].
  - rewrite date_leb_spec. split.
    + intros H d E. now injection E as <-.
    + intros H. now apply H.
  - split; [discriminate | reflexivity].
Qed.

Lemma bad_dates_fail (r : Experience.t) d :
  Experience.end_date r = Some d -> ~ date_le (Experience.start_date r) d ->
  exists c, failed_check r = Some c.
Proof.
  intros He Hd. rewrite experience_failed_check.
  destruct (Experience.check_verification_status r); [|eauto].
  destruct (Experience.check_date_range r) eqn:E; [|eauto].
  exfalso. apply Hd. now apply (proj1 (check_date_range_spec r) E).
Qed.

(** C9. Every stored user has tier [normal] or [premium]: INSERT and UPDATE
    keep it so, and a write that gives another tier fails on
    [check_user_tier] and changes no table, neither at the level of the
    statement nor through the session. *)
Theorem user_tier_enforced :
  (forall random (r : User.t) db r' db',
      tiers_ok db -> insert random r db = Ok (r', db') -> tiers_ok db')
  /\ (forall k now assign db db',
         tiers_ok db ->
         update (model := User_model) k now assign db = Ok db' ->
         tiers_ok db')
  /\ (forall random (r : User.t) db,
         User.tier r <> "normal" -> User.tier r <> "premium" ->
         insert random r db
         = Err (match user db with
                | Some _ => CheckFailed "check_user_tier"
                | None => NoSuchTable "user"
                end))
  /\ (forall k now assign db l old,
         user db = Some l ->
         find (fun r => User.user_id r =? k) l = Some old ->
         User.tier (assign old) <> "normal" ->
         User.tier (assign old) <> "premium" ->
         update (model := User_model) k now assign db
         = Err (CheckFailed "check_user_tier"))
  /\ (forall obj w v,
         User.kw.tier obj = Some v -> v <> "normal" -> v <> "premium" ->
         exists e w',
           add obj w = (Err e, w')
           /\ pending w' = pending w /\ committed w' = committed w).
Proof.
  assert (Hc : forall x : User.t, failed_check x = None ->
                 User.tier x = "normal" \/ User.tier x = "premium").
  { intros x. rewrite user_failed_check.
    destruct (User.check_user_tier x) eqn:E; [|discriminate].
    intros _. now apply check_user_tier_spec. }
  repeat split.
  - intros random r db r' db' Hdb Hins.
    exact (insert_keeps _ random r r' db db' Hc (fun _ _ H => H) Hdb Hins).
  - intros k now assign db db' Hdb Hupd.
    exact (update_keeps _ k now assign db db' Hc Hdb Hupd).
  - intros random r db H1 H2.
    exact (insert_rejects_failed_check random r db _
             (bad_tier_fails r H1 H2)).
  - intros k now assign db l old Hl Hf H1 H2.
    apply (update_rejects_failed_check (model := User_model)
             k now assign db l old _ Hl Hf).
    apply bad_tier_fails; assumption.
  - intros obj w v Hv H1 H2.
    destruct (add obj w) as [[r|e] w'] eqn:E.
    + exfalso. unfold add, bind, read_clock in E.
      destruct (column_defaults obj (runtime w) (clock_reads w))
        as [r0 n] eqn:D.
      cbn in E.
      assert (Hr0 : User.tier r0 = v).
      { destruct obj; cbn in *. subst. unfold now_bind in D.
        destruct (default_call created_at utcnow (runtime w) (clock_reads w)).
        cbn in D. now injection D as <- _. }
      rewrite (insert_rejects_failed_check _ r0 (pending w)
                 "check_user_tier") in E.
      * destruct (get_table (pending w)); discriminate.
      * apply bad_tier_fails; now rewrite Hr0.
    + exists e, w'. split; [reflexivity|].
      exact (add_failure_keeps_db obj w w' e E).
Qed.

Lemma user_tier_enforced_witness :
  insert [] guest empty_schema = Err (CheckFailed "check_user_tier").
Proof.
  apply (proj1 (proj2 (proj2 user_tier_enforced)) [] guest empty_schema);
    discriminate.
Defined.

(** C8. Every stored experience with an end date ends no earlier than it
    starts: INSERT and UPDATE keep it so, and a write whose end date is
    earlier than its start date fails and changes no table; the row that
    starts on 2020-01-15 and ends on 2019-12-31 fails on
    [check_date_range]. *)
Theorem experience_date_range_enforced :
  (forall random (r : Experience.t) db r' db',
      date_ranges_ok db -> insert random r db = Ok (r', db') ->
      date_ranges_ok db')
  /\ (forall k now assign db db',
         date_ranges_ok db ->
         update (model := Experience_model) k now assign db = Ok db' ->
         date_ranges_ok db')
  /\ (forall random (r : Experience.t) db d,
         Experience.end_date r = Some d ->
         ~ date_le (Experience.start_date r) d ->
         exists e, insert random r db = Err e)
  /\ (forall k now assign db l old d,
         experience db = Some l ->
         find (fun r => Experience.experience_id r =? k) l = Some old ->
         Experience.end_date (assign (on_update now old)) = Some d ->
         ~ date_le (Experience.start_date (assign (on_update now old))) d ->
         exists e,
           update (model := Experience_model) k now assign db = Err e)
  /\ (forall obj w d,
         Experience.kw.end_date obj = Some d ->
         ~ date_le (Experience.kw.start_date obj) d ->
         exists e w',
           add obj w = (Err e, w')
           /\ pending w' = pending w /\ committed w' = committed w)
  /\ (forall random db l,
         experience db = Some l ->
         insert random backwards db = Err (CheckFailed "check_date_range")).
Proof.
  assert (Hc : forall x : Experience.t, failed_check x = None ->
                 forall d, Experience.end_date x = Some d ->
                           date_le (Experience.start_date x) d).
  { intros x. rewrite experience_failed_check.
    destruct (Experience.check_verification_status x); [|discriminate].
    destruct (Experience.check_date_range x) eqn:E; [|discriminate].
    intros _. now apply check_date_range_spec. }
  repeat split.
  - intros random r db r' db' Hdb Hins e d He.
    revert d. revert e He.
    apply (insert_keeps
             (fun x => forall d, Experience.end_date x = Some d ->
                                 date_le (Experience.start_date x) d)
             random r r' db db' Hc).
    + intros k x H. exact H.
    + intros x Hx d. now apply Hdb.
    + exact Hins.
  - intros k now assign db db' Hdb Hupd e d He.
    revert d. revert e He.
    apply (update_keeps
             (fun x => forall d, Experience.end_date x = Some d ->
                                 date_le (Experience.start_date x) d)
             k now assign db db' Hc).
    + intros x Hx d. now apply Hdb.
    + exact Hupd.
  - intros random r db d He Hd.
    destruct (bad_dates_fail r d He Hd) as [c Hf].
    rewrite (insert_rejects_failed_check random r db c Hf). eauto.
  - intros k now assign db l old d Hl Hf He Hd.
    destruct (bad_dates_fail
                (@set_pk _ _ Experience_model k (assign (on_update now old)))
                d He Hd) as [c Hfc].
    rewrite (update_rejects_failed_check (model := Experience_model)
               k now assign db l old c Hl Hf Hfc).
    eauto.
  - intros obj w d He Hd.
    destruct (add obj w) as [[r|e] w'] eqn:E.
    + exfalso. unfold add, bind, read_clock in E.
      destruct (column_defaults obj (runtime w) (clock_reads w))
        as [r0 n] eqn:D.
      cbn in E.
      assert (Hr0 : Experience.end_date r0 = Some d
                    /\ Experience.start_date r0
                       = Experience.kw.start_date obj).
      { destruct obj; cbn in *. subst. unfold now_bind in D.
        destruct (default_call created_at utcnow (runtime w) (clock_reads w)).
        destruct (default_call updated_at utcnow (runtime w) n0).
        cbn in D. injection D as <- _. split; reflexivity. }
      destruct Hr0 as [Hr1 Hr2].
      destruct (bad_dates_fail r0 d Hr1) as [c Hf];
        [now rewrite Hr2|].
      rewrite (insert_rejects_failed_check _ r0 (pending w) c Hf) in E.
      destruct (get_table (pending w)); discriminate.
    + exists e, w'. split; [reflexivity|].
      exact (add_failure_keeps_db obj w w' e E).
  - intros random db l Hl.
    rewrite (insert_rejects_failed_check random backwards db
               "check_date_range").
    + cbn. now rewrite Hl.
    + reflexivity.
Qed.

Lemma experience_date_range_enforced_witness :
  insert [] backwards empty_schema = Err (CheckFailed "check_date_range").
Proof.
  apply (proj2 (proj2 (proj2 (proj2 (proj2 experience_date_range_enforced))))
           [] empty_schema []).
  reflexivity.
Defined.

(** C10. Each of the five enumerated columns has a default that its CHECK
    constraint accepts: a row built without the column gets [normal],
    [classic], [not_requested], [pending] or [view], and passes the
    check. *)
Theorem enum_defaults_satisfy_checks :
  (forall k o n, User.kw.tier k = None ->
     User.tier (fst (column_defaults k o n)) = "normal"
     /\ User.check_user_tier (fst (column_defaults k o n)) = true)
  /\ (forall k o n, ResumeProject.kw.template_style k = None ->
        ResumeProject.template_style (fst (column_defaults k o n)) = "classic"
        /\ ResumeProject.check_template_style (fst (column_defaults k o n))
           = true)
  /\ (forall k o n, Experience.kw.verification_status k = None ->
        Experience.verification_status (fst (column_defaults k o n))
        = "not_requested"
        /\ Experience.check_verification_status (fst (column_defaults k o n))
           = true)
  /\ (forall k o n, VerificationRequest.kw.status k = None ->
        VerificationRequest.status (fst (column_defaults k o n)) = "pending"
        /\ VerificationRequest.check_request_status
             (fst (column_defaults k o n)) = true)
  /\ (forall k o n, ShareLink.kw.access_type k = None ->
        ShareLink.access_type (fst (column_defaults k o n)) = "view"
        /\ ShareLink.check_access_type (fst (column_defaults k o n)) = true).
Proof.
  repeat split; destruct k; cbn in *; subst; unfold now_bind;
    repeat match goal with
           | |- context [default_call ?s ?d ?o ?n] =>
               destruct (default_call s d o n)
           end; reflexivity.
Qed.

Lemma enum_defaults_satisfy_checks_witness :
  User.tier (fst (column_defaults bare_user demo_oracle 0%nat)) = "normal"
  /\ User.check_user_tier (fst (column_defaults bare_user demo_oracle 0%nat))
     = true.
Proof.
  apply (proj1 enum_defaults_satisfy_checks bare_user demo_oracle 0%nat).
  reflexivity.
Defined.

(** ** setup_database *)

Lemma drop_all_spec (db : database) :
  drop_all db = mkdb None None None None None None None.
Proof.
  destruct db as [[?|] [?|] [?|] [?|] [?|] [?|] [?|]]; reflexivity.
Qed.

Lemma setup_database_empty (db : database) :
  setup_database db = empty_schema.
Proof. unfold setup_database. rewrite drop_all_spec. reflexivity. Qed.

(** C7. Whatever the database holds, [setup_database] leaves the seven
    tables of the schema, all empty; a second run right after the first
    leaves exactly the same database. *)
Theorem setup_database_idempotent (db : database) :
  setup_database db = empty_schema
  /\ setup_database (setup_database db) = empty_schema
  /\ setup_database (setup_database db) = setup_database db.
Proof. rewrite !setup_database_empty. repeat split. Qed.

(** ** Deleting a user *)

Lemma among_spec (ks : list Z) (k : Z) : among ks k = true <-> In k ks.
Proof.
  unfold among. rewrite existsb_exists. split.
  - intros [x [Hx He]]. apply Z.eqb_eq in He. now subst.
  - intros H. exists k. split; [exact H | apply Z.eqb_refl].
Qed.

Lemma purge_spec {R} (doomed : R -> bool) (t : table R) (r : R) :
  In r (rows (purge doomed t)) <-> In r (rows t) /\ doomed r = false.
Proof.
  destruct t as [l|]; cbn; [|tauto].
  rewrite filter_In, negb_true_iff. tauto.
Qed.

Lemma doomed_keys_spec {R} (key : R -> Z) (doomed : R -> bool) (t : table R)
  (k : Z) :
  In k (doomed_keys key doomed t)
  <-> exists r, In r (rows t) /\ doomed r = true /\ key r = k.
Proof.
  unfold doomed_keys. rewrite in_map_iff. split.
  - intros [r [Hk Hr]]. apply filter_In in Hr. exists r. tauto.
  - intros [r [Hr [Hd Hk]]]. exists r. rewrite filter_In. tauto.
Qed.

Lemma references_okb_spec {C} (fk : C -> Z) (children : table C) keys :
  references_okb fk children keys = true <-> references_ok fk children keys.
Proof.
  unfold references_okb, references_ok. rewrite forallb_forall.
  split; intros H c Hc; apply among_spec, H, Hc.
Qed.

Lemma ref_integrityb_spec (db : database) :
  ref_integrityb db = true <-> ref_integrity db.
Proof.
  unfold ref_integrityb, ref_integrity.
  rewrite !andb_true_iff, !references_okb_spec. tauto.
Qed.

(** What [delete_user_where] leaves in each table. *)
Lemma delete_user_where_tables (doomed : User.t -> bool) (db : database) :
  let dead_users := doomed_keys User.user_id doomed (user db) in
  let doomed_project p := among dead_users (ResumeProject.user_id p) in
  let dead_projects :=
    doomed_keys ResumeProject.project_id doomed_project (resume_project db) in
  let doomed_experience e := among dead_projects (Experience.project_id e) in
  let dead_experiences :=
    doomed_keys Experience.experience_id doomed_experience (experience db) in
  delete_user_where doomed db
  = mkdb (purge doomed (user db))
         (purge doomed_project (resume_project db))
         (purge doomed_experience (experience db))
         (purge (fun v => among dead_experiences
                            (VerificationRequest.experience_id v))
                (verification_request db))
         (purge (fun s => among dead_projects (ShareLink.project_id s))
                (share_link db))
         (purge (fun s => among dead_users (Session.user_id s)) (session db))
         (template db).
Proof. destruct db. reflexivity. Qed.

Lemma dead_users_spec (uid : Z) (db : database) (k : Z) :
  In k (doomed_keys User.user_id (fun u => User.user_id u =? uid) (user db))
  <-> k = uid /\ In uid (user_keys db).
Proof.
  rewrite doomed_keys_spec. unfold user_keys. rewrite in_map_iff. split.
  - intros [u [Hu [He Hk]]]. apply Z.eqb_eq in He. subst k.
    split; [exact He|]. exists u. tauto.
  - intros [-> [u [Hk Hu]]]. exists u. rewrite Z.eqb_eq. tauto.
Qed.






(** Rows of users other than [uid], and what they own, stay. *)
Lemma delete_user_keeps_others (uid : Z) (db db' : database) :
  delete_user uid db = Ok db' ->
  (forall u, In u (rows (user db)) -> User.user_id u <> uid ->
             In u (rows (user db')))
  /\ (forall p, In p (rows (resume_project db)) ->
                ResumeProject.user_id p <> uid ->
                In p (rows (resume_project db')))
  /\ (forall s, In s (rows (session db)) -> Session.user_id s <> uid ->
                In s (rows (session db'))).
Proof.
  unfold delete_user. destruct (user db) as [us|] eqn:Hus; [|discriminate].
  intros E. injection E as <-. rewrite delete_user_where_tables. cbn zeta.
  cbn [user resume_project session].
  repeat split.
  - intros u Hu Hne. apply purge_spec. rewrite Hus. split; [exact Hu|].
    now apply Z.eqb_neq.
  - intros p Hp Hne. apply purge_spec. split; [exact Hp|].
    apply not_true_iff_false. rewrite among_spec, dead_users_spec. tauto.
  - intros s Hs Hne. apply purge_spec. split; [exact Hs|].
    apply not_true_iff_false. rewrite among_spec, dead_users_spec. tauto.
Qed.

(** ** Default expiration *)

Lemma verification_request_defaults (k : VerificationRequest.kw.t) o n :
  VerificationRequest.kw.expires_at k = None ->
  let r := fst (column_defaults k o n) in
  match VerificationRequest.kw.requested_at k with
  | Some t =>
      VerificationRequest.requested_at r = t
      /\ VerificationRequest.expires_at r = utcnow_at o n + timedelta_days 30
  | None =>
      VerificationRequest.requested_at r = utcnow_at o n
      /\ VerificationRequest.expires_at r
         = utcnow_at o (S n) + timedelta_days 30
  end.
Proof.
  destruct k as [? ? ? ? ? ? ? [t|] ? ?]; cbn; intros ->; split; reflexivity.
Qed.

Lemma session_defaults (k : Session.kw.t) o n :
  Session.kw.expires_at k = None ->
  let r := fst (column_defaults k o n) in
  match Session.kw.created_at k with
  | Some t =>
      Session.created_at r = t
      /\ Session.expires_at r = utcnow_at o n + timedelta_days 7
  | None =>
      Session.created_at r = utcnow_at o n
      /\ Session.expires_at r = utcnow_at o (S n) + timedelta_days 7
  end.
Proof.
  destruct k as [? ? [t|] ?]; cbn; intros ->; split; reflexivity.
Qed.

(** C2, as the code has it.  A VerificationRequest stored without an
    explicit [expires_at] expires 30 days after the clock reading taken
    for that default at insert time, and a Session 7 days after it.  When
    [requested_at] (or [created_at]) is left to its default as well, it is
    the clock reading just before, so the two differ by 30 (or 7) days and
    the time between the two readings; when the caller supplies it, the
    row stores the caller's value and the expiration does not depend on
    it. *)
Theorem default_expiry_is_insert_time_plus_offset :
  (forall (k : VerificationRequest.kw.t) w r w',
      VerificationRequest.kw.expires_at k = None ->
      add k w = (Ok r, w') ->
      In r (rows (verification_request (pending w')))
      /\ match VerificationRequest.kw.requested_at k with
         | Some t =>
             VerificationRequest.requested_at r = t
             /\ VerificationRequest.expires_at r
                = utcnow_at (runtime w) (clock_reads w) + timedelta_days 30
         | None =>
             VerificationRequest.requested_at r
             = utcnow_at (runtime w) (clock_reads w)
             /\ VerificationRequest.expires_at r
                - (VerificationRequest.requested_at r + timedelta_days 30)
                = utcnow_at (runtime w) (S (clock_reads w))
                  - utcnow_at (runtime w) (clock_reads w)
         end)
  /\ (forall (k : Session.kw.t) w r w',
         Session.kw.expires_at k = None ->
         add k w = (Ok r, w') ->
         In r (rows (session (pending w')))
         /\ match Session.kw.created_at k with
            | Some t =>
                Session.created_at r = t
                /\ Session.expires_at r
                   = utcnow_at (runtime w) (clock_reads w) + timedelta_days 7
            | None =>
                Session.created_at r = utcnow_at (runtime w) (clock_reads w)
                /\ Session.expires_at r
                   - (Session.created_at r + timedelta_days 7)
                   = utcnow_at (runtime w) (S (clock_reads w))
                     - utcnow_at (runtime w) (clock_reads w)
            end).
Proof.
  split; intros k w r w' Hk Hadd; apply add_inv in Hadd;
    destruct Hadd as [l [key [Hl [_ [Hr [Hp _]]]]]].
  - split.
    + rewrite Hp. destruct (pending w). cbn. apply in_app_iff. right. now left.
    + pose proof (verification_request_defaults k (runtime w) (clock_reads w)
                    Hk) as D.
      cbn zeta in D. rewrite Hr.
      cbn [set_pk VerificationRequest_model VerificationRequest.with_pk
           VerificationRequest.requested_at VerificationRequest.expires_at].
      destruct (VerificationRequest.kw.requested_at k);
        destruct D as [D1 D2]; rewrite D1, D2; split;
        try reflexivity; lia.
  - split.
    + rewrite Hp. destruct (pending w). cbn. apply in_app_iff. right. now left.
    + pose proof (session_defaults k (runtime w) (clock_reads w) Hk) as D.
      cbn zeta in D. rewrite Hr.
      cbn [set_pk Session_model Session.with_pk Session.created_at
           Session.expires_at].
      destruct (Session.kw.created_at k);
        destruct D as [D1 D2]; rewrite D1, D2; split;
        try reflexivity; lia.
Qed.

(** C2 as stated fails: with a clock that moves one second per reading, a
    request whose [requested_at] the caller set sixty days back and whose
    [expires_at] is left out is stored with an expiration sixty days later
    than [requested_at] plus 30 days. *)
Lemma default_expiry_counterexample :
  VerificationRequest.kw.expires_at late_request = None
  /\ match fst (add late_request (connect demo_oracle sample_db)) with
     | Ok r =>
         VerificationRequest.expires_at r
         - (VerificationRequest.requested_at r + timedelta_days 30)
         = timedelta_days 60
     | Err _ => False
     end.
Proof. split; vm_compute; reflexivity. Qed.

Lemma late_request_is_stored :
  exists r w', add late_request (connect demo_oracle sample_db) = (Ok r, w').
Proof. vm_compute. do 2 eexists. reflexivity. Qed.

Lemma default_expiry_is_insert_time_plus_offset_witness :
  match fst (add late_request (connect demo_oracle sample_db)) with
  | Ok r =>
      VerificationRequest.expires_at r
      = utcnow_at demo_oracle 0 + timedelta_days 30
  | Err _ => False
  end.
Proof.
  destruct late_request_is_stored as [r [w' E]]. rewrite E. cbn [fst].
  exact (proj2 (proj2 (proj1 default_expiry_is_insert_time_plus_offset
                         late_request (connect demo_oracle sample_db) r w'
                         eq_refl E))).
Defined.

(** ** Transactions: what a failed run leaves committed *)

Section Triples.
Context {A B : Type}.

Lemma triple_bind d p q r (c : M A) (f : A -> M B) :
  triple d p c q -> (forall a, triple d q (f a) r) -> triple d p (bind c f) r.
Proof.
  intros Hc Hf w Hd Hp. unfold bind. specialize (Hc w Hd Hp).
  destruct (c w) as [[a|e] w1]; [|exact Hc].
  destruct Hc as [Hd1 Hp1]. exact (Hf a w1 Hd1 Hp1).
Qed.

Lemma commits_bind d p q r (c : M A) (f : A -> M B) :
  triple d p c q -> (forall a, commits d q (f a) r) ->
  commits d p (bind c f) r.
Proof.
  intros Hc Hf w Hd Hp. unfold bind. specialize (Hc w Hd Hp).
  destruct (c w) as [[a|e] w1]; [|exact Hc].
  destruct Hc as [Hd1 Hp1]. exact (Hf a w1 Hd1 Hp1).
Qed.

(** A step that cannot fail and leaves both databases alone. *)
Lemma triple_pure d p (c : M A) :
  (forall w, exists a w',
      c w = (Ok a, w')
      /\ committed w' = committed w /\ pending w' = pending w) ->
  triple d p c p.
Proof.
  intros H w Hd Hp. destruct (H w) as [a [w' [-> [Hc Hq]]]].
  now rewrite Hc, Hq.
Qed.

Lemma triple_ret d p (a : A) : triple d p (ret a) p.
Proof. apply triple_pure. intros w. now exists a, w. Qed.

Lemma triple_read_clock d p (c : Clock A) : triple d p (read_clock c) p.
Proof.
  apply triple_pure. intros w. unfold read_clock.
  destruct (c (runtime w) (clock_reads w)) as [a n]. eauto.
Qed.

Lemma commits_commit_ret d p (a : A) : commits d p (commit ;; ret a) p.
Proof. intros w Hd Hp. cbn. split; [reflexivity | exact Hp]. Qed.

End Triples.

Lemma commits_commit d p : commits d p commit p.
Proof. intros w Hd Hp. cbn. split; [reflexivity | exact Hp]. Qed.

Lemma triple_utcnow_minus d p delta : triple d p (utcnow_minus delta) p.
Proof. apply triple_read_clock. Qed.

Lemma triple_utcnow_plus d p delta : triple d p (utcnow_plus delta) p.
Proof. apply triple_read_clock. Qed.

Lemma triple_hash_password d p password :
  triple d p (hash_password password) p.
Proof. apply triple_pure. intros w. unfold hash_password. eauto. Qed.

Lemma triple_dumps d p obj : triple d p (dumps obj) p.
Proof. apply triple_pure. intros w. unfold dumps. eauto. Qed.

Lemma triple_generate_token d p : triple d p generate_token p.
Proof. apply triple_pure. intros w. unfold generate_token. eauto. Qed.

Lemma triple_add {K R : Type} {model : Model K R} {index : nat}
  {laws : ModelLaws model index} d p (obj : K) :
  triple d p (add obj) (bump index p).
Proof.
  intros w Hd Hp. destruct (add obj w) as [[r|e] w'] eqn:E.
  - apply add_inv in E. destruct E as [l [k [Hl [_ [_ [Hq [Hc _]]]]]]].
    split; [congruence|].
    rewrite Hq, set_counts, Hp. unfold bump. do 2 f_equal.
    rewrite <- Hp, get_counts, Hl, length_app. cbn. lia.
  - apply add_failure_keeps_db in E. destruct E as [_ Hc]. congruence.
Qed.

Create HintDb triples.
#[export] Hint Resolve triple_ret triple_utcnow_minus triple_utcnow_plus
  triple_hash_password triple_dumps triple_generate_token : triples.

Ltac transaction_step :=
  lazymatch goal with
  | |- commits _ _ commit _ => apply commits_commit
  | |- commits _ _ (bind commit (fun _ => ret _)) _ =>
      apply commits_commit_ret
  | |- commits _ _ (bind _ _) _ => eapply commits_bind; [|intros]
  | |- triple _ _ (add _) _ => apply triple_add
  | |- triple _ _ (bind _ _) _ => eapply triple_bind; [|intros]
  | |- triple _ _ _ _ => solve [eauto with triples]
  end.

Ltac transaction := cbv zeta; repeat transaction_step.

Lemma triple_Experience_ d p project company_name position_title start_date
  end_date description verification_status days_ago :
  triple d p
    (Experience_ project company_name position_title start_date end_date
       description verification_status days_ago) p.
Proof. unfold Experience_. transaction. Qed.

Lemma triple_VerificationRequest_ d p exp verifier_name verifier_position
  verifier_email status verifier_comment requested responded expires :
  triple d p
    (VerificationRequest_ exp verifier_name verifier_position verifier_email
       status verifier_comment requested responded expires) p.
Proof.
  unfold VerificationRequest_. destruct responded; transaction.
Qed.

Lemma triple_ShareLink_ d p project recipient_email access_type email_subject
  email_message view_count created expires :
  triple d p
    (ShareLink_ project recipient_email access_type email_subject
       email_message view_count created expires) p.
Proof. unfold ShareLink_. destruct expires; transaction. Qed.

Lemma triple_Session_ d p user age expires :
  triple d p (Session_ user age expires) p.
Proof. unfold Session_. transaction. Qed.

#[export] Hint Resolve triple_Experience_ triple_VerificationRequest_
  triple_ShareLink_ triple_Session_ : triples.

Lemma commits_create_users d p :
  commits d p create_users (Nat.iter 3 (bump 0) p).
Proof. unfold create_users. transaction. Qed.










(** The same on a fresh schema when the token source repeats itself: the
    second verification request fails on its token, and users, projects
    and experiences stay committed. *)
Lemma population_rollback_on_token_collision :
  fst (run populate_database stuck_oracle empty_schema)
  = Err (UniqueFailed "verification_request" "verification_token")
  /\ row_counts (snd (run populate_database stuck_oracle empty_schema))
     = [3; 4; 8; 0; 0; 0; 0]%nat.
Proof. repeat split; vm_compute; reflexivity. Qed.

(** ** A full run on a fresh schema *)

Lemma bind_ok {A B} (c : M A) (f : A -> M B) w a w' :
  c w = (Ok a, w') -> bind c f w = f a w'.
Proof. intros H. unfold bind. now rewrite H. Qed.

Lemma bind_err {A B} (c : M A) (f : A -> M B) w e w' :
  c w = (Err e, w') -> bind c f w = (Err e, w').
Proof. intros H. unfold bind. now rewrite H. Qed.

Lemma bind_bind {A B C} (c : M A) (g : A -> M B) (f : B -> M C) w :
  bind (bind c g) f w = bind c (fun a => bind (g a) f) w.
Proof. unfold bind. destruct (c w) as [[a|e] w1]; reflexivity. Qed.

Section AddOk.
Context {K R : Type} {model : Model K R}.

Lemma taken_none (r : R) (others : list R) :
  (forall u r', In u unique_columns -> In r' others -> snd u r' <> snd u r) ->
  taken r others = None.
Proof.
  intros Hu. unfold taken.
  destruct (find _ (rev unique_columns)) as [u|] eqn:E; [|reflexivity].
  apply find_some in E. destruct E as [Hin Hex]. apply in_rev in Hin.
  apply existsb_exists in Hex. destruct Hex as [r' [Hr' He]].
  apply String.eqb_eq in He. exfalso. exact (Hu u r' Hin Hr' He).
Qed.

Lemma violation_none (r : R) (others : list R) :
  failed_check r = None ->
  (forall u r', In u unique_columns -> In r' others -> snd u r' <> snd u r) ->
  violation r others = None.
Proof.
  intros Hc Hu. unfold violation.
  now rewrite Hc, (taken_none r others Hu).
Qed.

Lemma add_ok (k : K) (w : world) r0 n' l i :
  column_defaults k (runtime w) (clock_reads w) = (r0, n') ->
  get_table (pending w) = Some l ->
  violation r0 l = None ->
  next_rowid (sqlite3_randomness (runtime w) (List.length (emitted w))) l
  = Some i ->
  add k w =
    (Ok (set_pk i r0),
     mkworld (runtime w) n' (tokens_drawn w) (committed w)
       (set_table (Some (l ++ [set_pk i r0])) (pending w))
       (emitted w ++ [stmt_of (set_pk i r0)])).
Proof.
  intros Hd Ht Hv Hi. unfold add, bind, read_clock. rewrite Hd. cbn.
  unfold insert. cbn. now rewrite Ht, Hv, Hi.
Qed.

Lemma add_violation (k : K) (w : world) r0 n' l e :
  column_defaults k (runtime w) (clock_reads w) = (r0, n') ->
  get_table (pending w) = Some l ->
  violation r0 l = Some e ->
  add k w
  = (Err e, mkworld (runtime w) n' (tokens_drawn w) (committed w) (pending w)
                    (emitted w)).
Proof.
  intros Hd Ht Hv. unfold add, bind, read_clock. rewrite Hd. cbn.
  unfold insert. cbn. now rewrite Ht, Hv.
Qed.

End AddOk.

Lemma tokens_distinct_spec (o : oracle) :
  tokens_distinct o ->
  forall i j, (i < j < 17)%nat -> token_urlsafe_at o i <> token_urlsafe_at o j.
Proof.
  intros H i j Hij E. unfold tokens_distinct in H.
  rewrite (NoDup_nth _ "") in H. rewrite length_map, length_seq in H.
  assert (Hn : forall n, (n < 17)%nat ->
            nth n (map (token_urlsafe_at o) (seq 0 17)) ""
            = token_urlsafe_at o n).
  { intros n Hlt.
    rewrite (nth_indep _ "" (token_urlsafe_at o 0)) by
      (now rewrite length_map, length_seq).
    rewrite map_nth, seq_nth by exact Hlt. reflexivity. }
  specialize (H i j). rewrite !Hn in H by lia.
  assert (i = j) by (apply H; [lia | lia | exact E]). lia.
Qed.

Lemma nodupb_spec (l : list string) : nodupb l = true -> NoDup l.
Proof.
  induction l as [|x l IH]; cbn; [constructor|].
  rewrite andb_true_iff, negb_true_iff. intros [Hx Hl].
  constructor; [|now apply IH].
  intros Hin. apply not_true_iff_false in Hx. apply Hx.
  apply existsb_exists. exists x. split; [exact Hin | apply String.eqb_refl].
Qed.

Lemma parents_first_spec (log seen : list stmt) :
  parents_first seen log = true ->
  forall before s after t k,
    log = before ++ s :: after ->
    stmt_parent s = Some (t, k) ->
    exists p, (In p seen \/ In p before) /\ stmt_table p = t /\ stmt_pk p = k.
Proof.
  revert seen. induction log as [|x log IH]; intros seen H before s after t k E P.
  - destruct before; discriminate.
  - cbn in H. apply andb_true_iff in H. destruct H as [Hx Hrest].
    destruct before as [|b before]; cbn in E; injection E as -> ->.
    + rewrite P in Hx. apply existsb_exists in Hx.
      destruct Hx as [p [Hp Hi]]. unfold is_insert_of in Hi.
      apply andb_true_iff in Hi. destruct Hi as [Ht Hk].
      apply String.eqb_eq in Ht. apply Z.eqb_eq in Hk.
      exists p. tauto.
    + destruct (IH (b :: seen) Hrest before s after t k eq_refl P)
        as [p [[[Hb|Hp]|Hp] Hq]]; exists p; cbn; tauto.
Qed.

(** The steps of the script, one at a time, on a world that is written
    out: the table a row goes to, the row and the world after it are
    computed, and the only thing left to prove is that no constraint is
    broken. *)
Ltac crunched t :=
  eval cbv -[Z.add Z.sub Z.mul next_rowid timedelta_days timedelta_hours
             timedelta_minutes] in t.

Ltac fresh_token H :=
  let u := fresh "u" in
  let r' := fresh "r" in
  let Hu := fresh "Hu" in
  let Hr := fresh "Hr" in
  intros u r' Hu Hr; cbn in Hu;
  repeat (destruct Hu as [Hu|Hu]; [subst u|]); [|contradiction Hu];
  cbn in Hr;
  repeat (destruct Hr as [Hr|Hr]; [subst r'; cbn; apply H; lia|]);
  contradiction Hr.

Ltac no_violation H :=
  first [ vm_compute; reflexivity
        | apply violation_none; [ vm_compute; reflexivity | fresh_token H ] ].

Ltac pure_step c f w :=
  let r := crunched (c w) in
  lazymatch r with
  | (Ok ?a, ?w') => rewrite (bind_ok c f w a w' eq_refl); cbv beta iota zeta
  end.

Ltac add_step H K R m k f w :=
  let d := crunched (@column_defaults K R m k (runtime w) (clock_reads w)) in
  lazymatch d with
  | (?r0, ?n') =>
    let t := crunched (@get_table K R m (pending w)) in
    lazymatch t with
    | Some ?l =>
      let key :=
        eval vm_compute in
          (@next_rowid K R m
             (sqlite3_randomness (runtime w) (List.length (emitted w))) l) in
      lazymatch key with
      | Some ?i =>
        let r := crunched (@set_pk K R m i r0) in
        let w' :=
          crunched (mkworld (runtime w) n' (tokens_drawn w) (committed w)
                      (@set_table K R m (Some (l ++ [r])) (pending w))
                      (emitted w ++ [@stmt_of K R m r])) in
        rewrite (bind_ok (@add K R m k) f w r w')
          by (rewrite (@add_ok K R m k w r0 n' l i)
                by first [reflexivity | no_violation H];
              reflexivity);
        cbv beta iota zeta
      end
    end
  end.

Ltac head_of t := lazymatch t with ?f _ => head_of f | _ => t end.

Ltac step H :=
  lazymatch goal with
  | |- bind (bind _ _) _ _ = _ => rewrite bind_bind
  | |- bind (@add ?K ?R ?m ?k) ?f ?w = _ => add_step H K R m k f w
  | |- bind (match _ with _ => _ end) _ _ = _ => cbv beta iota zeta
  | |- bind (let _ := _ in _) _ _ = _ => cbv beta iota zeta
  | |- bind (hash_password ?p) ?f ?w = _ => pure_step (hash_password p) f w
  | |- bind (utcnow_minus ?p) ?f ?w = _ => pure_step (utcnow_minus p) f w
  | |- bind (utcnow_plus ?p) ?f ?w = _ => pure_step (utcnow_plus p) f w
  | |- bind (dumps ?p) ?f ?w = _ => pure_step (dumps p) f w
  | |- bind generate_token ?f ?w = _ => pure_step generate_token f w
  | |- bind commit ?f ?w = _ => pure_step commit f w
  | |- bind (ret ?a) ?f ?w = _ => pure_step (ret a) f w
  | |- bind ?c ?f ?w = _ => let h := head_of c in unfold h
  | |- commit _ = _ => reflexivity
  | |- ?c ?w = _ => let h := head_of c in unfold h
  end.

(** On a fresh schema, with distinct tokens, the body of the [try] runs to
    the end; what it leaves is written out by the proof and read off
    here. *)
Lemma populate_body_fresh (o : oracle) :
  tokens_distinct o ->
  exists w',
    populate_body (connect o empty_schema) = (Ok tt, w')
    /\ pending w' = committed w'
    /\ row_counts (committed w') = sample_counts
    /\ parents_first [] (emitted w') = true
    /\ map User.email (rows (user (committed w')))
       = ["john.doe@email.com"; "jane.smith@email.com";
          "alex.johnson@email.com"]
    /\ map request_summary (rows (verification_request (committed w')))
       = sample_requests
    /\ map User.username (rows (user (committed w')))
       = ["johndoe"; "janesmith"; "alexj"].
Proof.
  intros Hd. pose proof (tokens_distinct_spec o Hd) as H. clear Hd.
  destruct o as [sha json clock tok rnd]. cbn [token_urlsafe_at] in H.
  eexists. split.
  - unfold populate_body, connect. repeat step H.
  - repeat split; reflexivity.
Qed.

Lemma populate_database_of_body (w w' : world) :
  populate_body w = (Ok tt, w') ->
  populate_database w
  = (Ok tt, mkworld (runtime w') (clock_reads w') (tokens_drawn w')
                    (committed w') (committed w') (emitted w')).
Proof.
  intros E. unfold populate_database, try_finally, try_except.
  rewrite E. reflexivity.
Qed.

(** C5. On a freshly set-up database, and with tokens that do not repeat,
    the run returns, leaves 3 users, 4 projects, 8 experiences, 8
    verification requests, 5 share links and 4 sessions (and no
    template), and emits the INSERT of every parent row before that of
    any row that references it. *)
Theorem population_of_fresh_database (o : oracle) (db0 : database) :
  tokens_distinct o ->
  exists w',
    populate_database (connect o (setup_database db0)) = (Ok tt, w')
    /\ row_counts (committed w') = [3; 4; 8; 8; 5; 4; 0]%nat
    /\ parents_come_first (emitted w').
Proof.
  intros Hd. destruct (populate_body_fresh o Hd)
    as [w' (E & _ & Hc & Hl & _)].
  rewrite setup_database_empty.
  eexists. split; [exact (populate_database_of_body _ _ E)|].
  cbn [committed emitted]. split; [exact Hc|].
  intros before s after t k Hlog Hp.
  destruct (parents_first_spec _ _ Hl before s after t k Hlog Hp)
    as [p [[[]|Hin] Hq]].
  exists p. tauto.
Qed.

Lemma demo_tokens_distinct : tokens_distinct demo_oracle.
Proof. unfold tokens_distinct. apply nodupb_spec. vm_compute. reflexivity. Qed.

Lemma demo_run :
  exists w1,
    populate_database (connect demo_oracle (setup_database empty_schema))
    = (Ok tt, w1).
Proof.
  destruct (populate_body_fresh demo_oracle demo_tokens_distinct)
    as [w' [E _]].
  eexists. exact (populate_database_of_body _ _ E).
Qed.

Lemma population_of_fresh_database_witness :
  exists w',
    populate_database (connect demo_oracle (setup_database users_only))
    = (Ok tt, w')
    /\ row_counts (committed w') = [3; 4; 8; 8; 5; 4; 0]%nat
    /\ parents_come_first (emitted w').
Proof.
  apply (population_of_fresh_database demo_oracle users_only).
  unfold tokens_distinct. apply nodupb_spec. vm_compute. reflexivity.
Defined.


(** ** Running the script again *)

Lemma taken_username (r : User.t) (others : list User.t) :
  In (User.username r) (map User.username others) ->
  taken r others = Some "username".
Proof.
  intros H. unfold taken, unique_columns, User_model, rev, app, find.
  cbn [snd fst].
  replace (existsb _ others) with true; [reflexivity|].
  symmetry. apply existsb_exists. apply in_map_iff in H.
  destruct H as [r' [He Hr']]. exists r'. split; [exact Hr'|].
  now apply String.eqb_eq.
Qed.

(** On a database that already holds a user with the first sample
    username, the first INSERT of the run fails on the unique username
    (the store tests [username] before [email]), and nothing is
    committed. *)
Lemma populate_body_existing_username (o : oracle) (db : database) l :
  user db = Some l ->
  In "johndoe" (map User.username l) ->
  exists w',
    populate_body (connect o db) = (Err (UniqueFailed "user" "username"), w')
    /\ committed w' = db.
Proof.
  intros Hl Hin. eexists. split.
  - unfold populate_body, connect.
    repeat lazymatch goal with
           | |- bind (@add _ _ _ _) _ _ = _ => fail
           | |- _ => step I
           end.
    erewrite bind_err; [reflexivity|].
    eapply add_violation; [reflexivity | exact Hl |].
    unfold violation.
    replace (failed_check _) with (@None string) by reflexivity.
    rewrite taken_username by exact Hin. reflexivity.
  - reflexivity.
Qed.

Lemma populate_database_existing_username (o : oracle) (db : database) l :
  user db = Some l ->
  In "johndoe" (map User.username l) ->
  run populate_database o db = (Err (UniqueFailed "user" "username"), db).
Proof.
  intros Hl Hin.
  destruct (populate_body_existing_username o db l Hl Hin) as [w' [E Hc]].
  unfold run, populate_database, try_finally, try_except.
  rewrite E. cbn. now rewrite Hc.
Qed.

(** C4. After a run on a fresh database has returned, a second run on
    what it left fails on a uniqueness constraint at its first INSERT (the
    first user's email and username are both taken, and the store reports
    the username) and leaves the database as the first run left it: no
    row is added. *)
Theorem second_population_fails_on_unique (o1 o2 : oracle) (db0 : database)
  (w1 : world) :
  tokens_distinct o1 ->
  populate_database (connect o1 (setup_database db0)) = (Ok tt, w1) ->
  run populate_database o2 (committed w1)
  = (Err (UniqueFailed "user" "username"), committed w1)
  /\ row_counts (committed w1) = [3; 4; 8; 8; 5; 4; 0]%nat.
Proof.
  intros Hd E1. destruct (populate_body_fresh o1 Hd)
    as [w' (E & _ & Hc & _ & _ & _ & Hu)].
  rewrite setup_database_empty in E1.
  rewrite (populate_database_of_body _ _ E) in E1. injection E1 as <-.
  cbn [committed]. split; [|exact Hc].
  destruct (user (committed w')) as [l|] eqn:Hl; [|discriminate Hu].
  apply (populate_database_existing_username o2 (committed w') l Hl).
  cbn [rows] in Hu. rewrite Hu. now left.
Qed.

Lemma second_population_fails_on_unique_witness :
  exists w1,
    populate_database (connect demo_oracle (setup_database empty_schema))
    = (Ok tt, w1)
    /\ run populate_database stuck_oracle (committed w1)
       = (Err (UniqueFailed "user" "username"), committed w1).
Proof.
  destruct demo_run as [w1 E1]. exists w1. split; [exact E1|].
  exact (proj1 (second_population_fails_on_unique demo_oracle stuck_oracle
                  empty_schema w1 demo_tokens_distinct E1)).
Defined.

(** ** The sample verification requests *)

Lemma count_by_summary (p : string * bool -> bool)
  (l : list VerificationRequest.t) :
  List.length (filter (fun v => p (request_summary v)) l)
  = List.length (filter p (map request_summary l)).
Proof.
  induction l as [|v l IH]; cbn; [reflexivity|].
  destruct (p (request_summary v)); cbn; now rewrite IH.
Qed.

(** C3, as the code has it.  The eight verification requests of the sample
    data cover the statuses [pending], [verified] and [rejected]; none is
    [expired]; a request has a response timestamp exactly when its status
    is not [pending]; and three of them are pending, four verified and
    one rejected. *)
Theorem sample_requests_cover_three_statuses (o : oracle) (db0 : database)
  (w1 : world) :
  tokens_distinct o ->
  populate_database (connect o (setup_database db0)) = (Ok tt, w1) ->
  let requests := rows (verification_request (committed w1)) in
  (forall st, In st ["pending"; "verified"; "rejected"] ->
     exists v, In v requests /\ VerificationRequest.status v = st)
  /\ (forall v, In v requests -> VerificationRequest.status v <> "expired")
  /\ (forall v, In v requests ->
        (VerificationRequest.responded_at v <> None
         <-> VerificationRequest.status v <> "pending"))
  /\ List.length requests = 8%nat
  /\ count_status "pending" requests = 3%nat
  /\ count_status "verified" requests = 4%nat
  /\ count_status "rejected" requests = 1%nat
  /\ count_status "expired" requests = 0%nat.
Proof.
  intros Hd E1. destruct (populate_body_fresh o Hd)
    as [w' (E & _ & _ & _ & _ & Hr & _)].
  rewrite setup_database_empty in E1.
  rewrite (populate_database_of_body _ _ E) in E1. injection E1 as <-.
  cbn [committed]. cbn zeta.
  set (requests := rows (verification_request (committed w'))) in *.
  assert (Hsum : forall v, In v requests ->
            In (request_summary v) sample_requests).
  { intros v Hv. rewrite <- Hr. now apply in_map. }
  assert (Hcount : forall st,
            count_status st requests
            = List.length (filter (fun s => String.eqb (fst s) st)
                                  sample_requests)).
  { intros st. rewrite <- Hr.
    exact (count_by_summary (fun s => String.eqb (fst s) st) requests). }
  split; [|split; [|split; [|split; [|rewrite !Hcount; repeat split]]]].
  - intros st Hst.
    assert (Hin : exists b, In (st, b) sample_requests).
    { cbn in Hst. destruct Hst as [<-|[<-|[<-|[]]]];
        [exists false|exists true|exists true]; cbn; tauto. }
    destruct Hin as [b Hin]. rewrite <- Hr in Hin.
    apply in_map_iff in Hin. destruct Hin as [v [Hv Hi]].
    exists v. split; [exact Hi|]. unfold request_summary in Hv.
    now injection Hv.
  - intros v Hv Hst. apply Hsum in Hv. unfold request_summary in Hv.
    rewrite Hst in Hv. cbn in Hv.
    repeat (destruct Hv as [Hv|Hv]; [discriminate Hv|]). exact Hv.
  - intros v H. split.
    + intros Hresp Hst. apply Hsum in H. unfold request_summary in H.
      rewrite Hst in H.
      destruct (VerificationRequest.responded_at v); [|now apply Hresp].
      cbn in H. repeat (destruct H as [H|H]; [discriminate H|]). exact H.
    + intros Hst Hresp. apply Hsum in H. unfold request_summary in H.
      rewrite Hresp in H. cbn in H.
      repeat (destruct H as [H|H];
              [injection H as H; now apply Hst|]).
      exact H.
  - rewrite <- (length_map request_summary), Hr. reflexivity.
Qed.

(** C3 as stated fails: the run on a fresh database returns, and none of
    the requests it stores has the status [expired]. *)
Lemma sample_requests_counterexample :
  fst (run populate_database demo_oracle empty_schema) = Ok tt
  /\ existsb (fun v => String.eqb (VerificationRequest.status v) "expired")
             (rows (verification_request sample_db)) = false.
Proof. split; vm_compute; reflexivity. Qed.

Lemma sample_requests_cover_three_statuses_witness :
  exists w1,
    populate_database (connect demo_oracle (setup_database empty_schema))
    = (Ok tt, w1)
    /\ (forall v, In v (rows (verification_request (committed w1))) ->
                  VerificationRequest.status v <> "expired")
    /\ count_status "pending" (rows (verification_request (committed w1)))
       = 3%nat
    /\ count_status "verified" (rows (verification_request (committed w1)))
       = 4%nat
    /\ count_status "rejected" (rows (verification_request (committed w1)))
       = 1%nat.
Proof.
  destruct demo_run as [w1 E1]. exists w1. split; [exact E1|].
  pose proof (sample_requests_cover_three_statuses demo_oracle empty_schema
                w1 demo_tokens_distinct E1) as H.
  cbv zeta in H. destruct H as (_ & H2 & _ & _ & H5 & H6 & H7 & _).
  exact (conj H2 (conj H5 (conj H6 H7))).
Defined.

(** * Further properties of the schema and of the scripts *)

#[export] Instance User_rows : RowLaws User_model.
Proof.
  split; intros; try destruct r; try reflexivity.
  cbn in H. destruct H as [<-|[<-|[]]]; reflexivity.
Qed.

#[export] Instance ResumeProject_rows : RowLaws ResumeProject_model.
Proof. split; intros; try destruct r; try reflexivity. destruct H. Qed.

#[export] Instance Experience_rows : RowLaws Experience_model.
Proof. split; intros; try destruct r; try reflexivity. destruct H. Qed.

#[export] Instance VerificationRequest_rows
  : RowLaws VerificationRequest_model.
Proof.
  split; intros; try destruct r; try reflexivity.
  cbn in H. destruct H as [<-|[]]; reflexivity.
Qed.

#[export] Instance ShareLink_rows : RowLaws ShareLink_model.
Proof.
  split; intros; try destruct r; try reflexivity.
  cbn in H. destruct H as [<-|[]]; reflexivity.
Qed.

#[export] Instance Session_rows : RowLaws Session_model.
Proof.
  split; intros; try destruct r; try reflexivity.
  cbn in H. destruct H as [<-|[]]; reflexivity.
Qed.

#[export] Instance Template_rows : RowLaws Template_model.
Proof.
  split; intros; try destruct r; try reflexivity.
  cbn in H. destruct H as [<-|[]]; reflexivity.
Qed.

(** ** Keys and unique columns, one table at a time *)

Section Keys.
Context {K R : Type} {model : Model K R} {index : nat}
        {laws : ModelLaws model index} {row_laws : RowLaws model}.

Lemma fold_max_bound (k : Z) (ks : list Z) (x : Z) :
  In x (k :: ks) -> x <= fold_right Z.max k ks.
Proof.
  induction ks as [|y ks IH]; cbn.
  - intros [->|[]]. lia.
  - intros [->|[->|H]].
    + assert (x <= fold_right Z.max x ks) by (apply IH; now left). lia.
    + lia.
    + assert (x <= fold_right Z.max k ks) by (apply IH; now right). lia.
Qed.

Lemma fold_max_in (k : Z) (ks : list Z) : In (fold_right Z.max k ks) (k :: ks).
Proof.
  induction ks as [|y ks IH]; cbn; [now left|].
  destruct (Z.max_spec y (fold_right Z.max k ks)) as [[_ ->]|[_ ->]].
  - cbn in IH. tauto.
  - tauto.
Qed.

Lemma candidate_range (d : Z) : 1 <= candidate d <= 4611686018427387904.
Proof.
  unfold candidate. change 4611686018427387903 with (Z.ones 62).
  rewrite Z.land_ones by lia.
  pose proof (Z.mod_pos_bound d (2 ^ 62) eq_refl) as H.
  change (2 ^ 62) with 4611686018427387904 in *. lia.
Qed.

(** The key of a new row is not a key of the table. *)
Lemma next_rowid_fresh random (l : list R) (k : Z) :
  next_rowid random l = Some k -> ~ In k (map pk l).
Proof.
  unfold next_rowid. destruct (map pk l) as [|k0 ks]; [intros _ []|].
  cbv zeta. destruct (_ <? max_rowid).
  - intros E. injection E as <-. intros H.
    apply (fold_max_bound k0 ks) in H. lia.
  - intros E. apply find_some in E. destruct E as [_ E].
    apply negb_true_iff in E. intros H.
    apply not_true_iff_false in E. apply E. apply existsb_exists.
    exists k. split; [exact H | apply Z.eqb_refl].
Qed.

(** Below the largest integer it is the largest key plus one. *)
Lemma next_rowid_next random (l : list R) (k : Z) :
  l <> [] -> (forall x, In x l -> pk x < max_rowid) ->
  next_rowid random l = Some k ->
  (exists x, In x l /\ k = pk x + 1) /\ forall x, In x l -> pk x < k.
Proof.
  intros Hne Hlt. unfold next_rowid.
  destruct (map pk l) as [|k0 ks] eqn:E;
    [destruct l; [contradiction | discriminate]|].
  cbv zeta.
  assert (Hin : In (fold_right Z.max k0 ks) (map pk l))
    by (rewrite E; apply fold_max_in).
  apply in_map_iff in Hin. destruct Hin as [x [Hx Hxin]].
  pose proof (Hlt x Hxin) as Hb. rewrite Hx in Hb.
  apply Z.ltb_lt in Hb. rewrite Hb. intros Hk. injection Hk as <-.
  split; [exists x; split; [exact Hxin | now rewrite Hx]|].
  intros y Hy.
  assert (pk y <= fold_right Z.max k0 ks); [|lia].
  apply fold_max_bound. rewrite <- E. now apply in_map.
Qed.

(** At the largest integer it is one of the candidates. *)
Lemma next_rowid_random random (l : list R) (k : Z) :
  (exists x, In x l /\ max_rowid <= pk x) ->
  next_rowid random l = Some k -> 1 <= k <= 4611686018427387904.
Proof.
  intros [x [Hx Hb]]. unfold next_rowid.
  destruct (map pk l) as [|k0 ks] eqn:E;
    [destruct l; [destruct Hx | discriminate]|].
  cbv zeta.
  assert (pk x <= fold_right Z.max k0 ks)
    by (apply fold_max_bound; rewrite <- E; now apply in_map).
  destruct (_ <? max_rowid) eqn:L; [apply Z.ltb_lt in L; lia|].
  intros F. apply find_some in F. destruct F as [F _].
  apply in_map_iff in F. destruct F as [d [<- _]]. apply candidate_range.
Qed.

Lemma next_rowid_below random (l : list R) :
  (forall x, In x l -> pk x < max_rowid) ->
  exists k, next_rowid random l = Some k.
Proof.
  intros Hlt. unfold next_rowid.
  destruct (map pk l) as [|k0 ks] eqn:E; [eauto|]. cbv zeta.
  assert (Hin : In (fold_right Z.max k0 ks) (map pk l))
    by (rewrite E; apply fold_max_in).
  apply in_map_iff in Hin. destruct Hin as [x [Hx Hxin]].
  pose proof (Hlt x Hxin) as Hb. rewrite Hx in Hb.
  apply Z.ltb_lt in Hb. rewrite Hb. eauto.
Qed.

Lemma taken_some_iff (r : R) (others : list R) :
  taken r others = None
  <-> forall u r', In u unique_columns -> In r' others ->
                   snd u r' <> snd u r.
Proof.
  split; [|apply taken_none].
  unfold taken. intros H u r' Hu Hr' E.
  destruct (find _ (rev unique_columns)) as [c|] eqn:F; [discriminate|].
  apply in_rev in Hu.
  pose proof (find_none _ _ F u Hu) as N. cbn in N.
  apply not_true_iff_false in N. apply N.
  apply existsb_exists. exists r'. split; [exact Hr'|].
  now apply String.eqb_eq.
Qed.

Lemma violation_none_taken (r : R) (others : list R) :
  violation r others = None -> taken r others = None.
Proof.
  unfold violation. destruct (failed_check r); [discriminate|].
  destruct (taken r others); [discriminate | reflexivity].
Qed.

Lemma insert_fresh random (r r' : R) (db db' : database) :
  insert random r db = Ok (r', db') ->
  ~ In (pk r') (map pk (rows (get_table db))).
Proof.
  intros H. apply insert_inv in H.
  destruct H as [l [k [Hl [_ [Hk [-> ->]]]]]].
  rewrite pk_set_pk, Hl. cbn [rows]. now apply (next_rowid_fresh random).
Qed.

Lemma insert_keeps_pk_unique random (r r' : R) (db db' : database) :
  pk_unique model db -> insert random r db = Ok (r', db') ->
  pk_unique model db'.
Proof.
  intros Hn H. pose proof (insert_fresh random r r' db db' H) as Hf.
  apply insert_inv in H. destruct H as [l [k [Hl [_ [_ [-> ->]]]]]].
  unfold pk_unique in *. rewrite get_set. rewrite Hl in Hn, Hf.
  cbn [rows] in *. rewrite map_app. cbn [map].
  apply NoDup_app; [exact Hn | repeat constructor; intros [] |].
  intros x Hx [<-|[]]. contradiction.
Qed.

Lemma insert_keeps_uniques random (r r' : R) (db db' : database) :
  uniques_hold model db -> insert random r db = Ok (r', db') ->
  uniques_hold model db'.
Proof.
  intros Hu H. apply insert_inv in H.
  destruct H as [l [k [Hl [Hv [_ [-> ->]]]]]].
  intros u Hin. rewrite get_set. cbn [rows]. rewrite map_app. cbn [map].
  rewrite unique_set_pk by exact Hin.
  specialize (Hu u Hin). rewrite Hl in Hu. cbn [rows] in Hu.
  apply NoDup_app; [exact Hu | repeat constructor; intros [] |].
  intros v Hv' [<-|[]]. apply in_map_iff in Hv'.
  destruct Hv' as [x [Hx Hxin]].
  apply violation_none_taken in Hv.
  exact (proj1 (taken_some_iff r l) Hv u x Hin Hxin Hx).
Qed.

Lemma insert_keeps_table_ok random (r r' : R) (db db' : database) :
  table_ok model db -> insert random r db = Ok (r', db') ->
  table_ok model db'.
Proof.
  intros (Hc & Hu & Hk) H. repeat apply conj.
  - refine (insert_keeps (fun x => failed_check x = None) random r r' db db'
              (fun x H => H) _ Hc H).
    intros k x. now rewrite check_set_pk.
  - exact (insert_keeps_uniques random r r' db db' Hu H).
  - exact (insert_keeps_pk_unique random r r' db db' Hk H).
Qed.

(** A row that passes CHECK and UNIQUE goes in, as long as the keys of
    the table are below the largest integer. *)
Lemma insert_succeeds random (r : R) (db : database) (l : list R) :
  get_table db = Some l ->
  failed_check r = None ->
  (forall u x, In u unique_columns -> In x l -> snd u x <> snd u r) ->
  (forall x, In x l -> pk x < max_rowid) ->
  exists k,
    insert random r db = Ok (set_pk k r, set_table (Some (l ++ [set_pk k r])) db).
Proof.
  intros Hl Hc Hu Hk. unfold insert. rewrite Hl.
  rewrite (violation_none r l Hc Hu).
  destruct (next_rowid_below random l Hk) as [k ->]. eauto.
Qed.

(** X1. The key INSERT gives a row is not a key of the table, so the
    table's keys stay pairwise distinct.  It is 1 in an empty table;
    one more than the largest key when the keys are below the largest
    integer, so larger than every key; and between 1 and 2^62 when a key
    has reached the largest integer. *)
Theorem insert_assigns_fresh_key random (r r' : R) (db db' : database) :
  insert random r db = Ok (r', db') ->
  ~ In (pk r') (map pk (rows (get_table db)))
  /\ (pk_unique model db -> pk_unique model db')
  /\ (rows (get_table db) = [] -> pk r' = 1)
  /\ ((forall x, In x (rows (get_table db)) -> pk x < max_rowid) ->
      rows (get_table db) <> [] ->
      (exists x, In x (rows (get_table db)) /\ pk r' = pk x + 1)
      /\ forall x, In x (rows (get_table db)) -> pk x < pk r')
  /\ ((exists x, In x (rows (get_table db)) /\ max_rowid <= pk x) ->
      1 <= pk r' <= 4611686018427387904).
Proof.
  intros H. split; [exact (insert_fresh random r r' db db' H)|].
  split; [intros Hn; exact (insert_keeps_pk_unique random r r' db db' Hn H)|].
  apply insert_inv in H. destruct H as [l [k [Hl [_ [Hk [-> ->]]]]]].
  rewrite pk_set_pk, Hl. cbn [rows]. repeat split.
  - intros ->. cbn in Hk. now injection Hk as <-.
  - now apply (next_rowid_next random l k).
  - intros x Hx. now apply (next_rowid_next random l k).
  - now apply (next_rowid_random random l k).
  - now apply (next_rowid_random random l k).
Qed.

(** X2. INSERT keeps every unique column free of duplicates, and an INSERT
    whose value in a unique column is already in the table is refused:
    the statement fails and there is no new state. *)
Theorem insert_enforces_unique random (r : R) (db : database) :
  (forall r' db', uniques_hold model db ->
                  insert random r db = Ok (r', db') ->
                  uniques_hold model db')
  /\ (forall u x, In u unique_columns -> In x (rows (get_table db)) ->
                  snd u x = snd u r ->
                  exists e, insert random r db = Err e).
Proof.
  split.
  - intros r' db'. apply insert_keeps_uniques.
  - intros u x Hu Hx E. unfold insert.
    destruct (get_table db) as [l|]; [|eauto].
    destruct (violation r l) eqn:V; [eauto|]. exfalso.
    apply violation_none_taken in V.
    exact (proj1 (taken_some_iff r l) V u x Hu Hx E).
Qed.

(** UPDATE, seen from the table: the row with key [k] is replaced by
    [new], every other row stays where it is. *)
Lemma update_inv k now assign (db db' : database) :
  update k now assign db = Ok db' ->
  (db' = db /\ forall x, In x (rows (get_table db)) -> pk x <> k)
  \/ exists l old,
       get_table db = Some l
       /\ find (fun r => pk r =? k) l = Some old
       /\ violation (set_pk k (assign (on_update now old)))
                    (filter (fun r => negb (pk r =? k)) l) = None
       /\ db' = set_table
                  (Some (map (fun r => if pk r =? k
                                       then set_pk k (assign (on_update now old))
                                       else r) l)) db.
Proof.
  unfold update. destruct (get_table db) as [l|]; [|discriminate].
  destruct (find _ l) as [old|] eqn:F.
  - destruct (violation _ _) eqn:V; [discriminate|].
    intros E. injection E as <-. right. exists l, old. auto.
  - intros E. injection E as <-. left. split; [reflexivity|].
    intros x Hx. apply Z.eqb_neq. exact (find_none _ _ F x Hx).
Qed.

(** A successful UPDATE changes no key and keeps the rows in place: the
    list of keys of the table is the same afterwards, and every row with
    another key is still there. *)
Lemma update_keeps_keys k now assign (db db' : database) :
  update k now assign db = Ok db' ->
  map pk (rows (get_table db')) = map pk (rows (get_table db))
  /\ (forall x, In x (rows (get_table db)) -> pk x <> k ->
                In x (rows (get_table db'))).
Proof.
  intros H. apply update_inv in H.
  destruct H as [[-> _]|[l [old [Hl [_ [_ ->]]]]]]; [auto|].
  rewrite get_set, Hl. cbn [rows]. split.
  - rewrite map_map. apply map_ext. intros x.
    destruct (pk x =? k) eqn:E; [|reflexivity].
    rewrite pk_set_pk. apply Z.eqb_eq in E. now rewrite E.
  - intros x Hx Hne. apply in_map_iff. exists x.
    apply Z.eqb_neq in Hne. now rewrite Hne.
Qed.

Lemma replace_unique (col : R -> string) (k : Z) (new : R) (l : list R) :
  NoDup (map pk l) -> NoDup (map col l) ->
  (forall x, In x (filter (fun r => negb (pk r =? k)) l) -> col x <> col new) ->
  NoDup (map col (map (fun r => if pk r =? k then new else r) l)).
Proof.
  induction l as [|x l IH]; cbn [map]; [constructor|].
  intros Hpk Hcol Hnew. inversion Hpk as [|? ? Hx Hpk']; subst.
  inversion Hcol as [|? ? Hc Hcol']; subst.
  destruct (pk x =? k) eqn:E.
  - apply Z.eqb_eq in E.
    assert (Hid : map (fun r => if pk r =? k then new else r) l = l).
    { rewrite <- (map_id l) at 2. apply map_ext_in. intros y Hy.
      destruct (pk y =? k) eqn:Ey; [|reflexivity].
      apply Z.eqb_eq in Ey. exfalso. apply Hx. rewrite E, <- Ey.
      now apply in_map. }
    rewrite Hid. constructor; [|exact Hcol'].
    intros Hin. apply in_map_iff in Hin. destruct Hin as [y [Hy Hyin]].
    apply (Hnew y); [|exact Hy].
    apply filter_In. split; [now right|]. apply negb_true_iff, Z.eqb_neq.
    intros Ey. apply Hx. rewrite E, <- Ey. now apply in_map.
  - constructor.
    + intros Hin. apply in_map_iff in Hin. destruct Hin as [y [Hy Hyin]].
      apply in_map_iff in Hyin. destruct Hyin as [z [Hz Hzin]].
      destruct (pk z =? k) eqn:Ez; subst y.
      * apply (Hnew x); [|now symmetry].
        apply filter_In. split; [now left | now rewrite E].
      * apply Hc. rewrite <- Hy. now apply in_map.
    + apply IH; [exact Hpk' | exact Hcol'|].
      intros y Hy. apply Hnew. apply filter_In in Hy.
      apply filter_In. split; [now right | tauto].
Qed.

(** X3. On a table whose keys are distinct, UPDATE keeps every unique
    column free of duplicates, and an UPDATE that gives a row the value
    another row already has in a unique column is refused. *)
Theorem update_enforces_unique k now assign (db : database) :
  (forall db', pk_unique model db -> uniques_hold model db ->
               update k now assign db = Ok db' -> uniques_hold model db')
  /\ (forall l old u x,
         get_table db = Some l ->
         find (fun r => pk r =? k) l = Some old ->
         In u unique_columns -> In x l -> pk x <> k ->
         snd u x = snd u (assign (on_update now old)) ->
         exists e, update k now assign db = Err e).
Proof.
  split.
  - intros db' Hpk Hu H. apply update_inv in H.
    destruct H as [[-> _]|[l [old [Hl [_ [V ->]]]]]]; [exact Hu|].
    intros u Hin. rewrite get_set. cbn [rows].
    unfold pk_unique in Hpk. specialize (Hu u Hin). rewrite Hl in Hpk, Hu.
    apply replace_unique; [exact Hpk | exact Hu|].
    intros x Hx. apply violation_none_taken in V.
    exact (proj1 (taken_some_iff _ _) V u x Hin Hx).
  - intros l old u x Hl Hf Hu Hx Hne E. unfold update. rewrite Hl, Hf.
    destruct (violation _ _) eqn:V; [eauto|]. exfalso.
    apply violation_none_taken in V.
    apply (proj1 (taken_some_iff _ _) V u x Hu).
    + apply filter_In. split; [exact Hx|]. now apply negb_true_iff, Z.eqb_neq.
    + now rewrite unique_set_pk.
Qed.

(** An enumerated column, in general: when the CHECK constraints of the
    model accept exactly the rows whose column [col] is in [values],
    INSERT and UPDATE keep the column inside [values] and an INSERT with
    any other value fails. *)
Lemma enumeration_enforced (col : R -> string) (values : list string) :
  (forall r, failed_check r = None -> In (col r) values) ->
  (forall r, ~ In (col r) values -> exists c, failed_check r = Some c) ->
  (forall k r, col (set_pk k r) = col r) ->
  (forall random r db r' db',
      (forall x, In x (rows (get_table db)) -> In (col x) values) ->
      insert random r db = Ok (r', db') ->
      forall x, In x (rows (get_table db')) -> In (col x) values)
  /\ (forall k now assign db db',
         (forall x, In x (rows (get_table db)) -> In (col x) values) ->
         update k now assign db = Ok db' ->
         forall x, In x (rows (get_table db')) -> In (col x) values)
  /\ (forall random r db, ~ In (col r) values ->
                          exists e, insert random r db = Err e).
Proof.
  intros Hc Hbad Hk. repeat split.
  - intros random r db r' db' Hdb Hins.
    apply (insert_keeps (fun x => In (col x) values) random r r' db db' Hc);
      [|exact Hdb | exact Hins].
    intros k x. now rewrite Hk.
  - intros k now assign db db' Hdb Hupd.
    exact (update_keeps (fun x => In (col x) values) k now assign db db'
             Hc Hdb Hupd).
  - intros random r db Hr. destruct (Hbad r Hr) as [c Hf].
    rewrite (insert_rejects_failed_check random r db c Hf). eauto.
Qed.

(** Every row that has key [k] after a successful UPDATE of key [k] is the
    new row. *)
Lemma update_row k now assign (db db' : database) x :
  update k now assign db = Ok db' ->
  In x (rows (get_table db')) -> pk x = k ->
  exists old,
    In old (rows (get_table db)) /\ pk old = k
    /\ x = set_pk k (assign (on_update now old)).
Proof.
  intros H Hx Hk. apply update_inv in H.
  destruct H as [[-> Hno]|[l [old [Hl [Hf [_ ->]]]]]].
  - exfalso. exact (Hno x Hx Hk).
  - rewrite get_set in Hx. cbn [rows] in Hx. apply in_map_iff in Hx.
    destruct Hx as [y [Hy Hyin]]. apply find_some in Hf.
    destruct Hf as [Hold Hpk]. apply Z.eqb_eq in Hpk.
    destruct (pk y =? k) eqn:E.
    + exists old. rewrite Hl. auto.
    + subst y. apply Z.eqb_neq in E. contradiction.
Qed.

End Keys.


(** ** The other enumerated columns *)

Lemma in_false (allowed : list string) (v : string) :
  in_ allowed v = false <-> ~ In v allowed.
Proof. rewrite <- in_spec. symmetry. apply not_true_iff_false. Qed.

(** X4. [check_template_style]: a stored project's [template_style] is
    always one of [classic], [modern], [minimal]; INSERT and UPDATE keep
    it so and an INSERT with another style fails. *)
Theorem template_style_enforced :
  (forall random (r : ResumeProject.t) db r' db',
      (forall x, In x (rows (resume_project db)) ->
         In (ResumeProject.template_style x) ["classic"; "modern"; "minimal"]) ->
      insert random r db = Ok (r', db') ->
      forall x, In x (rows (resume_project db')) ->
        In (ResumeProject.template_style x) ["classic"; "modern"; "minimal"])
  /\ (forall k now assign db db',
         (forall x, In x (rows (resume_project db)) ->
            In (ResumeProject.template_style x)
               ["classic"; "modern"; "minimal"]) ->
         update (model := ResumeProject_model) k now assign db = Ok db' ->
         forall x, In x (rows (resume_project db')) ->
           In (ResumeProject.template_style x)
              ["classic"; "modern"; "minimal"])
  /\ (forall random (r : ResumeProject.t) db,
         ~ In (ResumeProject.template_style r)
              ["classic"; "modern"; "minimal"] ->
         exists e, insert random r db = Err e).
Proof.
  apply (enumeration_enforced (model := ResumeProject_model)
           ResumeProject.template_style).
  - intros r. unfold failed_check, check_constraints, ResumeProject_model,
      find. cbn [snd fst].
    destruct (ResumeProject.check_template_style r) eqn:E; [|discriminate].
    intros _. now apply in_spec.
  - intros r Hr. unfold failed_check, check_constraints,
      ResumeProject_model, find. cbn [snd fst].
    apply in_false in Hr. unfold ResumeProject.check_template_style,
      ResumeProject.template_style_values. rewrite Hr. cbn. eauto.
  - intros k r. reflexivity.
Qed.

(** X5. [check_verification_status]: a stored experience's
    [verification_status] is always one of [not_requested], [pending],
    [verified], [rejected]; INSERT and UPDATE keep it so and an INSERT
    with another status fails. *)
Theorem verification_status_enforced :
  (forall random (r : Experience.t) db r' db',
      (forall x, In x (rows (experience db)) ->
         In (Experience.verification_status x)
            ["not_requested"; "pending"; "verified"; "rejected"]) ->
      insert random r db = Ok (r', db') ->
      forall x, In x (rows (experience db')) ->
        In (Experience.verification_status x)
           ["not_requested"; "pending"; "verified"; "rejected"])
  /\ (forall k now assign db db',
         (forall x, In x (rows (experience db)) ->
            In (Experience.verification_status x)
               ["not_requested"; "pending"; "verified"; "rejected"]) ->
         update (model := Experience_model) k now assign db = Ok db' ->
         forall x, In x (rows (experience db')) ->
           In (Experience.verification_status x)
              ["not_requested"; "pending"; "verified"; "rejected"])
  /\ (forall random (r : Experience.t) db,
         ~ In (Experience.verification_status r)
              ["not_requested"; "pending"; "verified"; "rejected"] ->
         exists e, insert random r db = Err e).
Proof.
  apply (enumeration_enforced (model := Experience_model)
           Experience.verification_status).
  - intros r. rewrite experience_failed_check.
    destruct (Experience.check_verification_status r) eqn:E; [|discriminate].
    intros _. now apply in_spec.
  - intros r Hr. rewrite experience_failed_check.
    apply in_false in Hr. unfold Experience.check_verification_status,
      Experience.verification_status_values. rewrite Hr. eauto.
  - intros k r. reflexivity.
Qed.

(** X6. [check_request_status]: a stored verification request's [status]
    is always one of [pending], [verified], [rejected], [expired]; INSERT
    and UPDATE keep it so and an INSERT with another status fails. *)
Theorem request_status_enforced :
  (forall random (r : VerificationRequest.t) db r' db',
      (forall x, In x (rows (verification_request db)) ->
         In (VerificationRequest.status x)
            ["pending"; "verified"; "rejected"; "expired"]) ->
      insert random r db = Ok (r', db') ->
      forall x, In x (rows (verification_request db')) ->
        In (VerificationRequest.status x)
           ["pending"; "verified"; "rejected"; "expired"])
  /\ (forall k now assign db db',
         (forall x, In x (rows (verification_request db)) ->
            In (VerificationRequest.status x)
               ["pending"; "verified"; "rejected"; "expired"]) ->
         update (model := VerificationRequest_model) k now assign db
         = Ok db' ->
         forall x, In x (rows (verification_request db')) ->
           In (VerificationRequest.status x)
              ["pending"; "verified"; "rejected"; "expired"])
  /\ (forall random (r : VerificationRequest.t) db,
         ~ In (VerificationRequest.status r)
              ["pending"; "verified"; "rejected"; "expired"] ->
         exists e, insert random r db = Err e).
Proof.
  apply (enumeration_enforced (model := VerificationRequest_model)
           VerificationRequest.status).
  - intros r. unfold failed_check, check_constraints,
      VerificationRequest_model, find. cbn [snd fst].
    destruct (VerificationRequest.check_request_status r) eqn:E;
      [|discriminate].
    intros _. now apply in_spec.
  - intros r Hr. unfold failed_check, check_constraints,
      VerificationRequest_model, find. cbn [snd fst].
    apply in_false in Hr. unfold VerificationRequest.check_request_status,
      VerificationRequest.status_values. rewrite Hr. cbn. eauto.
  - intros k r. reflexivity.
Qed.

(** X7. [check_access_type]: a stored share link's [access_type] is always
    [view] or [edit]; INSERT and UPDATE keep it so and an INSERT with
    another access type fails. *)
Theorem access_type_enforced :
  (forall random (r : ShareLink.t) db r' db',
      (forall x, In x (rows (share_link db)) ->
         In (ShareLink.access_type x) ["view"; "edit"]) ->
      insert random r db = Ok (r', db') ->
      forall x, In x (rows (share_link db')) ->
        In (ShareLink.access_type x) ["view"; "edit"])
  /\ (forall k now assign db db',
         (forall x, In x (rows (share_link db)) ->
            In (ShareLink.access_type x) ["view"; "edit"]) ->
         update (model := ShareLink_model) k now assign db = Ok db' ->
         forall x, In x (rows (share_link db')) ->
           In (ShareLink.access_type x) ["view"; "edit"])
  /\ (forall random (r : ShareLink.t) db,
         ~ In (ShareLink.access_type r) ["view"; "edit"] ->
         exists e, insert random r db = Err e).
Proof.
  apply (enumeration_enforced (model := ShareLink_model)
           ShareLink.access_type).
  - intros r. unfold failed_check, check_constraints, ShareLink_model, find.
    cbn [snd fst].
    destruct (ShareLink.check_access_type r) eqn:E; [|discriminate].
    intros _. now apply in_spec.
  - intros r Hr. unfold failed_check, check_constraints, ShareLink_model,
      find. cbn [snd fst].
    apply in_false in Hr. unfold ShareLink.check_access_type,
      ShareLink.access_type_values. rewrite Hr. cbn. eauto.
  - intros k r. reflexivity.
Qed.


(** ** Foreign keys *)

Lemma references_ok_app {C} (fk : C -> Z) (l : list C) (c : C) keys :
  references_ok fk (Some l) keys -> In (fk c) keys ->
  references_ok fk (Some (l ++ [c])) keys.
Proof.
  intros H Hc x Hx. cbn in Hx. apply in_app_iff in Hx.
  destruct Hx as [Hx|[<-|[]]]; [now apply H | exact Hc].
Qed.

Lemma references_ok_more {C} (fk : C -> Z) (t : table C) keys keys' :
  references_ok fk t keys -> (forall k, In k keys -> In k keys') ->
  references_ok fk t keys'.
Proof. intros H Hk x Hx. apply Hk, H, Hx. Qed.

Lemma in_map_app_l {A B} (f : A -> B) (l : list A) (a : A) (k : B) :
  In k (map f l) -> In k (map f (l ++ [a])).
Proof. rewrite map_app, in_app_iff. tauto. Qed.

Ltac ref_integrity_kept Hparent :=
  let l := fresh "l" in
  let k := fresh "k" in
  let Hl := fresh "Hl" in
  apply insert_inv in Hparent;
  destruct Hparent as [l [k [Hl [_ [_ [-> ->]]]]]];
  match goal with
  | H : ref_integrity _ |- _ => destruct H as (Hp & Hs & He & Hk & Hq)
  end;
  match goal with
  | db : database |- _ => destruct db
  end;
  unfold ref_integrity, user_keys, project_keys, experience_keys in *;
  cbn [get_table set_table User_model ResumeProject_model Experience_model
       VerificationRequest_model ShareLink_model Session_model
       Template_model set_user set_resume_project set_experience
       set_verification_request set_share_link set_session set_template
       user resume_project experience verification_request share_link
       session template rows] in *;
  subst; cbn [rows];
  repeat split;
  first [ assumption
        | apply references_ok_app; [assumption | assumption]
        | eapply references_ok_more; [eassumption | apply in_map_app_l]
        | rewrite map_app, in_app_iff; right; left; reflexivity ].

(** What an INSERT into each table does to the references: a row whose
    parent is in place leaves no orphan, and the key of a new user,
    project or experience is there to be referenced. *)
Lemma insert_user_sound random (r : User.t) db r' db' :
  ref_integrity db -> insert random r db = Ok (r', db') ->
  ref_integrity db' /\ In (User.user_id r') (user_keys db').
Proof. intros H Hins. ref_integrity_kept Hins. Qed.

Lemma insert_project_sound random (r : ResumeProject.t) db r' db' :
  ref_integrity db -> In (ResumeProject.user_id r) (user_keys db) ->
  insert random r db = Ok (r', db') ->
  ref_integrity db' /\ In (ResumeProject.project_id r') (project_keys db').
Proof. intros H Hin Hins. ref_integrity_kept Hins. Qed.

Lemma insert_experience_sound random (r : Experience.t) db r' db' :
  ref_integrity db -> In (Experience.project_id r) (project_keys db) ->
  insert random r db = Ok (r', db') ->
  ref_integrity db'
  /\ In (Experience.experience_id r') (experience_keys db').
Proof. intros H Hin Hins. ref_integrity_kept Hins. Qed.

Lemma insert_request_sound random (r : VerificationRequest.t) db r' db' :
  ref_integrity db ->
  In (VerificationRequest.experience_id r) (experience_keys db) ->
  insert random r db = Ok (r', db') -> ref_integrity db'.
Proof. intros H Hin Hins. ref_integrity_kept Hins. Qed.

Lemma insert_share_link_sound random (r : ShareLink.t) db r' db' :
  ref_integrity db -> In (ShareLink.project_id r) (project_keys db) ->
  insert random r db = Ok (r', db') -> ref_integrity db'.
Proof. intros H Hin Hins. ref_integrity_kept Hins. Qed.

Lemma insert_session_sound random (r : Session.t) db r' db' :
  ref_integrity db -> In (Session.user_id r) (user_keys db) ->
  insert random r db = Ok (r', db') -> ref_integrity db'.
Proof. intros H Hin Hins. ref_integrity_kept Hins. Qed.

Lemma insert_template_sound random (r : Template.t) db r' db' :
  ref_integrity db -> insert random r db = Ok (r', db') -> ref_integrity db'.
Proof. intros H Hins. ref_integrity_kept Hins. Qed.

(** X8. An INSERT of a row whose parent is in place keeps the database
    free of orphans, whichever of the seven tables the row goes to: a
    project or a session whose user exists, an experience or a share
    link whose project exists, a verification request whose experience
    exists, and any user or template.  The store does not look at the
    parent; that it is there is up to the caller. *)
Theorem insert_keeps_ref_integrity :
  (forall random (r : User.t) db r' db',
      ref_integrity db -> insert random r db = Ok (r', db') ->
      ref_integrity db')
  /\ (forall random (r : ResumeProject.t) db r' db',
         ref_integrity db -> In (ResumeProject.user_id r) (user_keys db) ->
         insert random r db = Ok (r', db') -> ref_integrity db')
  /\ (forall random (r : Experience.t) db r' db',
         ref_integrity db -> In (Experience.project_id r) (project_keys db) ->
         insert random r db = Ok (r', db') -> ref_integrity db')
  /\ (forall random (r : VerificationRequest.t) db r' db',
         ref_integrity db ->
         In (VerificationRequest.experience_id r) (experience_keys db) ->
         insert random r db = Ok (r', db') -> ref_integrity db')
  /\ (forall random (r : ShareLink.t) db r' db',
         ref_integrity db -> In (ShareLink.project_id r) (project_keys db) ->
         insert random r db = Ok (r', db') -> ref_integrity db')
  /\ (forall random (r : Session.t) db r' db',
         ref_integrity db -> In (Session.user_id r) (user_keys db) ->
         insert random r db = Ok (r', db') -> ref_integrity db')
  /\ (forall random (r : Template.t) db r' db',
         ref_integrity db -> insert random r db = Ok (r', db') ->
         ref_integrity db').
Proof.
  repeat apply conj.
  - intros random r db r' db' H Hins.
    exact (proj1 (insert_user_sound random r db r' db' H Hins)).
  - intros random r db r' db' H Hin Hins.
    exact (proj1 (insert_project_sound random r db r' db' H Hin Hins)).
  - intros random r db r' db' H Hin Hins.
    exact (proj1 (insert_experience_sound random r db r' db' H Hin Hins)).
  - exact insert_request_sound.
  - exact insert_share_link_sound.
  - exact insert_session_sound.
  - exact insert_template_sound.
Qed.

(** The store accepts a row that passes its CHECK and UNIQUE constraints,
    and the row is then in the table with the parent key it was given. *)
Ltac orphan_accepted m random r db l Hl Hno :=
  let k := fresh "k" in
  let E := fresh "E" in
  destruct (insert_succeeds (model := m) random r db l Hl) as [k E];
  [ try reflexivity | try solve [intros ? ? Hu; destruct Hu] | assumption
  | exists (set_pk (Model := m) k r),
           (set_table (Model := m) (Some (l ++ [set_pk (Model := m) k r])) db);
    split; [exact E|];
    intros (R1 & R2 & R3 & R4 & R5); apply Hno;
    destruct db;
    unfold user_keys, project_keys, experience_keys, references_ok in *;
    cbn [get_table set_table ResumeProject_model Experience_model
         VerificationRequest_model ShareLink_model Session_model
         set_resume_project set_experience set_verification_request
         set_share_link set_session user resume_project experience
         verification_request share_link session rows] in * ].

(** X9. The foreign keys are declared but the store does not enforce
    them: an INSERT of a row whose parent is missing goes in like any
    other, provided it passes CHECK and UNIQUE and the table's keys are
    below the largest integer, and the database then has an orphan.
    This holds for all five referencing tables. *)
Theorem insert_accepts_orphan :
  (forall random (r : ResumeProject.t) db l,
      resume_project db = Some l ->
      ResumeProject.check_template_style r = true ->
      (forall x, In x l -> ResumeProject.project_id x < max_rowid) ->
      ~ In (ResumeProject.user_id r) (user_keys db) ->
      exists r' db',
        insert random r db = Ok (r', db') /\ ~ ref_integrity db')
  /\ (forall random (r : Session.t) db l,
         session db = Some l ->
         ~ In (Session.token r) (map Session.token l) ->
         (forall x, In x l -> Session.session_id x < max_rowid) ->
         ~ In (Session.user_id r) (user_keys db) ->
         exists r' db',
           insert random r db = Ok (r', db') /\ ~ ref_integrity db')
  /\ (forall random (r : Experience.t) db l,
         experience db = Some l ->
         Experience.check_verification_status r = true ->
         Experience.check_date_range r = true ->
         (forall x, In x l -> Experience.experience_id x < max_rowid) ->
         ~ In (Experience.project_id r) (project_keys db) ->
         exists r' db',
           insert random r db = Ok (r', db') /\ ~ ref_integrity db')
  /\ (forall random (r : ShareLink.t) db l,
         share_link db = Some l ->
         ShareLink.check_access_type r = true ->
         ~ In (ShareLink.share_token r) (map ShareLink.share_token l) ->
         (forall x, In x l -> ShareLink.share_id x < max_rowid) ->
         ~ In (ShareLink.project_id r) (project_keys db) ->
         exists r' db',
           insert random r db = Ok (r', db') /\ ~ ref_integrity db')
  /\ (forall random (r : VerificationRequest.t) db l,
         verification_request db = Some l ->
         VerificationRequest.check_request_status r = true ->
         ~ In (VerificationRequest.verification_token r)
              (map VerificationRequest.verification_token l) ->
         (forall x, In x l -> VerificationRequest.request_id x < max_rowid) ->
         ~ In (VerificationRequest.experience_id r) (experience_keys db) ->
         exists r' db',
           insert random r db = Ok (r', db') /\ ~ ref_integrity db').
Proof.
  repeat apply conj.
  - intros random r db l Hl Hc Hk Hno. orphan_accepted ResumeProject_model random r db l Hl Hno.
    + unfold failed_check, check_constraints, ResumeProject_model, find.
      cbn [snd fst]. now rewrite Hc.
    + apply (R1 (ResumeProject.with_pk k r)).
      rewrite in_app_iff. right. now left.
  - intros random r db l Hl Ht Hk Hno. orphan_accepted Session_model random r db l Hl Hno.
    + intros u x [<-|[]] Hx E. apply Ht. cbn in E. rewrite <- E.
      now apply in_map.
    + apply (R2 (Session.with_pk k r)).
      rewrite in_app_iff. right. now left.
  - intros random r db l Hl Hc1 Hc2 Hk Hno. orphan_accepted Experience_model random r db l Hl Hno.
    + rewrite experience_failed_check. now rewrite Hc1, Hc2.
    + apply (R3 (Experience.with_pk k r)).
      rewrite in_app_iff. right. now left.
  - intros random r db l Hl Hc Ht Hk Hno. orphan_accepted ShareLink_model random r db l Hl Hno.
    + unfold failed_check, check_constraints, ShareLink_model, find.
      cbn [snd fst]. now rewrite Hc.
    + intros u x [<-|[]] Hx E. apply Ht. cbn in E. rewrite <- E.
      now apply in_map.
    + apply (R4 (ShareLink.with_pk k r)).
      rewrite in_app_iff. right. now left.
  - intros random r db l Hl Hc Ht Hk Hno. orphan_accepted VerificationRequest_model random r db l Hl Hno.
    + unfold failed_check, check_constraints, VerificationRequest_model,
        find. cbn [snd fst]. now rewrite Hc.
    + intros u x [<-|[]] Hx E. apply Ht. cbn in E. rewrite <- E.
      now apply in_map.
    + apply (R5 (VerificationRequest.with_pk k r)).
      rewrite in_app_iff. right. now left.
Qed.

(** ** onupdate *)

(** X10. An UPDATE of a project or of an experience that does not assign
    [updated_at] stamps the row with the time of the update: every row
    with that key has [updated_at = now] afterwards. *)
Theorem update_stamps_updated_at :
  (forall k now assign db db' x,
      (forall p, ResumeProject.updated_at (assign p)
                 = ResumeProject.updated_at p) ->
      update (model := ResumeProject_model) k now assign db = Ok db' ->
      In x (rows (resume_project db')) -> ResumeProject.project_id x = k ->
      ResumeProject.updated_at x = now)
  /\ (forall k now assign db db' x,
         (forall e, Experience.updated_at (assign e)
                    = Experience.updated_at e) ->
         update (model := Experience_model) k now assign db = Ok db' ->
         In x (rows (experience db')) -> Experience.experience_id x = k ->
         Experience.updated_at x = now).
Proof.
  split; intros k now assign db db' x Ha Hu Hx Hk.
  - destruct (update_row (model := ResumeProject_model) k now assign db db' x
                Hu Hx Hk) as [old [_ [_ ->]]].
    cbn. now rewrite Ha.
  - destruct (update_row (model := Experience_model) k now assign db db' x
                Hu Hx Hk) as [old [_ [_ ->]]].
    cbn. now rewrite Ha.
Qed.


(** ** More on deleting a user *)

Lemma purge_nothing {R} (doomed : R -> bool) (t : table R) :
  (forall r, In r (rows t) -> doomed r = false) -> purge doomed t = t.
Proof.
  destruct t as [l|]; [|reflexivity]. cbn. intros H. f_equal.
  induction l as [|x l IH]; [reflexivity|]. cbn.
  rewrite (H x) by now left. cbn. f_equal. apply IH.
  intros r Hr. apply H. now right.
Qed.

Lemma delete_user_absent (uid : Z) (db : database) us :
  user db = Some us -> ~ In uid (user_keys db) ->
  delete_user uid db = Ok db.
Proof.
  intros Hus Hno. unfold delete_user. rewrite Hus. f_equal.
  rewrite delete_user_where_tables. cbn zeta.
  assert (Hdead : forall k,
             ~ In k (doomed_keys User.user_id
                       (fun u => User.user_id u =? uid) (user db))).
  { intros k Hk. apply dead_users_spec in Hk. tauto. }
  assert (Hu : forall k,
             among (doomed_keys User.user_id
                      (fun u => User.user_id u =? uid) (user db)) k = false).
  { intros k. apply not_true_iff_false. rewrite among_spec. apply Hdead. }
  assert (Hp : forall k,
             among (doomed_keys ResumeProject.project_id
                      (fun p => among (doomed_keys User.user_id
                                   (fun u => User.user_id u =? uid) (user db))
                                  (ResumeProject.user_id p))
                      (resume_project db)) k = false).
  { intros k. apply not_true_iff_false. rewrite among_spec, doomed_keys_spec.
    intros [p [_ [Hd _]]]. now rewrite Hu in Hd. }
  assert (He : forall k,
             among (doomed_keys Experience.experience_id
                      (fun e => among (doomed_keys ResumeProject.project_id
                                   (fun p => among (doomed_keys User.user_id
                                      (fun u => User.user_id u =? uid)
                                      (user db))
                                     (ResumeProject.user_id p))
                                   (resume_project db))
                                  (Experience.project_id e))
                      (experience db)) k = false).
  { intros k. apply not_true_iff_false. rewrite among_spec, doomed_keys_spec.
    intros [e [_ [Hd _]]]. now rewrite Hp in Hd. }
  rewrite !purge_nothing; [now destruct db|..]; intros r Hr; auto.
  apply Z.eqb_neq. intros E. apply Hno. unfold user_keys. rewrite <- E.
  now apply in_map.
Qed.

(** X11. Deleting a user that is not there changes nothing, and deleting
    the same user a second time changes nothing more. *)
Theorem delete_user_twice (uid : Z) (db : database) :
  (forall us, user db = Some us -> ~ In uid (user_keys db) ->
              delete_user uid db = Ok db)
  /\ (forall db', delete_user uid db = Ok db' ->
                  delete_user uid db' = Ok db').
Proof.
  split; [apply delete_user_absent|].
  intros db' H. unfold delete_user in H.
  destruct (user db) as [us|] eqn:Hus; [|discriminate].
  injection H as <-. rewrite delete_user_where_tables. cbn zeta.
  rewrite Hus. eapply delete_user_absent; [reflexivity|].
  unfold user_keys. cbn [user]. rewrite in_map_iff.
  intros [u [Hid Hu]]. apply purge_spec in Hu. destruct Hu as [_ Hu].
  apply Z.eqb_neq in Hu. contradiction.
Qed.

Lemma column_distinct_after_filter {R V} (rs : list R) (column : R -> V)
  (keep : R -> bool) :
  NoDup (map column rs) -> NoDup (map column (filter keep rs)).
Proof.
  induction rs as [|x l IH]; cbn; [auto|]. intros H.
  inversion H as [|? ? Hx Hl]; subst.
  destruct (keep x); cbn; [|now apply IH].
  constructor; [|now apply IH]. intros Hin. apply Hx.
  apply in_map_iff in Hin. destruct Hin as [y [Hy Hyin]].
  apply filter_In in Hyin. rewrite <- Hy. apply in_map. tauto.
Qed.

Lemma table_ok_purge {K R} (model : Model K R) (doomed : R -> bool)
  (db db' : database) :
  get_table db' = purge doomed (get_table db) ->
  table_ok model db -> table_ok model db'.
Proof.
  intros E (Hc & Hu & Hk). unfold table_ok, checks_hold, uniques_hold,
    pk_unique in *. rewrite E.
  destruct (get_table db) as [l|]; cbn in *; [|repeat split; auto].
  repeat split.
  - intros r Hr. apply Hc. apply filter_In in Hr. tauto.
  - intros u Hin. apply column_distinct_after_filter. now apply Hu.
  - now apply column_distinct_after_filter.
Qed.

(** X12. Deleting a user breaks no constraint: CHECK, UNIQUE and PRIMARY
    KEY hold in all seven tables afterwards if they held before, and the
    [template] table is not touched. *)
Theorem delete_user_keeps_tables_ok (uid : Z) (db db' : database) :
  delete_user uid db = Ok db' ->
  (tables_ok db -> tables_ok db') /\ template db' = template db.
Proof.
  unfold delete_user. destruct (user db) as [us|]; [|discriminate].
  intros E. injection E as <-. rewrite delete_user_where_tables. cbn zeta.
  split; [|reflexivity].
  intros (H1 & H2 & H3 & H4 & H5 & H6 & H7).
  do 6 (apply conj;
        [eapply table_ok_purge; [|eassumption]; reflexivity|]).
  exact H7.
Qed.

(** X13. Deleting a user removes nothing else: the other users, the
    projects and sessions of other users, the experiences and share links
    of projects that are not that user's, and the verification requests
    of experiences that are not that user's are all still there. *)
Theorem delete_user_spares_others (uid : Z) (db db' : database) :
  delete_user uid db = Ok db' ->
  (forall u, In u (rows (user db)) -> User.user_id u <> uid ->
             In u (rows (user db')))
  /\ (forall p, In p (rows (resume_project db)) ->
                ResumeProject.user_id p <> uid ->
                In p (rows (resume_project db')))
  /\ (forall s, In s (rows (session db)) -> Session.user_id s <> uid ->
                In s (rows (session db')))
  /\ (forall e, In e (rows (experience db)) ->
                ~ In (Experience.project_id e) (projects_of uid db) ->
                In e (rows (experience db')))
  /\ (forall s, In s (rows (share_link db)) ->
                ~ In (ShareLink.project_id s) (projects_of uid db) ->
                In s (rows (share_link db')))
  /\ (forall v, In v (rows (verification_request db)) ->
                ~ In (VerificationRequest.experience_id v)
                     (experiences_of uid db) ->
                In v (rows (verification_request db'))).
Proof.
  unfold delete_user. destruct (user db) as [us|] eqn:Hus; [|discriminate].
  intros E. injection E as <-. rewrite delete_user_where_tables. cbn zeta.
  cbn [user resume_project session experience share_link
       verification_request].
  set (dead_users :=
         doomed_keys User.user_id (fun u => User.user_id u =? uid) (user db)).
  set (doomed_project :=
         fun p => among dead_users (ResumeProject.user_id p)).
  set (dead_projects :=
         doomed_keys ResumeProject.project_id doomed_project
                     (resume_project db)).
  set (doomed_experience :=
         fun e => among dead_projects (Experience.project_id e)).
  set (dead_experiences :=
         doomed_keys Experience.experience_id doomed_experience
                     (experience db)).
  assert (Hdp : forall p, doomed_project p = true ->
                          ResumeProject.user_id p = uid).
  { intros p Hp. unfold doomed_project in Hp.
    apply among_spec, dead_users_spec in Hp. tauto. }
  assert (Hprojects : forall k, In k dead_projects ->
                                In k (projects_of uid db)).
  { intros k Hk. apply doomed_keys_spec in Hk.
    destruct Hk as [p [Hin [Hd Hk]]]. apply doomed_keys_spec. exists p.
    repeat split; try assumption. apply Z.eqb_eq. now apply Hdp. }
  assert (Hexps : forall k, In k dead_experiences ->
                            In k (experiences_of uid db)).
  { intros k Hk. apply doomed_keys_spec in Hk.
    destruct Hk as [e [Hin [Hd Hk]]]. apply doomed_keys_spec. exists e.
    repeat split; try assumption. unfold doomed_experience in Hd.
    apply among_spec. apply among_spec in Hd. now apply Hprojects. }
  repeat apply conj.
  - intros u Hu Hne. apply purge_spec. rewrite Hus.
    split; [exact Hu|]. now apply Z.eqb_neq.
  - intros p Hp Hne. apply purge_spec. split; [exact Hp|].
    apply not_true_iff_false. intros Hd. now apply Hne, Hdp.
  - intros s Hs Hne. apply purge_spec. split; [exact Hs|].
    apply not_true_iff_false. rewrite among_spec. intros Hd.
    apply dead_users_spec in Hd. tauto.
  - intros e He Hne. apply purge_spec. split; [exact He|].
    apply not_true_iff_false. unfold doomed_experience.
    rewrite among_spec. intros Hd. now apply Hne, Hprojects.
  - intros s Hs Hne. apply purge_spec. split; [exact Hs|].
    apply not_true_iff_false. rewrite among_spec. intros Hd.
    now apply Hne, Hprojects.
  - intros v Hv Hne. apply purge_spec. split; [exact Hv|].
    apply not_true_iff_false. rewrite among_spec. intros Hd.
    now apply Hne, Hexps.
Qed.

(** ** create_all and drop_all on their own *)

(** X14. [create_all] destroys nothing: a table that exists keeps its
    rows, a table that is missing is created empty, so the row counts do
    not change and on the complete schema nothing changes at all.  The
    loss of data in [setup_database] is all [drop_all]'s, which leaves no
    table. *)
Theorem create_all_keeps_rows (db : database) :
  create_all db
  = mkdb (Some (rows (user db))) (Some (rows (resume_project db)))
         (Some (rows (experience db))) (Some (rows (verification_request db)))
         (Some (rows (share_link db))) (Some (rows (session db)))
         (Some (rows (template db)))
  /\ row_counts (create_all db) = row_counts db
  /\ create_all (create_all db) = create_all db
  /\ row_counts (drop_all db) = [0; 0; 0; 0; 0; 0; 0]%nat.
Proof.
  destruct db as [[?|] [?|] [?|] [?|] [?|] [?|] [?|]]; repeat split.
Qed.


(** ** The population script changes the database only by INSERTs *)

Lemma add_insert {K R : Type} {model : Model K R} (obj : K) (w : world) :
  match add obj w with
  | (Ok r, w') =>
      committed w' = committed w
      /\ exists random,
           insert random
                  (fst (column_defaults obj (runtime w) (clock_reads w)))
                  (pending w)
           = Ok (r, pending w')
  | (Err _, w') => committed w' = committed w /\ pending w' = pending w
  end.
Proof.
  unfold add, bind, read_clock.
  destruct (column_defaults obj (runtime w) (clock_reads w)) as [r0 n].
  cbn. destruct (insert _ r0 (pending w)) as [[r db]|e] eqn:I; cbn; eauto.
Qed.

Section Keeps.
Context (P : database -> Prop).

Lemma keeps_bind {A B} (c : M A) (f : A -> M B) :
  keeps P c -> (forall a, keeps P (f a)) -> keeps P (bind c f).
Proof.
  intros Hc Hf w H1 H2. unfold bind. specialize (Hc w H1 H2).
  destruct (c w) as [[a|e] w1]; cbn [snd] in *; [|exact Hc].
  destruct Hc as [G1 G2]. exact (Hf a w1 G1 G2).
Qed.

Lemma keeps_pure {A} (c : M A) :
  (forall w, exists a w',
      c w = (Ok a, w')
      /\ committed w' = committed w /\ pending w' = pending w) ->
  keeps P c.
Proof.
  intros H w H1 H2. destruct (H w) as [a [w' [-> [Hc Hp]]]].
  cbn [snd]. now rewrite Hc, Hp.
Qed.

Lemma keeps_ret {A} (a : A) : keeps P (ret a).
Proof. apply keeps_pure. intros w. now exists a, w. Qed.

Lemma keeps_raise {A} e : keeps P (@raise A e).
Proof. intros w H1 H2. cbn. auto. Qed.

Lemma keeps_read_clock {A} (c : Clock A) : keeps P (read_clock c).
Proof.
  apply keeps_pure. intros w. unfold read_clock.
  destruct (c (runtime w) (clock_reads w)) as [a n]. eauto.
Qed.

Lemma keeps_hash_password password : keeps P (hash_password password).
Proof. apply keeps_pure. intros w. unfold hash_password. eauto. Qed.

Lemma keeps_dumps obj : keeps P (dumps obj).
Proof. apply keeps_pure. intros w. unfold dumps. eauto. Qed.

Lemma keeps_generate_token : keeps P generate_token.
Proof. apply keeps_pure. intros w. unfold generate_token. eauto. Qed.

Lemma keeps_commit : keeps P commit.
Proof. intros w H1 H2. cbn. auto. Qed.

Lemma keeps_rollback : keeps P rollback.
Proof. intros w H1 H2. cbn. auto. Qed.

Lemma keeps_add {K R : Type} {model : Model K R} (obj : K) :
  (forall random (r : R) db r' db',
      P db -> insert random r db = Ok (r', db') -> P db') ->
  keeps P (add obj).
Proof.
  intros Hins w H1 H2. pose proof (add_insert obj w) as H.
  destruct (add obj w) as [[r|e] w']; cbn [snd].
  - destruct H as [Hc [random Hi]]. rewrite Hc. split; [exact H1|].
    exact (Hins random _ (pending w) r (pending w') H2 Hi).
  - destruct H as [Hc Hp]. now rewrite Hc, Hp.
Qed.

Lemma keeps_try_except {A} (body : M A) (handler : db_error -> M A) :
  keeps P body -> (forall e, keeps P (handler e)) ->
  keeps P (try_except body handler).
Proof.
  intros Hb Hh w H1 H2. unfold try_except. specialize (Hb w H1 H2).
  destruct (body w) as [[a|e] w1]; cbn [snd] in *; [exact Hb|].
  destruct Hb as [G1 G2]. exact (Hh e w1 G1 G2).
Qed.

Lemma keeps_try_finally {A} (body : M A) (cleanup : M unit) :
  keeps P body -> keeps P cleanup -> keeps P (try_finally body cleanup).
Proof.
  intros Hb Hc w H1 H2. unfold try_finally. specialize (Hb w H1 H2).
  destruct (body w) as [r w1]. cbn [snd] in *. destruct Hb as [G1 G2].
  exact (Hc w1 G1 G2).
Qed.

Hypothesis closed : insert_closed P.

Ltac keeping :=
  cbv zeta;
  repeat lazymatch goal with
    | |- keeps _ (bind _ _) => apply keeps_bind; [|intros]
    | |- keeps _ (add _) => apply keeps_add; apply closed
    | |- keeps _ commit => apply keeps_commit
    | |- keeps _ (ret _) => apply keeps_ret
    | |- keeps _ (hash_password _) => apply keeps_hash_password
    | |- keeps _ (dumps _) => apply keeps_dumps
    | |- keeps _ generate_token => apply keeps_generate_token
    | |- keeps _ (utcnow_minus _) => apply keeps_read_clock
    | |- keeps _ (utcnow_plus _) => apply keeps_read_clock
    | |- keeps _ (match ?x with _ => _ end) => destruct x
    | |- keeps _ ?c => let h := head_of c in unfold h
    end.

Lemma keeps_populate_rest user1 user2 user3 :
  keeps P (populate_rest user1 user2 user3).
Proof.
  unfold populate_rest.
  apply keeps_bind; [unfold create_resume_projects; keeping|].
  intros [[[project1 project2] project3] project4].
  apply keeps_bind; [unfold create_work_experiences; keeping|].
  intros [[[[[[[exp1 exp2] exp3] exp4] exp5] exp6] exp7] exp8].
  keeping.
Qed.

Lemma keeps_populate_database : keeps P populate_database.
Proof.
  unfold populate_database. apply keeps_try_finally.
  - apply keeps_try_except.
    + change populate_body
        with (bind create_users
                (fun '(user1, user2, user3) =>
                   populate_rest user1 user2 user3)).
      apply keeps_bind; [unfold create_users; keeping|].
      intros [[user1 user2] user3]. apply keeps_populate_rest.
    + intros e. apply keeps_bind; [apply keeps_rollback|].
      intros _. apply keeps_raise.
  - apply keeps_rollback.
Qed.

(** The script changes the database by INSERTs only: whatever no INSERT
    can break, no run can break, whether it returns or raises. *)
Lemma populate_database_keeps (o : oracle) (db : database) :
  P db -> P (snd (run populate_database o db)).
Proof.
  intros H. unfold run.
  pose proof (keeps_populate_database (connect o db) H H) as G.
  destruct (populate_database (connect o db)) as [r w]. cbn [snd] in *.
  tauto.
Qed.

End Keeps.


Lemma insert_closed_and (P Q : database -> Prop) :
  insert_closed P -> insert_closed Q ->
  insert_closed (fun db => P db /\ Q db).
Proof.
  intros (P1 & P2 & P3 & P4 & P5 & P6) (Q1 & Q2 & Q3 & Q4 & Q5 & Q6).
  repeat apply conj; intros random r db r' db' [HP HQ] H; split; eauto.
Qed.

Lemma table_ok_same {K R} (model : Model K R) (db db' : database) :
  get_table db' = get_table db -> table_ok model db -> table_ok model db'.
Proof.
  intros E H. unfold table_ok, checks_hold, uniques_hold, pk_unique in *.
  now rewrite E.
Qed.

Ltac table_ok_kept Hins Hdb :=
  first [ eapply insert_keeps_table_ok; [eassumption | exact Hins]
        | eapply table_ok_same; [|eassumption]; rewrite Hdb; reflexivity ].

Lemma insert_closed_tables_ok : insert_closed tables_ok.
Proof.
  repeat apply conj;
    intros random r db r' db' (H1 & H2 & H3 & H4 & H5 & H6 & H7) Hins;
    destruct (insert_inv random r r' db db' Hins)
      as [l [k [_ [_ [_ [_ Hdb]]]]]];
    unfold tables_ok;
    do 6 (apply conj; [table_ok_kept Hins Hdb|]);
    table_ok_kept Hins Hdb.
Qed.

Lemma grown_refl {R} (t : table R) : grown t t.
Proof. destruct t as [l|]; cbn; [|exact I]. exists []. now rewrite app_nil_r. Qed.

Lemma grown_app {R} (t : table R) (l : list R) (r : R) :
  grown t (Some l) -> grown t (Some (l ++ [r])).
Proof.
  destruct t as [l0|]; cbn; [|tauto]. intros [more ->].
  exists (more ++ [r]). now rewrite app_assoc.
Qed.

Lemma extends_refl (db : database) : extends db db.
Proof. repeat apply conj; try apply grown_refl. reflexivity. Qed.

Lemma insert_closed_extends (db0 : database) : insert_closed (extends db0).
Proof.
  repeat apply conj;
    intros random r db r' db' (H1 & H2 & H3 & H4 & H5 & H6 & H7) Hins;
    destruct (insert_inv random r r' db db' Hins)
      as [l [k [Hl [_ [_ [_ ->]]]]]];
    destruct db as [t1 t2 t3 t4 t5 t6 t7];
    cbn [get_table set_table User_model ResumeProject_model
         Experience_model VerificationRequest_model ShareLink_model
         Session_model set_user set_resume_project set_experience
         set_verification_request set_share_link set_session user
         resume_project experience verification_request share_link session
         template] in *;
    subst; repeat apply conj;
    first [ assumption | apply grown_app; assumption | reflexivity ].
Qed.

(** X16. A run of the population script only adds rows.  Whatever the
    database held before is still there afterwards, table by table and in
    the same order, with the new rows after it; no table is created or
    dropped and [template] is not written; and this is so whether the run
    returned or raised. *)
Theorem populate_database_only_adds (o : oracle) (db : database) :
  extends db (snd (run populate_database o db)).
Proof.
  apply (populate_database_keeps (extends db)).
  - apply insert_closed_extends.
  - apply extends_refl.
Qed.

(** ** The script leaves no orphan

    The store would take an orphan; the script gives it none.  Every
    foreign key it writes is the key of a row it has added before, in the
    same run, and rows are never removed: the proof follows the keys the
    script holds in its variables through the six stages. *)

Lemma grown_keys {R} (key : R -> Z) (t t' : table R) :
  grown t t' -> incl (map key (rows t)) (map key (rows t')).
Proof.
  destruct t as [l|], t' as [l'|]; cbn; try tauto.
  - intros [more ->] z Hz. rewrite map_app, in_app_iff. now left.
  - intros _ z [].
Qed.

Lemma known_extends (k : keys) (db db' : database) :
  extends db db' -> known k db -> known k db'.
Proof.
  intros (G1 & G2 & G3 & _) (K1 & K2 & K3).
  unfold known, user_keys, project_keys, experience_keys in *.
  repeat split; intros z Hz.
  - exact (grown_keys User.user_id _ _ G1 z (K1 z Hz)).
  - exact (grown_keys ResumeProject.project_id _ _ G2 z (K2 z Hz)).
  - exact (grown_keys Experience.experience_id _ _ G3 z (K3 z Hz)).
Qed.

Ltac defaults_field obj :=
  destruct obj; cbn; unfold now_bind;
  repeat match goal with
         | |- context [default_call ?s ?d ?o ?n] =>
             destruct (default_call s d o n)
         end;
  reflexivity.

Lemma project_defaults_user_id (obj : ResumeProject.kw.t) o n :
  ResumeProject.user_id (fst (column_defaults obj o n))
  = ResumeProject.kw.user_id obj.
Proof. defaults_field obj. Qed.

Lemma experience_defaults_project_id (obj : Experience.kw.t) o n :
  Experience.project_id (fst (column_defaults obj o n))
  = Experience.kw.project_id obj.
Proof. defaults_field obj. Qed.

Lemma request_defaults_experience_id (obj : VerificationRequest.kw.t) o n :
  VerificationRequest.experience_id (fst (column_defaults obj o n))
  = VerificationRequest.kw.experience_id obj.
Proof. defaults_field obj. Qed.

Lemma share_link_defaults_project_id (obj : ShareLink.kw.t) o n :
  ShareLink.project_id (fst (column_defaults obj o n))
  = ShareLink.kw.project_id obj.
Proof. defaults_field obj. Qed.

Lemma session_defaults_user_id (obj : Session.kw.t) o n :
  Session.user_id (fst (column_defaults obj o n)) = Session.kw.user_id obj.
Proof. defaults_field obj. Qed.

Section Sound.
Context {A B : Type}.

Lemma sound_bind k (c : M A) q (f : A -> M B) q' :
  sound k c q -> (forall a, sound (q a) (f a) q') -> sound k (bind c f) q'.
Proof.
  intros Hc Hf w H1 H2 Hk. unfold bind. specialize (Hc w H1 H2 Hk).
  destruct (c w) as [[a|e] w1]; [|exact Hc].
  destruct Hc as (G1 & G2 & G3). exact (Hf a w1 G1 G2 G3).
Qed.

Lemma sound_bind_assoc {C} k (c : M C) (g : C -> M A) (f : A -> M B) q :
  sound k (bind c (fun a => bind (g a) f)) q -> sound k (bind (bind c g) f) q.
Proof. intros H w H1 H2 Hk. rewrite bind_bind. exact (H w H1 H2 Hk). Qed.

Lemma sound_ret_bind k (a : A) (f : A -> M B) q :
  sound k (f a) q -> sound k (bind (ret a) f) q.
Proof. intros H w H1 H2 Hk. exact (H w H1 H2 Hk). Qed.

Lemma sound_pure k (c : M A) :
  (forall w, exists a w',
      c w = (Ok a, w')
      /\ committed w' = committed w /\ pending w' = pending w) ->
  sound k c (fun _ => k).
Proof.
  intros H w H1 H2 Hk. destruct (H w) as [a [w' [-> [Hc Hp]]]].
  now rewrite Hc, Hp.
Qed.

Lemma sound_weaken k (c : M A) (q q' : A -> keys) :
  sound k c q -> (forall a db, known (q a) db -> known (q' a) db) ->
  sound k c q'.
Proof.
  intros H Hq w H1 H2 Hk. specialize (H w H1 H2 Hk).
  destruct (c w) as [[a|e] w1]; [|exact H].
  destruct H as (G1 & G2 & G3). auto.
Qed.

End Sound.

Lemma sound_read_clock {A} k (c : Clock A) : sound k (read_clock c) (fun _ => k).
Proof.
  apply sound_pure. intros w. unfold read_clock.
  destruct (c (runtime w) (clock_reads w)) as [a n]. eauto.
Qed.

Lemma sound_hash_password k password :
  sound k (hash_password password) (fun _ => k).
Proof. apply sound_pure. intros w. unfold hash_password. eauto. Qed.

Lemma sound_dumps k obj : sound k (dumps obj) (fun _ => k).
Proof. apply sound_pure. intros w. unfold dumps. eauto. Qed.

Lemma sound_generate_token k : sound k generate_token (fun _ => k).
Proof. apply sound_pure. intros w. unfold generate_token. eauto. Qed.

Lemma sound_commit k : sound k commit (fun _ => k).
Proof. intros w H1 H2 Hk. cbn. auto. Qed.

Ltac sound_add obj lemma :=
  let w := fresh "w" in
  let H := fresh "H" in
  let random := fresh "random" in
  let Hi := fresh "Hi" in
  let Hc := fresh "Hc" in
  let Hx := fresh "Hx" in
  let r := fresh "r" in
  let e := fresh "e" in
  let w' := fresh "w'" in
  intros w H1 H2 Hk; pose proof (add_insert obj w) as H;
  destruct (add obj w) as [[r|e] w'];
  [ destruct H as [Hc [random Hi]]; rewrite Hc;
    assert (Hx : extends (pending w) (pending w'))
      by (first [ exact (proj1 (insert_closed_extends (pending w)) random
                           _ _ _ _ (extends_refl _) Hi)
                | exact (proj1 (proj2 (insert_closed_extends (pending w)))
                           random _ _ _ _ (extends_refl _) Hi)
                | exact (proj1 (proj2 (proj2
                           (insert_closed_extends (pending w))))
                           random _ _ _ _ (extends_refl _) Hi)
                | exact (proj1 (proj2 (proj2 (proj2
                           (insert_closed_extends (pending w)))))
                           random _ _ _ _ (extends_refl _) Hi)
                | exact (proj1 (proj2 (proj2 (proj2 (proj2
                           (insert_closed_extends (pending w))))))
                           random _ _ _ _ (extends_refl _) Hi)
                | exact (proj2 (proj2 (proj2 (proj2 (proj2
                           (insert_closed_extends (pending w))))))
                           random _ _ _ _ (extends_refl _) Hi) ]);
    pose proof (known_extends _ _ _ Hx Hk) as Hk';
    apply lemma in Hi; [|exact H2|..]
  | destruct H as [Hc _]; now rewrite Hc ].

Lemma sound_add_user k (obj : User.kw.t) :
  sound k (add obj)
        (fun r => mkkeys (User.user_id r :: user_ids k) (project_ids k)
                         (experience_ids k)).
Proof.
  sound_add obj insert_user_sound. destruct Hi as [G1 G2].
  destruct Hk' as (K1 & K2 & K3).
  apply conj; [exact H1|]. apply conj; [exact G1|].
  apply conj; [|exact (conj K2 K3)].
  cbn. intros z [<-|Hz]; [exact G2 | now apply K1].
Qed.

Lemma sound_add_project k (obj : ResumeProject.kw.t) :
  In (ResumeProject.kw.user_id obj) (user_ids k) ->
  sound k (add obj)
        (fun r => mkkeys (user_ids k)
                         (ResumeProject.project_id r :: project_ids k)
                         (experience_ids k)).
Proof.
  intros Hin. sound_add obj insert_project_sound.
  - destruct Hi as [G1 G2].
    destruct Hk' as (K1 & K2 & K3).
    apply conj; [exact H1|]. apply conj; [exact G1|].
    apply conj; [exact K1|]. apply conj; [|exact K3].
    cbn. intros z [<-|Hz]; [exact G2 | now apply K2].
  - rewrite project_defaults_user_id. now apply (proj1 Hk).
Qed.

Lemma sound_add_experience k (obj : Experience.kw.t) :
  In (Experience.kw.project_id obj) (project_ids k) ->
  sound k (add obj)
        (fun r => mkkeys (user_ids k) (project_ids k)
                         (Experience.experience_id r :: experience_ids k)).
Proof.
  intros Hin. sound_add obj insert_experience_sound.
  - destruct Hi as [G1 G2].
    destruct Hk' as (K1 & K2 & K3).
    apply conj; [exact H1|]. apply conj; [exact G1|].
    apply conj; [exact K1|]. apply conj; [exact K2|].
    cbn. intros z [<-|Hz]; [exact G2 | now apply K3].
  - rewrite experience_defaults_project_id. now apply (proj1 (proj2 Hk)).
Qed.

Lemma sound_add_request k (obj : VerificationRequest.kw.t) :
  In (VerificationRequest.kw.experience_id obj) (experience_ids k) ->
  sound k (add obj) (fun _ => k).
Proof.
  intros Hin. sound_add obj insert_request_sound.
  - exact (conj H1 (conj Hi Hk')).
  - rewrite request_defaults_experience_id. now apply (proj2 (proj2 Hk)).
Qed.

Lemma sound_add_share_link k (obj : ShareLink.kw.t) :
  In (ShareLink.kw.project_id obj) (project_ids k) ->
  sound k (add obj) (fun _ => k).
Proof.
  intros Hin. sound_add obj insert_share_link_sound.
  - exact (conj H1 (conj Hi Hk')).
  - rewrite share_link_defaults_project_id. now apply (proj1 (proj2 Hk)).
Qed.

Lemma sound_add_session k (obj : Session.kw.t) :
  In (Session.kw.user_id obj) (user_ids k) ->
  sound k (add obj) (fun _ => k).
Proof.
  intros Hin. sound_add obj insert_session_sound.
  - exact (conj H1 (conj Hi Hk')).
  - rewrite session_defaults_user_id. now apply (proj1 Hk).
Qed.

(** The key on the left is one of the keys known: it is looked up in the
    list. *)
Ltac key_known :=
  cbn [user_ids project_ids experience_ids ResumeProject.kw.user_id
       Experience.kw.project_id VerificationRequest.kw.experience_id
       ShareLink.kw.project_id Session.kw.user_id In];
  tauto.

Ltac sound_step :=
  cbn [user_ids project_ids experience_ids];
  lazymatch goal with
  | |- sound _ (bind (bind _ _) _) _ => apply sound_bind_assoc
  | |- sound _ (bind (ret _) _) _ => apply sound_ret_bind; cbv beta iota zeta
  | |- sound _ (bind (@add _ _ User_model _) _) _ =>
      eapply sound_bind; [apply sound_add_user | intros ?; cbv beta]
  | |- sound _ (bind (@add _ _ ResumeProject_model _) _) _ =>
      eapply sound_bind;
      [apply sound_add_project; key_known | intros ?; cbv beta]
  | |- sound _ (bind (@add _ _ Experience_model _) _) _ =>
      eapply sound_bind;
      [apply sound_add_experience; key_known | intros ?; cbv beta]
  | |- sound _ (bind (@add _ _ VerificationRequest_model _) _) _ =>
      eapply sound_bind;
      [apply sound_add_request; key_known | intros ?; cbv beta]
  | |- sound _ (bind (@add _ _ ShareLink_model _) _) _ =>
      eapply sound_bind;
      [apply sound_add_share_link; key_known | intros ?; cbv beta]
  | |- sound _ (bind (@add _ _ Session_model _) _) _ =>
      eapply sound_bind;
      [apply sound_add_session; key_known | intros ?; cbv beta]
  | |- sound _ (bind commit _) _ =>
      eapply sound_bind; [apply sound_commit | intros ?; cbv beta]
  | |- sound _ (bind (hash_password _) _) _ =>
      eapply sound_bind; [apply sound_hash_password | intros ?; cbv beta]
  | |- sound _ (bind (dumps _) _) _ =>
      eapply sound_bind; [apply sound_dumps | intros ?; cbv beta]
  | |- sound _ (bind generate_token _) _ =>
      eapply sound_bind; [apply sound_generate_token | intros ?; cbv beta]
  | |- sound _ (bind (utcnow_minus _) _) _ =>
      eapply sound_bind; [apply sound_read_clock | intros ?; cbv beta]
  | |- sound _ (bind (utcnow_plus _) _) _ =>
      eapply sound_bind; [apply sound_read_clock | intros ?; cbv beta]
  | |- sound _ (bind ?c _) _ =>
      let h := head_of c in unfold h; cbv beta iota zeta
  | |- sound _ commit _ =>
      eapply sound_weaken; [apply sound_commit|];
      intros _ db _; repeat split; intros z []
  | |- sound _ ?c _ => let h := head_of c in unfold h; cbv beta iota zeta
  end.

Lemma populate_body_sound :
  sound (mkkeys [] [] []) populate_body (fun _ => mkkeys [] [] []).
Proof. unfold populate_body. repeat sound_step. Qed.

(** A run leaves no orphan if there was none. *)
Lemma populate_database_keeps_ref_integrity (o : oracle) (db : database) :
  ref_integrity db -> ref_integrity (snd (run populate_database o db)).
Proof.
  intros H. unfold run, populate_database, try_finally, try_except.
  assert (K : known (mkkeys [] [] []) (pending (connect o db)))
    by (repeat split; intros z []).
  pose proof (populate_body_sound (connect o db) H H K) as G.
  destruct (populate_body (connect o db)) as [[a|e] w']; cbn.
  - apply G.
  - exact G.
Qed.

(** X15. A run of the population script keeps the schema contract: if
    CHECK, UNIQUE and PRIMARY KEY held in every table and no row was an
    orphan before the run, the same is true of what the run leaves
    committed, whether it returned or raised part of the way.  The
    constraints are kept by the store; that no orphan appears is the
    script's doing, since the store does not test the foreign keys. *)
Theorem populate_database_keeps_consistent (o : oracle) (db : database) :
  consistent db -> consistent (snd (run populate_database o db)).
Proof.
  intros [H1 H2]. split.
  - exact (populate_database_keeps tables_ok insert_closed_tables_ok o db H1).
  - exact (populate_database_keeps_ref_integrity o db H2).
Qed.

(** ** Running the script without setup, and running it again *)

Lemma add_no_table {K R : Type} {model : Model K R} (k : K) (w : world)
  r0 n' :
  column_defaults k (runtime w) (clock_reads w) = (r0, n') ->
  get_table (pending w) = None ->
  add k w
  = (Err (NoSuchTable tablename),
     mkworld (runtime w) n' (tokens_drawn w) (committed w) (pending w)
             (emitted w)).
Proof.
  intros Hd Ht. unfold add, bind, read_clock. rewrite Hd. cbn.
  unfold insert. cbn. now rewrite Ht.
Qed.

(** X17. Without the [user] table (setup was not run) the script fails on
    its first INSERT with "no such table: user" and leaves the database as
    it was. *)
Theorem populate_database_needs_setup (o : oracle) (db : database) :
  user db = None ->
  run populate_database o db = (Err (NoSuchTable "user"), db).
Proof.
  intros Hu.
  assert (H : exists w',
             populate_body (connect o db) = (Err (NoSuchTable "user"), w')
             /\ committed w' = db).
  { eexists. split.
    - unfold populate_body, connect.
      repeat lazymatch goal with
             | |- bind (@add _ _ _ _) _ _ = _ => fail
             | |- _ => step I
             end.
      erewrite bind_err; [reflexivity|].
      eapply (add_no_table (model := User_model)); [reflexivity | exact Hu].
    - reflexivity. }
  destruct H as [w' [E Hc]].
  unfold run, populate_database, try_finally, try_except.
  rewrite E. cbn. now rewrite Hc.
Qed.

Lemma create_users_stores_first_username (w w1 : world) x :
  create_users w = (Ok x, w1) ->
  pending w1 = committed w1
  /\ exists l, user (committed w1) = Some l
               /\ In "johndoe" (map User.username l).
Proof.
  unfold create_users. cbv zeta.
  repeat first [ rewrite (bind_ok (hash_password _) _ _ _ _ eq_refl)
               | rewrite (bind_ok (utcnow_minus _) _ _ _ _ eq_refl) ].
  unfold bind.
  destruct (add _ _) as [[u1|e] w2] eqn:A1; [|discriminate].
  destruct (add _ w2) as [[u2|e] w3] eqn:A2; [|discriminate].
  destruct (add _ w3) as [[u3|e] w4] eqn:A3; [|discriminate].
  cbn. intros E. injection E as _ <-. cbn [pending committed].
  split; [reflexivity|].
  apply add_inv in A1. destruct A1 as [l1 [k1 [_ [_ [Hr1 [Hp1 _]]]]]].
  apply add_inv in A2. destruct A2 as [l2 [k2 [Hl2 [_ [_ [Hp2 _]]]]]].
  apply add_inv in A3. destruct A3 as [l3 [k3 [Hl3 [_ [_ [Hp3 _]]]]]].
  rewrite Hp3. cbn [set_table User_model set_user user]. eexists.
  split; [reflexivity|].
  rewrite Hp2 in Hl3. cbn in Hl3. injection Hl3 as <-.
  rewrite Hp1 in Hl2. cbn in Hl2. injection Hl2 as <-.
  rewrite !map_app, !in_app_iff. left. left. right. left.
  rewrite Hr1. reflexivity.
Qed.

Lemma insert_closed_has_username (username : string) :
  insert_closed (fun db => exists l, user db = Some l
                                     /\ In username (map User.username l)).
Proof.
  repeat apply conj;
    intros random r db r' db' [l0 [Hu Hin]] Hins;
    destruct (insert_inv random r r' db db' Hins)
      as [l [k [Hl [_ [_ [_ ->]]]]]];
    destruct db as [t1 t2 t3 t4 t5 t6 t7];
    cbn [get_table set_table User_model ResumeProject_model
         Experience_model VerificationRequest_model ShareLink_model
         Session_model set_user set_resume_project set_experience
         set_verification_request set_share_link set_session user] in *;
    subst; eauto.
  injection Hl as <-. eexists. split; [reflexivity|].
  rewrite map_app, in_app_iff. now left.
Qed.

(** What the body of the [try] leaves committed: nothing new, or at least
    the first user. *)
Lemma populate_body_commits_first_username (w : world) :
  pending w = committed w ->
  committed (snd (populate_body w)) = committed w
  \/ exists l, user (committed (snd (populate_body w))) = Some l
               /\ In "johndoe" (map User.username l).
Proof.
  intros Hw.
  set (P := fun d => exists l, user d = Some l
                      /\ In "johndoe" (map User.username l)).
  pose proof (insert_closed_has_username "johndoe") as Hclosed.
  fold P in Hclosed. fold (P (committed (snd (populate_body w)))).
  change populate_body
    with (bind create_users
            (fun '(user1, user2, user3) => populate_rest user1 user2 user3)).
  unfold bind.
  pose proof (commits_create_users (committed w) (row_counts (pending w)) w
                eq_refl eq_refl) as Hc.
  destruct (create_users w) as [[x|e] w1] eqn:E1.
  - right. apply create_users_stores_first_username in E1.
    destruct E1 as [Hclean HP].
    destruct x as [[user1 user2] user3].
    assert (HP' : P (pending w1)) by (now rewrite Hclean).
    exact (proj1 (keeps_populate_rest P Hclosed user1 user2 user3 w1 HP HP')).
  - left. cbn [snd]. exact Hc.
Qed.

(** What a run leaves: either nothing new, or at least the first user. *)
Lemma populate_database_commits_first_username (o : oracle)
  (db : database) :
  snd (run populate_database o db) = db
  \/ exists l, user (snd (run populate_database o db)) = Some l
               /\ In "johndoe" (map User.username l).
Proof.
  pose proof (populate_body_commits_first_username (connect o db) eq_refl)
    as H.
  unfold run, populate_database, try_finally, try_except.
  destruct (populate_body (connect o db)) as [[a|e] w']; cbn in *; exact H.
Qed.

(** X18. Once a run has committed anything, the script cannot be run
    again on that database: whatever the first run did, if it changed the
    database then every later run fails on its first INSERT, on the unique
    username of the first user, and changes nothing.  (Only
    [setup_database] makes the script runnable again.) *)
Theorem populate_database_runs_once (o1 o2 : oracle) (db : database) :
  snd (run populate_database o1 db) <> db ->
  run populate_database o2 (snd (run populate_database o1 db))
  = (Err (UniqueFailed "user" "username"),
     snd (run populate_database o1 db)).
Proof.
  intros Hne.
  destruct (populate_database_commits_first_username o1 db)
    as [E|[l [Hl Hin]]]; [contradiction|].
  exact (populate_database_existing_username o2 _ l Hl Hin).
Qed.

(** ** The further properties at concrete inputs *)

Lemma insert_assigns_fresh_key_witness :
  ~ In 3 (map User.user_id (rows (user small_db)))
  /\ exists x, In x (rows (user small_db)) /\ 3 = User.user_id x + 1.
Proof.
  pose proof (insert_assigns_fresh_key (model := User_model) []
                (User.mk 0 "cy@email.com" "cy" "z" None "normal" 0)
                (User.mk 3 "cy@email.com" "cy" "z" None "normal" 0)
                small_db
                (set_user (Some [member1; member2;
                                 User.mk 3 "cy@email.com" "cy" "z" None
                                         "normal" 0]) small_db)
                eq_refl) as H.
  split; [exact (proj1 H)|].
  refine (proj1 (proj1 (proj2 (proj2 (proj2 H))) _ _)).
  - cbn. intros x [<-|[<-|[]]]; reflexivity.
  - discriminate.
Defined.

Lemma insert_enforces_unique_witness :
  exists e, insert [] (User.mk 0 "ann@email.com" "cy" "z" None "normal" 0)
                   small_db = Err e.
Proof.
  apply (proj2 (insert_enforces_unique (model := User_model) []
                  (User.mk 0 "ann@email.com" "cy" "z" None "normal" 0)
                  small_db)
           ("email", User.email) member1).
  - left. reflexivity.
  - left. reflexivity.
  - reflexivity.
Defined.

Lemma update_enforces_unique_witness :
  exists e,
    update (model := User_model) 2 0 take_anns_email small_db = Err e.
Proof.
  apply (proj2 (update_enforces_unique (model := User_model) 2 0
                  take_anns_email small_db)
           [member1; member2] member2 ("email", User.email) member1).
  - reflexivity.
  - reflexivity.
  - left. reflexivity.
  - left. reflexivity.
  - discriminate.
  - reflexivity.
Defined.

Lemma template_style_enforced_witness :
  exists e, insert [] fancy_project small_db = Err e.
Proof.
  apply (proj2 (proj2 template_style_enforced) [] fancy_project small_db).
  cbn. intros [H|[H|[H|[]]]]; discriminate H.
Defined.

Lemma verification_status_enforced_witness :
  exists e, insert [] unknown_experience small_db = Err e.
Proof.
  apply (proj2 (proj2 verification_status_enforced) [] unknown_experience
           small_db).
  cbn. intros [H|[H|[H|[H|[]]]]]; discriminate H.
Defined.

Lemma request_status_enforced_witness :
  exists e, insert [] lost_request small_db = Err e.
Proof.
  apply (proj2 (proj2 request_status_enforced) [] lost_request small_db).
  cbn. intros [H|[H|[H|[H|[]]]]]; discriminate H.
Defined.

Lemma access_type_enforced_witness :
  exists e, insert [] admin_link small_db = Err e.
Proof.
  apply (proj2 (proj2 access_type_enforced) [] admin_link small_db).
  cbn. intros [H|[H|[]]]; discriminate H.
Defined.

Lemma insert_keeps_ref_integrity_witness :
  ref_integrity
    (set_resume_project
       (Some [plan1; ResumeProject.with_pk 2 plan1]) small_db).
Proof.
  apply (proj1 (proj2 insert_keeps_ref_integrity) [] plan1 small_db
           (ResumeProject.with_pk 2 plan1)).
  - apply ref_integrityb_spec. reflexivity.
  - left. reflexivity.
  - reflexivity.
Defined.

Lemma insert_accepts_orphan_witness :
  exists r' db',
    insert [] orphan_project small_db = Ok (r', db') /\ ~ ref_integrity db'.
Proof.
  apply (proj1 insert_accepts_orphan [] orphan_project small_db [plan1]).
  - reflexivity.
  - reflexivity.
  - intros x [<-|[]]. reflexivity.
  - cbn. intros [H|[H|[]]]; discriminate H.
Defined.

Lemma update_stamps_updated_at_witness :
  ResumeProject.updated_at
    (on_update (Model := ResumeProject_model) 42 plan1) = 42.
Proof.
  apply (proj1 update_stamps_updated_at 1 42 (fun p => p) small_db
           (set_resume_project
              (Some [on_update (Model := ResumeProject_model) 42 plan1])
              small_db)).
  - reflexivity.
  - reflexivity.
  - left. reflexivity.
  - reflexivity.
Defined.

Lemma delete_user_twice_witness : delete_user 9 small_db = Ok small_db.
Proof.
  apply (proj1 (delete_user_twice 9 small_db) [member1; member2]).
  - reflexivity.
  - cbn. intros [H|[H|[]]]; discriminate H.
Defined.

Lemma delete_user_keeps_tables_ok_witness :
  template (delete_user_where (fun u => User.user_id u =? 1) small_db)
  = template small_db.
Proof.
  apply (delete_user_keeps_tables_ok 1 small_db). reflexivity.
Defined.

Lemma delete_user_spares_others_witness :
  In member2
     (rows (user (delete_user_where (fun u => User.user_id u =? 1)
                                    small_db))).
Proof.
  apply (proj1 (delete_user_spares_others 1 small_db
                  (delete_user_where (fun u => User.user_id u =? 1) small_db)
                  eq_refl)).
  - right. left. reflexivity.
  - discriminate.
Defined.

Lemma consistent_empty_schema : consistent empty_schema.
Proof.
  split; [|apply ref_integrityb_spec; reflexivity].
  repeat apply conj; try (intros r []); try (intros u _); constructor.
Qed.

Lemma populate_database_keeps_consistent_witness :
  consistent (snd (run populate_database demo_oracle empty_schema)).
Proof.
  apply (populate_database_keeps_consistent demo_oracle empty_schema).
  exact consistent_empty_schema.
Defined.

Lemma populate_database_needs_setup_witness :
  run populate_database demo_oracle no_tables
  = (Err (NoSuchTable "user"), no_tables).
Proof.
  apply (populate_database_needs_setup demo_oracle no_tables). reflexivity.
Defined.

Lemma users_only_run_changes :
  snd (run populate_database demo_oracle users_only) <> users_only.
Proof.
  assert (H : row_counts (snd (run populate_database demo_oracle users_only))
              = [3; 0; 0; 0; 0; 0; 0]%nat) by (vm_compute; reflexivity).
  intros E. rewrite E in H. discriminate H.
Qed.

Lemma populate_database_runs_once_witness :
  run populate_database stuck_oracle
      (snd (run populate_database demo_oracle users_only))
  = (Err (UniqueFailed "user" "username"),
     snd (run populate_database demo_oracle users_only)).
Proof.
  apply (populate_database_runs_once demo_oracle stuck_oracle users_only).
  exact users_only_run_changes.
Defined.
